(** * DataVisualizer: the blood-work parsing service

    A shallow embedding of [backend/app/services/pdf_parser.py] (row parser,
    unit extractor, date resolver, table assembler) and of the range query of
    [backend/app/services/database.py], with the properties of the
    specification stated and settled against them.

    Conventions of the embedding:
    - a Python [str] is the list of its Unicode code points ([pystr]);
    - a Python [float] is an IEEE-754 binary64 datum, [spec_float] of the
      standard library, with [prec = 53] and [emax = 1024];
    - code that may raise returns an [outcome]; [try]/[except] is a match on it;
    - the Unicode property tables Python consults ([\d], [\w], [str.isdigit],
      [str.upper]) are a class [UnicodeData]: general theorems hold for every
      table, concrete runs use the ASCII rows ([ascii_tables]);
    - how [strftime] writes a year below 1000 depends on the platform: a
      class [Platform]; concrete runs use the one that does not pad ([glibc]);
    - the wall clock ([datetime.now()]) and the InfluxDB client are inputs. *)

From Stdlib Require Import String Ascii.
From Stdlib Require Import ZArith NArith PArith List Bool Lia.
From Stdlib Require Import Floats.SpecFloat.
Import ListNotations.

Set Implicit Arguments.

(** ** Exceptions *)

Inductive exn : Type := AttributeError | TypeError | ValueError | QueryError.

Inductive outcome (A : Type) : Type :=
| Returned (a : A)
| Raised (e : exn).

Arguments Returned {A} a.
Arguments Raised {A} e.

Definition bind {A B : Type} (c : outcome A) (k : A -> outcome B) : outcome B :=
  match c with
  | Returned a => k a
  | Raised e => Raised e
  end.

Notation "x <- c ;; k" := (bind c (fun x => k))
  (at level 61, c at next level, right associativity).

(** [[f(x) for x in xs]] where [f] may raise: left to right, first raise wins. *)
Fixpoint mapM {A B : Type} (f : A -> outcome B) (xs : list A) : outcome (list B) :=
  match xs with
  | [] => Returned []
  | x :: xs' => y <- f x ;; ys <- mapM f xs' ;; Returned (y :: ys)
  end.

(** ** Strings *)

Definition pystr : Type := list N.

(** An ASCII literal as a [pystr]. *)
Definition lit (s : string) : pystr := map N_of_ascii (list_ascii_of_string s).
Arguments lit s%_string.

(** GREEK SMALL LETTER MU, U+03BC, the non-ASCII character of the unit
    catalogue and of the unit pattern. *)
Definition mu : N := 956%N.

Definition nonempty {A : Type} (s : list A) : bool :=
  match s with [] => false | _ :: _ => true end.

Fixpoint pystr_eqb (s t : pystr) : bool :=
  match s, t with
  | [], [] => true
  | a :: s', b :: t' => (a =? b)%N && pystr_eqb s' t'
  | _, _ => false
  end.

Fixpoint take_while {A : Type} (p : A -> bool) (s : list A) : list A :=
  match s with
  | c :: s' => if p c then c :: take_while p s' else []
  | [] => []
  end.

Fixpoint drop_while {A : Type} (p : A -> bool) (s : list A) : list A :=
  match s with
  | c :: s' => if p c then drop_while p s' else s
  | [] => []
  end.

(** [str.isspace] per character: the whitespace table of CPython
    ([_PyUnicode_IsWhitespace]), complete. *)
Definition isspace_char (c : N) : bool :=
  (((9 <=? c) && (c <=? 13)) || ((28 <=? c) && (c <=? 32))
   || (c =? 133) || (c =? 160) || (c =? 5760)
   || ((8192 <=? c) && (c <=? 8202))
   || (c =? 8232) || (c =? 8233) || (c =? 8239) || (c =? 8287)
   || (c =? 12288))%N.

Definition lstrip (s : pystr) : pystr := drop_while isspace_char s.
Definition rstrip (s : pystr) : pystr := rev (drop_while isspace_char (rev s)).
(** [s.strip()] *)
Definition strip (s : pystr) : pystr := rstrip (lstrip s).

(** [s.split(sep)] for a one-character separator: never the empty list. *)
Fixpoint split_on (sep : N) (s : pystr) : list pystr :=
  match s with
  | [] => [[]]
  | c :: s' =>
      if (c =? sep)%N then [] :: split_on sep s'
      else match split_on sep s' with
           | p :: ps => (c :: p) :: ps
           | [] => [[c]]
           end
  end.

(** [s.replace(c, '')] for a one-character [c]. *)
Definition remove_char (c : N) (s : pystr) : pystr :=
  filter (fun x => negb (x =? c)%N) s.

Fixpoint startswith (p s : pystr) : bool :=
  match p, s with
  | [], _ => true
  | a :: p', b :: s' => (a =? b)%N && startswith p' s'
  | _ :: _, [] => false
  end.

(** [p in s]: substring containment. *)
Fixpoint contains (p s : pystr) : bool :=
  startswith p s ||
  match s with
  | [] => false
  | _ :: s' => contains p s'
  end.

(** [sep.join(parts)] on strings. *)
Fixpoint join (sep : pystr) (parts : list pystr) : pystr :=
  match parts with
  | [] => []
  | [p] => p
  | p :: ps => p ++ sep ++ join sep ps
  end.

(** ** Unicode property tables *)

Definition ascii_decimal (c : N) : option N :=
  if ((48 <=? c) && (c <=? 57))%N then Some (c - 48)%N else None.

Class UnicodeData : Type := {
  (** value of a decimal digit (category Nd): [\d], [float()], [int()] *)
  decimal_value : N -> option N;
  (** [str.isdigit] per character *)
  isdigit_char : N -> bool;
  (** [\w] per character, for [\b] *)
  word_char : N -> bool;
  (** full upper-case mapping of one character, for [str.upper] *)
  upper_char : N -> pystr;
  (** on the ASCII range the decimal digits are '0' to '9' *)
  decimal_ascii : forall c, (c < 128)%N -> decimal_value c = ascii_decimal c;
  (** a decimal digit has a value from 0 to 9 *)
  decimal_bound : forall c v, decimal_value c = Some v -> (v < 10)%N
}.

Definition ascii_alpha (c : N) : bool :=
  (((65 <=? c) && (c <=? 90)) || ((97 <=? c) && (c <=? 122)))%N.

Lemma ascii_decimal_bound (c v : N) : ascii_decimal c = Some v -> (v < 10)%N.
Proof.
  unfold ascii_decimal.
  destruct (48 <=? c)%N eqn:E1; [|discriminate].
  destruct (c <=? 57)%N eqn:E2; [|discriminate].
  apply N.leb_le in E1, E2. intros [= <-]. lia.
Qed.

#[export] Instance ascii_tables : UnicodeData := {|
  decimal_value := ascii_decimal;
  isdigit_char := fun c => ((48 <=? c) && (c <=? 57))%N;
  word_char := fun c => (ascii_alpha c || ((48 <=? c) && (c <=? 57)) || (c =? 95))%N;
  upper_char := fun c => if ((97 <=? c) && (c <=? 122))%N then [(c - 32)%N] else [c];
  decimal_ascii := fun c _ => eq_refl;
  decimal_bound := ascii_decimal_bound
|}.

Section Unicode.
Context {U : UnicodeData}.

Definition is_decimal (c : N) : bool :=
  match decimal_value c with Some _ => true | None => false end.

(** [s.isdigit()] *)
Definition str_isdigit (s : pystr) : bool :=
  nonempty s && forallb isdigit_char s.

(** [s.upper()] *)
Definition upper (s : pystr) : pystr := flat_map upper_char s.

(** ** Floats *)

(** Values of the characters of a run of decimal digits; [None] when a
    character is not a decimal digit. *)
Fixpoint digit_values (s : pystr) : option (list N) :=
  match s with
  | [] => Some []
  | c :: s' =>
      match decimal_value c, digit_values s' with
      | Some v, Some vs => Some (v :: vs)
      | _, _ => None
      end
  end.

Definition digits_to_N (ds : list N) : N :=
  fold_left (fun acc d => (10 * acc + d)%N) ds 0%N.

Fixpoint pow10 (k : nat) : positive :=
  match k with
  | O => 1%positive
  | S k' => (10 * pow10 k')%positive
  end.

(** The binary64 nearest to [n / d], ties to even. *)
Definition float_of_ratio (n : N) (d : positive) : spec_float :=
  match n with
  | N0 => S754_zero false
  | Npos p => SFdiv 53 1024 (S754_finite false p 0) (S754_finite false d 0)
  end.

(** [float(s)] for an unsigned decimal literal [digits] or
    [digits . digits*], the only spellings [parse_test_row] hands to it;
    everything else is answered with [ValueError]. *)
Definition py_float (s : pystr) : outcome spec_float :=
  let ip := take_while is_decimal s in
  match digit_values ip, skipn (length ip) s with
  | Some (i :: is'), [] => Returned (float_of_ratio (digits_to_N (i :: is')) 1)
  | Some (i :: is'), dot :: fp =>
      if (dot =? 46)%N then
        match digit_values fp with
        | Some fs =>
            Returned (float_of_ratio (digits_to_N ((i :: is') ++ fs))
                                     (pow10 (length fs)))
        | None => Raised ValueError
        end
      else Raised ValueError
  | _, _ => Raised ValueError
  end.
End Unicode.

(** Truth value of a float: false exactly for the zeros. *)
Definition float_truthy (f : spec_float) : bool :=
  match f with
  | S754_zero _ => false
  | _ => true
  end.

(** [0.0 <= f] *)
Definition float_nonneg (f : spec_float) : bool := SFleb (S754_zero false) f.

(** ** Data model *)

(** What a cell of [table.df.values.tolist()] can hold: a string, [None], or a
    float (pandas writes missing data as NaN). *)
Inductive pyobj : Type :=
| PyNone
| PyStr (s : pystr)
| PyFloat (f : spec_float).

(** [bool(x)] *)
Definition truthy (x : pyobj) : bool :=
  match x with
  | PyNone => false
  | PyStr s => nonempty s
  | PyFloat f => float_truthy f
  end.

Definition row : Type := list pyobj.
Definition table : Type := list row.

(** [models/bloodwork_metadata.py], dataclass [BloodworkResult]. *)
Record BloodworkResult : Type := {
  test_name : pystr;
  value : spec_float;
  unit : pystr;
  test_date : pystr;
  reference_range : pystr
}.

(** Dataclass [BloodworkRecord]; its field [test_date] is [record_date] here,
    [test_date] being the projection of [BloodworkResult]. *)
Record BloodworkRecord : Type := {
  patient_name : option pystr;
  record_date : pystr;
  results : list BloodworkResult
}.

(** The two keys of [extracted_data] that [parse_blood_work_table] reads. *)
Record ExtractedData : Type := {
  date : pystr;
  tables : list table
}.

(** Calendar date of a [datetime]. *)
Record datetime : Type := {
  year : N;
  month : N;
  day : N
}.

(** ** UnitExtractor: [extract_unit_from_range] *)

Definition units : list pystr :=
  [lit "%"; lit "mg/dL"; lit "mg/dl"; lit "U/L"; lit "g/dL"; lit "g/dl";
   lit "mmol/L"; mu :: lit "g/dL"; lit "ng/mL"; lit "mL/min"].

(** The class [[a-zA-Z/mu]]. *)
Definition unit_char (c : N) : bool :=
  (((97 <=? c) && (c <=? 122)) || ((65 <=? c) && (c <=? 90))
   || (c =? 47) || (c =? mu))%N.

(** [re.search(r'([a-zA-Z/mu]+)', s)]: group 1 of the leftmost match, the
    match being greedy. *)
Fixpoint re_search_unit (s : pystr) : option pystr :=
  match s with
  | [] => None
  | c :: s' => if unit_char c then Some (take_while unit_char s)
               else re_search_unit s'
  end.

Definition extract_unit_from_range (reference_range : pystr) : pystr :=
  if negb (nonempty reference_range) then []
  else
    match find (fun unit => contains unit reference_range) units with
    | Some unit => unit
    | None =>
        match re_search_unit reference_range with
        | Some unit_match => unit_match
        | None => []
        end
    end.

Section Parser.
Context {U : UnicodeData}.

(** ** RowParser: [parse_test_row] *)

(** [re.match] of the leading-numeric pattern, digits, an optional dot, then
    digits again ([\d+ \.? \d*] in one group, anchored at the start), on
    [part]: group 1 when the pattern matches. Each piece is greedy and none
    ever has to give characters back. *)
Definition re_match_number (part : pystr) : option pystr :=
  match take_while is_decimal part with
  | [] => None
  | d :: ds =>
      match drop_while is_decimal part with
      | c :: rest =>
          if (c =? 46)%N
          then Some ((d :: ds) ++ c :: take_while is_decimal rest)
          else Some (d :: ds)
      | [] => Some (d :: ds)
      end
  end.

(** Truth value of the loop variable [value]: [None] and [0.0] are false. *)
Definition value_truthy (value : option spec_float) : bool :=
  match value with
  | None => false
  | Some f => float_truthy f
  end.

(** The block under [if value:] of the scan loop. *)
Definition collect_part (value : option spec_float) (reference_range part : pystr)
  : pystr :=
  if value_truthy value then
    if nonempty reference_range then reference_range ++ lit " " ++ part
    else part
  else reference_range.

(** One iteration of [for i, part in enumerate(filtered_parts[1:], 1)], on the
    pair [(value, reference_range)]. *)
Definition scan_step (st : option spec_float * pystr) (part : pystr)
  : option spec_float * pystr :=
  let '(value, reference_range) := st in
  if negb (value_truthy value) then
    match re_match_number part with
    | Some value_str =>
        match py_float value_str with
        | Returned v =>
            let remaining := strip (skipn (length value_str) part) in
            (Some v, if nonempty remaining then remaining else reference_range)
        | Raised _ =>
            (* except ValueError: pass; [py_float] raises nothing else *)
            (value, collect_part value reference_range part)
        end
    | None => (value, collect_part value reference_range part)
    end
  else (value, collect_part value reference_range part).

Definition scan_parts (parts : list pystr) : option spec_float * pystr :=
  fold_left scan_step parts (None, ([] : pystr)).

(** [cell.strip() if cell else ''] *)
Definition clean_cell (cell : pyobj) : outcome pystr :=
  if truthy cell then
    match cell with
    | PyStr s => Returned (strip s)
    | _ => Raised AttributeError
    end
  else Returned [].

(** The parts of a cleaned cell: split on line breaks, trimmed, non-empty. *)
Definition cell_parts (cell : pystr) : list pystr :=
  if nonempty cell then filter nonempty (map strip (split_on 10%N cell)) else [].

(** The second pass over the parts: purely-digit parts are dropped. *)
Definition keep_part (part : pystr) : list pystr :=
  let part := strip part in
  if nonempty part then
    if str_isdigit part then [] else [part]
  else [].

Definition filtered_parts_of (clean_row : list pystr) : list pystr :=
  flat_map keep_part (flat_map cell_parts clean_row).

(** The body of the [try] of [parse_test_row]. *)
Definition parse_test_row_body (r : row) (date : pystr)
  : outcome (option BloodworkResult) :=
  clean_row <- mapM clean_cell r ;;
  if (length clean_row <? 2) || negb (existsb nonempty clean_row) then Returned None
  else
    let meaningful_cells := filter (fun cell => nonempty (strip cell)) clean_row in
    if length meaningful_cells <=? 1 then Returned None
    else
      let filtered_parts := filtered_parts_of clean_row in
      if length filtered_parts <? 2 then Returned None
      else
        let test_name := strip (remove_char 42%N (hd [] filtered_parts)) in
        let '(value, reference_range) := scan_parts (tl filtered_parts) in
        match value with
        | None => Returned None
        | Some value =>
            let unit := extract_unit_from_range reference_range in
            Returned (Some {| test_name := test_name;
                              value := value;
                              unit := unit;
                              reference_range := reference_range;
                              test_date := date |})
        end.

(** [parse_test_row]: the body under [try: ... except Exception: return None]. *)
Definition parse_test_row (r : row) (date : pystr) : option BloodworkResult :=
  match parse_test_row_body r date with
  | Returned result => result
  | Raised _ => None
  end.

(** ** TableAssembler: [find_header_row], [parse_blood_work_table] *)

(** [cell or ''], as an item for [' '.join]: a float item makes it raise. *)
Definition cell_or_empty (cell : pyobj) : outcome pystr :=
  if truthy cell then
    match cell with
    | PyStr s => Returned s
    | _ => Raised TypeError
    end
  else Returned [].

(** [' '.join([cell or '' for cell in row]).upper()] *)
Definition row_text (r : row) : outcome pystr :=
  cells <- mapM cell_or_empty r ;;
  Returned (upper (join (lit " ") cells)).

Definition is_header_text (text : pystr) : bool :=
  contains (lit "REZULTATI") text || contains (lit "VLERAT REFERUESE") text.

(** [find_header_row], scanning from row index [i]. *)
Fixpoint find_header_row_from (i : nat) (t : table) : outcome (option nat) :=
  match t with
  | [] => Returned None
  | r :: rest =>
      if 2 <=? length r then
        text <- row_text r ;;
        if is_header_text text then Returned (Some i)
        else find_header_row_from (S i) rest
      else find_header_row_from (S i) rest
  end.

Definition find_header_row (t : table) : outcome (option nat) :=
  find_header_row_from 0 t.

(** One pass of the inner loop of [parse_blood_work_table], for the row at
    [row_idx]; an index in [range] is always in the table. *)
Definition process_row (t : table) (date : pystr) (row_idx : nat)
  : list BloodworkResult :=
  match nth_error t row_idx with
  | Some r =>
      if negb (nonempty r) || (length r <? 2) then []
      else match parse_test_row r date with
           | Some test_result => [test_result]
           | None => []
           end
  | None => []
  end.

(** The results one table contributes. *)
Definition parse_table (t : table) (date : pystr) : outcome (list BloodworkResult) :=
  found <- find_header_row t ;;
  let header_row_idx := match found with Some i => i | None => 0 end in
  Returned (flat_map (process_row t date)
              (seq (header_row_idx + 1) (length t - (header_row_idx + 1)))).

Definition parse_blood_work_table (extracted_data : ExtractedData)
  (name : option pystr) : outcome BloodworkRecord :=
  blood_results <- mapM (fun t => parse_table t (date extracted_data))
                     (tables extracted_data) ;;
  Returned {| patient_name := name;
              record_date := date extracted_data;
              results := concat blood_results |}.
End Parser.

(** ** DateResolver: [extract_test_date] *)

(** Decimal spelling of a number, and [zfill]. *)
Fixpoint uint_chars (u : Decimal.uint) : pystr :=
  match u with
  | Decimal.Nil => []
  | Decimal.D0 u' => 48%N :: uint_chars u'
  | Decimal.D1 u' => 49%N :: uint_chars u'
  | Decimal.D2 u' => 50%N :: uint_chars u'
  | Decimal.D3 u' => 51%N :: uint_chars u'
  | Decimal.D4 u' => 52%N :: uint_chars u'
  | Decimal.D5 u' => 53%N :: uint_chars u'
  | Decimal.D6 u' => 54%N :: uint_chars u'
  | Decimal.D7 u' => 55%N :: uint_chars u'
  | Decimal.D8 u' => 56%N :: uint_chars u'
  | Decimal.D9 u' => 57%N :: uint_chars u'
  end.

Definition str_of_N (n : N) : pystr := uint_chars (N.to_uint n).

Definition zfill (width : nat) (s : pystr) : pystr :=
  repeat 48%N (width - length s) ++ s.

(** How [strftime] writes the directive [%Y] for a year below 1000 depends
    on the C library and on the version of Python: glibc under the older
    versions writes the bare number (999), the others pad it with zeros to
    four digits (0999). From the year 1000 on they agree. *)
Class Platform : Type := {
  pads_year : bool
}.

#[export] Instance glibc : Platform := {| pads_year := false |}.

(** The directive [%Y] *)
Definition strftime_Y {L : Platform} (y : N) : pystr :=
  if pads_year then zfill 4 (str_of_N y) else str_of_N y.

(** [d.strftime('%Y-%m-%d')] *)
Definition strftime_ymd {L : Platform} (d : datetime) : pystr :=
  strftime_Y (year d) ++ lit "-" ++ zfill 2 (str_of_N (month d))
    ++ lit "-" ++ zfill 2 (str_of_N (day d)).

(** [d.strftime('%d/%m/%Y')] *)
Definition strftime_dmy {L : Platform} (d : datetime) : pystr :=
  zfill 2 (str_of_N (day d)) ++ lit "/" ++ zfill 2 (str_of_N (month d))
    ++ lit "/" ++ strftime_Y (year d).

Definition is_leap (y : N) : bool :=
  ((y mod 4 =? 0) && (negb (y mod 100 =? 0) || (y mod 400 =? 0)))%N.

Definition days_in_month (y m : N) : N :=
  (if m =? 2 then (if is_leap y then 29 else 28)
   else if (m =? 4) || (m =? 6) || (m =? 9) || (m =? 11) then 30
   else 31)%N.

Definition ascii_digit (c : N) : bool := ((48 <=? c) && (c <=? 57))%N.

(** The shape YYYY-MM-DD: four digits, a dash, two digits, a dash, two digits. *)
Definition is_ymd_format (s : pystr) : bool :=
  match s with
  | [y1; y2; y3; y4; a; m1; m2; b; d1; d2] =>
      ascii_digit y1 && ascii_digit y2 && ascii_digit y3 && ascii_digit y4
      && (a =? 45)%N && ascii_digit m1 && ascii_digit m2
      && (b =? 45)%N && ascii_digit d1 && ascii_digit d2
  | _ => false
  end.

Section DateResolver.
Context {U : UnicodeData} {L : Platform}.

Definition word_opt (c : option N) : bool :=
  match c with Some c => word_char c | None => false end.

(** [\b] between two neighbours; [None] is an end of the text. *)
Definition at_boundary (prev next : option N) : bool :=
  xorb (word_opt prev) (word_opt next).

(** The date pattern, [\b], two digits, a slash, two digits, a slash, four
    digits, [\b], tried at the head of [s], [prev] being the character
    before it. *)
Definition match_date_at (prev : option N) (s : pystr) : option pystr :=
  match s with
  | d1 :: d2 :: s1 :: m1 :: m2 :: s2 :: y1 :: y2 :: y3 :: y4 :: rest =>
      if at_boundary prev (Some d1)
         && is_decimal d1 && is_decimal d2 && (s1 =? 47)%N
         && is_decimal m1 && is_decimal m2 && (s2 =? 47)%N
         && is_decimal y1 && is_decimal y2 && is_decimal y3 && is_decimal y4
         && at_boundary (Some y4) (hd_error rest)
      then Some [d1; d2; s1; m1; m2; s2; y1; y2; y3; y4]
      else None
  | _ => None
  end.

(** [re.findall(date_pattern, text)]: the matches left to right, the scan
    resuming after each match; [skip] counts the characters of the current
    match still to pass. *)
Fixpoint findall_dates_from (prev : option N) (skip : nat) (s : pystr)
  : list pystr :=
  match s with
  | [] => []
  | c :: s' =>
      match skip with
      | S k => findall_dates_from (Some c) k s'
      | O =>
          match match_date_at prev s with
          | Some d => d :: findall_dates_from (Some c) 9 s'
          | None => findall_dates_from (Some c) 0 s'
          end
      end
  end.

Definition findall_dates (text : pystr) : list pystr :=
  findall_dates_from None 0 text.

Definition number2 (a b : N) : option N :=
  match decimal_value a, decimal_value b with
  | Some x, Some y => Some (10 * x + y)%N
  | _, _ => None
  end.

(** The day field of [strptime], two characters wide: one of the
    alternatives 3[0-1], [1-2]\d, 0[1-9]. *)
Definition parse_day (a b : N) : option N :=
  if ((a =? 51) && ((b =? 48) || (b =? 49)))%N then number2 a b
  else if ((a =? 49) || (a =? 50))%N then number2 a b
  else if ((a =? 48) && (49 <=? b) && (b <=? 57))%N then number2 a b
  else None.

(** The month field, two characters wide: 1[0-2] or 0[1-9]. *)
Definition parse_month (a b : N) : option N :=
  if ((a =? 49) && (48 <=? b) && (b <=? 50))%N then number2 a b
  else if ((a =? 48) && (49 <=? b) && (b <=? 57))%N then number2 a b
  else None.

Definition parse_year (a b c d : N) : option N :=
  match digit_values [a; b; c; d] with
  | Some ds => Some (digits_to_N ds)
  | None => None
  end.

(** [datetime.strptime(s, '%d/%m/%Y')] on a match of the date pattern: ten
    characters, every field at full width (a decimal digit is never a
    slash, [decimal_ascii], so the one-character alternatives of the day
    and month fields cannot apply). The fields must name a calendar day
    of a year from 1 on; anything else raises [ValueError]. *)
Definition strptime_dmy (s : pystr) : outcome datetime :=
  match s with
  | [d1; d2; s1; m1; m2; s2; y1; y2; y3; y4] =>
      match parse_day d1 d2, parse_month m1 m2, parse_year y1 y2 y3 y4 with
      | Some d, Some m, Some y =>
          if ((s1 =? 47) && (s2 =? 47) && (1 <=? y) && (1 <=? d)
              && (d <=? days_in_month y m))%N
          then Returned {| year := y; month := m; day := d |}
          else Raised ValueError
      | _, _, _ => Raised ValueError
      end
  | _ => Raised ValueError
  end.

(** [date_str != user_bday]; a string never equals [None]. *)
Definition differs (date_str : pystr) (user_bday : option pystr) : bool :=
  match user_bday with
  | Some b => negb (pystr_eqb date_str b)
  | None => true
  end.

(** The loop [for date_str in dates: if date_str != user_bday: date_match = date_str]. *)
Definition scan_dates (dates : list pystr) (user_bday : option pystr)
  : option pystr :=
  fold_left (fun date_match date_str =>
               if differs date_str user_bday then Some date_str else date_match)
    dates None.

(** [extract_test_date]; [now] is what [datetime.now()] answers. *)
Definition extract_test_date (now : datetime) (text : pystr)
  (user_bday : option pystr) : outcome pystr :=
  let dates := findall_dates text in
  match scan_dates dates user_bday with
  | None => Returned (strftime_dmy now)
  | Some date_match =>
      date_obj <- strptime_dmy date_match ;;
      Returned (strftime_ymd date_obj)
  end.
End DateResolver.

(** ** StorageAdapter: [InfluxDBService.get_patient_tests] *)

(** A pandas frame: column labels and records. *)
Record DataFrame : Type := {
  columns : list pystr;
  records : list (list pyobj)
}.

(** [pd.DataFrame()] *)
Definition pd_DataFrame : DataFrame := {| columns := []; records := [] |}.

(** [str(d.date())]: ISO form. *)
Definition isoformat (d : datetime) : pystr :=
  zfill 4 (str_of_N (year d)) ++ lit "-" ++ zfill 2 (str_of_N (month d))
    ++ lit "-" ++ zfill 2 (str_of_N (day d)).

Definition indent (n : nat) : pystr := repeat 32%N n.
Definition newline : pystr := [10%N].
Definition dquote : pystr := [34%N].

Section StorageAdapter.
(** The InfluxDB client: [self.client.query] and the [to_pandas] of what it
    answers. Either may raise. *)
Variable QueryResult : Type.
Variable client_query : pystr -> outcome QueryResult.
Variable to_pandas : QueryResult -> outcome DataFrame.

(** An item of [test_names] for [str.join]: anything but a string raises. *)
Definition join_item (x : pyobj) : outcome pystr :=
  match x with
  | PyStr s => Returned s
  | _ => Raised TypeError
  end.

(** The query text built inside the [try]. *)
Definition build_query (start_date end_date : datetime)
  (test_names : option (list pyobj)) : outcome pystr :=
  let query :=
    newline ++ indent 16 ++ lit "SELECT *" ++
    newline ++ indent 16 ++ lit "FROM " ++ dquote ++ lit "bloodwork" ++ dquote ++
    newline ++ indent 16 ++ lit "WHERE time >= '" ++ isoformat start_date ++ lit "'" ++
    newline ++ indent 16 ++ lit "AND time <= '" ++ isoformat end_date ++ lit "'" ++
    newline ++ indent 12 in
  query <-
    match test_names with
    | Some (n :: ns) =>
        items <- mapM join_item (n :: ns) ;;
        let test_filter := join (lit "', '") items in
        Returned (query ++ lit " AND test_name IN ('" ++ test_filter ++ lit "')")
    | _ => Returned query
    end ;;
  Returned (query ++ lit " ORDER BY time DESC").

(** The body of the [try] of [get_patient_tests]. *)
Definition get_patient_tests_body (start_date end_date : datetime)
  (test_names : option (list pyobj)) : outcome DataFrame :=
  query <- build_query start_date end_date test_names ;;
  result <- client_query query ;;
  to_pandas result.

(** [get_patient_tests]: the body under [except Exception: return pd.DataFrame()]. *)
Definition get_patient_tests (start_date end_date : datetime)
  (test_names : option (list pyobj)) : DataFrame :=
  match get_patient_tests_body start_date end_date test_names with
  | Returned df => df
  | Raised _ => pd_DataFrame
  end.
End StorageAdapter.

(** ** Vocabulary of the specification *)

(** [p] occurs in [s] as a run of consecutive characters. *)
Definition substring (p s : pystr) : Prop := exists a b, s = a ++ p ++ b.

(** The last element of a list, if any. *)
Fixpoint last_error {A : Type} (l : list A) : option A :=
  match l with
  | [] => None
  | [x] => Some x
  | _ :: l' => last_error l'
  end.

(** [run] is the first maximal run of letters, slashes and mu in [s]. *)
Definition first_unit_run (s run : pystr) : Prop :=
  exists a b,
    s = a ++ run ++ b /\
    Forall (fun c => unit_char c = false) a /\
    run <> [] /\
    Forall (fun c => unit_char c = true) run /\
    match b with
    | [] => True
    | c :: _ => unit_char c = false
    end.

(** [P] holds of every number below [k], by enumeration. *)
Definition all_below (k : N) (P : N -> bool) : bool :=
  forallb (fun i => P (N.of_nat i)) (seq 0 (N.to_nat k)).

(** A run of exactly [w] ASCII digits. *)
Definition digits_of_width (w : nat) (s : pystr) : bool :=
  (length s =? w) && forallb ascii_digit s.

(** A cell the row parser can trim: a string, [None], or a float that is
    zero (which counts as an empty cell). *)
Definition trimmable (cell : pyobj) : Prop :=
  match cell with
  | PyFloat f => float_truthy f = false
  | _ => True
  end.

(** Appending a part to the reference range, space-joined. *)
Definition append_range (reference_range part : pystr) : pystr :=
  if nonempty reference_range then reference_range ++ lit " " ++ part else part.

(** A cell that is non-empty after trimming. *)
Definition nonempty_cell (cell : pyobj) : bool :=
  match cell with
  | PyStr s => nonempty (strip s)
  | _ => false
  end.

(** The trimmed text of a cell, [None] read as the empty string. *)
Definition cell_text (cell : pyobj) : pystr :=
  match cell with
  | PyStr s => strip s
  | _ => []
  end.

Section Vocabulary.
Context {U : UnicodeData}.

(** The tokens of a row: cells flattened on line breaks, trimmed, empty
    fragments and purely-digit tokens dropped. *)
Definition row_tokens (r : row) : list pystr :=
  filtered_parts_of (map cell_text r).

(** What the inner loop of the assembler adds for one row. *)
Definition row_results (date : pystr) (r : row) : list BloodworkResult :=
  if negb (nonempty r) || (length r <? 2) then []
  else match parse_test_row r date with
       | Some test_result => [test_result]
       | None => []
       end.

(** The rows of a table that are handed to the row loop: those after the
    header row, row 0 standing in for a header that was not found. *)
Definition data_rows (t : table) : outcome (list row) :=
  found <- find_header_row t ;;
  Returned (skipn (match found with Some i => i | None => 0 end + 1) t).

(** No row of at least two cells has a joined, upper-cased text with one
    of the two markers. *)
Definition no_header_row (t : table) : Prop :=
  forall r, In r t -> 2 <= length r ->
            exists text, row_text r = Returned text /\ is_header_text text = false.

(** The shape DD/MM/YYYY: two digits, a slash, two digits, a slash, four
    digits. *)
Definition date_shaped (d : pystr) : bool :=
  match d with
  | [d1; d2; s1; m1; m2; s2; y1; y2; y3; y4] =>
      is_decimal d1 && is_decimal d2 && (s1 =? 47)%N
      && is_decimal m1 && is_decimal m2 && (s2 =? 47)%N
      && is_decimal y1 && is_decimal y2 && is_decimal y3 && is_decimal y4
  | _ => false
  end.
End Vocabulary.

(** ** Sample rows *)

Definition row_header : row := [PyStr (lit "REZULTATI"); PyStr (lit "VLERAT REFERUESE")].
Definition row_glucose : row := [PyStr (lit "Glucose"); PyStr (lit "5.5 mg/dL")].
Definition row_wbc : row := [PyStr (lit "WBC"); PyStr (lit "5.2 4.0-10.0")].
(** A row with a missing datum, as pandas writes it. *)
Definition row_nan : row := [PyFloat S754_nan; PyStr (lit "x")].
Definition row_glucose_95 : row :=
  [PyStr (lit "Glucose"); PyStr (lit "95"); PyStr (lit "70-110")].
Definition row_basophils : row :=
  [PyStr (lit "Basophils"); PyStr (lit "0.0"); PyStr (lit "0.5 %")].
Definition march_15 : datetime := {| year := 2024; month := 3; day := 15 |}.

(** * The rest of the service *)

(** ** Boundary validation: [BloodworkMetadata.validate_birthday] *)

(** [s.endswith(p)] *)
Definition endswith (p s : pystr) : bool := startswith (rev p) (rev s).

Section Boundary.
Context {U : UnicodeData}.

(** A one-character day or month of [strptime]: the alternative [1-9]. *)
Definition parse_digit_1_9 (a : N) : option N :=
  if ((49 <=? a) && (a <=? 57))%N then decimal_value a else None.

(** The day field of [strptime('%d')] on the whole text of the field: one of
    3[0-1], [1-2]\d, 0[1-9], [1-9], or a blank and [1-9]. *)
Definition parse_day_field (f : pystr) : option N :=
  match f with
  | [a] => parse_digit_1_9 a
  | [a; b] => if (a =? 32)%N then parse_digit_1_9 b else parse_day a b
  | _ => None
  end.

(** The month field of [strptime('%m')]: one of 1[0-2], 0[1-9], [1-9]. *)
Definition parse_month_field (f : pystr) : option N :=
  match f with
  | [a] => parse_digit_1_9 a
  | [a; b] => parse_month a b
  | _ => None
  end.

Definition parse_year_field (f : pystr) : option N :=
  match f with
  | [a; b; c; d] => parse_year a b c d
  | _ => None
  end.

Definition not_slash (c : N) : bool := negb (c =? 47)%N.

(** [datetime.strptime(s, '%d/%m/%Y')] on any string. No alternative of a
    field can take a slash ([decimal_ascii]), so the day is the text before
    the first slash, the month the text up to the second, the year the
    rest, which must be four digits. *)
Definition strptime_any (s : pystr) : outcome datetime :=
  let day_text := take_while not_slash s in
  match drop_while not_slash s with
  | _ :: after_day =>
      let month_text := take_while not_slash after_day in
      match drop_while not_slash after_day with
      | _ :: year_text =>
          match parse_day_field day_text, parse_month_field month_text,
                parse_year_field year_text with
          | Some d, Some m, Some y =>
              if ((1 <=? y) && (1 <=? d) && (d <=? days_in_month y m))%N
              then Returned {| year := y; month := m; day := d |}
              else Raised ValueError
          | _, _, _ => Raised ValueError
          end
      | [] => Raised ValueError
      end
  | [] => Raised ValueError
  end.

(** The validator of the [birthday] field: [None] and the empty string pass,
    anything else must parse. *)
Definition validate_birthday (v : option pystr) : outcome (option pystr) :=
  match v with
  | Some (c :: s) =>
      match strptime_any (c :: s) with
      | Returned _ => Returned v
      | Raised _ => Raised ValueError
      end
  | _ => Returned v
  end.
End Boundary.

(** ** StorageAdapter: [InfluxDBService.store_bloodwork_record], [__init__] *)

(** A write point, a dict of four keys; [tags] and [fields] in insertion
    order. *)
Record Point : Type := {
  measurement : pystr;
  tags : list (pystr * pyobj);
  fields : list (pystr * spec_float);
  time : pystr
}.

Definition name_tag (name : option pystr) : pyobj :=
  match name with
  | Some s => PyStr s
  | None => PyNone
  end.

(** The point built for one result, the [reference_range] tag added when the
    range is not empty. *)
Definition point_of (record : BloodworkRecord) (result : BloodworkResult) : Point :=
  let base_tags :=
    [(lit "patient_name", name_tag (patient_name record));
     (lit "test_name", PyStr (test_name result));
     (lit "unit", PyStr (unit result))] in
  {| measurement := lit "bloodwork";
     tags := if nonempty (reference_range result)
             then base_tags ++ [(lit "reference_range", PyStr (reference_range result))]
             else base_tags;
     fields := [(lit "value", value result)];
     time := record_date record |}.

(** [os.environ], read with [os.getenv]. *)
Definition environ : Type := pystr -> option pystr.

Definition opt_truthy (v : option pystr) : bool :=
  match v with
  | Some (_ :: _) => true
  | _ => false
  end.

(** [a or b] *)
Definition py_or (a b : option pystr) : option pystr :=
  if opt_truthy a then a else b.

(** [health_check]: the value under [influxdb_configured]. *)
Definition health_check (env : environ) : bool :=
  opt_truthy (env (lit "INFLUX_URL")).

Section Service.
(** The client library: the constructor of [InfluxDBClient3] and its
    [write]. *)
Variable Client : Type.
Variable InfluxDBClient3 : pystr -> pystr -> pystr -> outcome Client.
Variable client_write : Client -> list Point -> outcome Datatypes.unit.

(** [InfluxDBService.__init__]: the client it keeps. *)
Definition InfluxDBService_init (env : environ) (host token : option pystr)
  (database : pystr) : outcome Client :=
  let host := py_or host (env (lit "INFLUXDB_HOST")) in
  let token := py_or token (env (lit "INFLUXDB_TOKEN")) in
  match host, token with
  | Some (h :: hs), Some (k :: ks) => InfluxDBClient3 (h :: hs) (k :: ks) database
  | _, _ => Raised ValueError
  end.

(** [store_bloodwork_record] *)
Definition store_bloodwork_record (client : Client) (record : BloodworkRecord) : bool :=
  let points := map (point_of record) (results record) in
  match client_write client points with
  | Returned _ => true
  | Raised _ => false
  end.
End Service.

(** ** Upload: [extract_pdf_data], [handle_bloodwork], [upload_bloodwork] *)

(** What the upload path raises: a built-in exception, a bare [Exception]
    with its message, or FastAPI's [HTTPException]. *)
Inductive failure : Type :=
| Builtin (e : exn)
| PlainException (message : pystr)
| HTTPException (status_code : N) (detail : pystr).

Inductive attempt (A : Type) : Type :=
| Done (a : A)
| Failed (f : failure).

Arguments Done {A} a.
Arguments Failed {A} f.

Definition attempt_of {A : Type} (c : outcome A) : attempt A :=
  match c with
  | Returned a => Done a
  | Raised e => Failed (Builtin e)
  end.

Definition and_then {A B : Type} (c : attempt A) (k : A -> attempt B) : attempt B :=
  match c with
  | Done a => k a
  | Failed f => Failed f
  end.

Notation "x <~ c ;; k" := (and_then c (fun x => k))
  (at level 61, c at next level, right associativity).

(** [str(n)] of an [int]. *)
Definition str_of_Z (z : Z) : pystr :=
  if (z <? 0)%Z then lit "-" ++ str_of_N (Z.abs_N z) else str_of_N (Z.abs_N z).

(** What an upload brings from outside the parser, each read when the code
    reaches it. *)
Record Upload : Type := {
  (** [file.filename] *)
  filename : pystr;
  (** [int(os.getenv('MAX_FILE_SIZE', '10485760'))] *)
  max_size : outcome Z;
  (** [len(await file.read())] *)
  content_length : outcome N;
  (** the grids of [camelot.read_pdf(...)], one per table *)
  camelot_tables : outcome (list table);
  (** [pdf.pages[0].extract_text()] of [pdfplumber] *)
  first_page_text : outcome pystr
}.

(** The dict [extract_pdf_data] returns. *)
Record Extracted : Type := {
  full_text : pystr;
  data : ExtractedData
}.

(** The dict [handle_bloodwork] returns. *)
Record Response : Type := {
  response_filename : pystr;
  response_test_date : pystr;
  response_name : option pystr;
  response_results : list BloodworkResult;
  message : pystr
}.

Section UploadPath.
Context {U : UnicodeData} {L : Platform}.
(** [datetime.now()], [str(e)] of an exception, [str.lower], and the
    storage service's [store_bloodwork_record]. *)
Variable now : datetime.
Variable str_of_failure : failure -> pystr.
Variable lower : pystr -> pystr.
Variable store : BloodworkRecord -> bool.

(** The body of the [try] of [extract_pdf_data]. *)
Definition extract_pdf_data_body (file : Upload) (user_bday : option pystr)
  : attempt Extracted :=
  limit <~ attempt_of (max_size file) ;;
  size <~ attempt_of (content_length file) ;;
  if (limit <? Z.of_N size)%Z
  then Failed (HTTPException 413 (lit "File too large. Maximum size: "
                                    ++ str_of_Z limit ++ lit " bytes"))
  else
    found <~ attempt_of (camelot_tables file) ;;
    text <~ attempt_of (first_page_text file) ;;
    resolved <~ attempt_of (extract_test_date now text user_bday) ;;
    Done {| full_text := text;
            data := {| date := resolved; tables := found |} |}.

(** [extract_pdf_data]: whatever the body raises becomes one bare exception. *)
Definition extract_pdf_data (file : Upload) (user_bday : option pystr)
  : attempt Extracted :=
  match extract_pdf_data_body file user_bday with
  | Done result => Done result
  | Failed _ => Failed (PlainException (lit "Could not extract text from PDF"))
  end.

(** The body of the [try] of [handle_bloodwork]; the answer of [store] is
    dropped. *)
Definition handle_bloodwork_body (file : Upload) (name birthday : option pystr)
  : attempt Response :=
  extracted_data <~ extract_pdf_data file birthday ;;
  if negb (nonempty (tables (data extracted_data)))
  then Failed (HTTPException 400 (lit "No table data found in PDF"))
  else
    parsed_data <~ attempt_of (parse_blood_work_table (data extracted_data) name) ;;
    let _ := store parsed_data in
    Done {| response_filename := filename file;
            response_test_date := record_date parsed_data;
            response_name := name;
            response_results := results parsed_data;
            message := lit "Blood work parsed successfully" |}.

(** [handle_bloodwork] *)
Definition handle_bloodwork (file : Upload) (name birthday : option pystr)
  : attempt Response :=
  match handle_bloodwork_body file name birthday with
  | Done response => Done response
  | Failed e =>
      Failed (HTTPException 500 (lit "Error processing file: " ++ str_of_failure e))
  end.

(** [upload_bloodwork]: it returns nothing, the answer of [handle_bloodwork]
    is not passed on. *)
Definition upload_bloodwork (file : Upload) (birthday name : option pystr)
  : attempt Datatypes.unit :=
  match validate_birthday birthday with
  | Raised e => Failed (HTTPException 400 (str_of_failure (Builtin e)))
  | Returned birthday =>
      if negb (endswith (lit ".pdf") (lower (filename file)))
      then Failed (HTTPException 400 (lit "Only PDF files are supported"))
      else
        _ <~ handle_bloodwork file name birthday ;;
        Done tt
  end.
End UploadPath.

(** * Further vocabulary *)

(** ** Trimming *)

(** A string that trimming leaves alone. *)
Definition trimmed (s : pystr) : Prop := strip s = s.

(** A string that does not start with white space. *)
Definition starts_clean (s : pystr) : Prop :=
  match s with [] => True | c :: _ => isspace_char c = false end.

(** ** UnitExtractor *)

(** The catalogue entries tried before the one with the micro sign. *)
Definition units_before_mu : list pystr :=
  [lit "%"; lit "mg/dL"; lit "mg/dl"; lit "U/L"; lit "g/dL"].

(** ** TableAssembler *)

Section HeaderVocabulary.
Context {U : UnicodeData}.

(** [r] is a header row: at least two cells, and a marker in its joined,
    upper-cased text. *)
Definition header_row (r : row) : Prop :=
  2 <= length r /\
  exists text, row_text r = Returned text /\ is_header_text text = true.
End HeaderVocabulary.

(** ** DateResolver *)

(** The number two ASCII digits spell, and four. *)
Definition num2 (a b : N) : N := (10 * (a - 48) + (b - 48))%N.
Definition num4 (a b c d : N) : N :=
  (1000 * (a - 48) + 100 * (b - 48) + 10 * (c - 48) + (d - 48))%N.

(** A day of the calendar, years counted from 1. *)
Definition calendar_date (y m d : N) : bool :=
  ((1 <=? y) && (1 <=? m) && (m <=? 12) && (1 <=? d) && (d <=? days_in_month y m))%N.

Definition option_N_eqb (a b : option N) : bool :=
  match a, b with
  | Some x, Some y => (x =? y)%N
  | None, None => true
  | _, _ => false
  end.

(** Checks over all pairs and quadruples of digits, run once by the kernel:
    the day, month and year fields of [strptime] and the zero padding of
    [strftime] on ASCII digits. *)
Definition day_check (x y : N) : bool :=
  option_N_eqb (@parse_day ascii_tables (48 + x) (48 + y))
    (if (1 <=? 10 * x + y) && (10 * x + y <=? 31) then Some (10 * x + y) else None)%N
  && pystr_eqb (zfill 2 (str_of_N (10 * x + y))) [48 + x; 48 + y]%N.

Definition month_check (x y : N) : bool :=
  option_N_eqb (@parse_month ascii_tables (48 + x) (48 + y))
    (if (1 <=? 10 * x + y) && (10 * x + y <=? 12) then Some (10 * x + y) else None)%N.

Definition year_check (a b c d : N) : bool :=
  option_N_eqb (@parse_year ascii_tables (48 + a) (48 + b) (48 + c) (48 + d))
    (Some (1000 * a + 100 * b + 10 * c + d))%N
  && pystr_eqb (zfill 4 (str_of_N (1000 * a + 100 * b + 10 * c + d)))
       [48 + a; 48 + b; 48 + c; 48 + d]%N.

Section Candidates.
Context {U : UnicodeData}.

(** The character before position [i] of [s]; [prev] is what stands before
    [s], [None] at the start of the text. *)
Definition char_before (prev : option N) (s : pystr) (i : nat) : option N :=
  match i with
  | O => prev
  | S j => nth_error s j
  end.

(** The date pattern matches at position [i]: the ten characters from [i]
    have the shape DD/MM/YYYY, no word character stands before them and
    none after them. *)
Definition candidate_at (prev : option N) (s : pystr) (i : nat) : bool :=
  date_shaped (firstn 10 (skipn i s))
  && negb (word_opt (char_before prev s i))
  && negb (word_opt (nth_error s (i + 10))).

(** The candidates of a text: the DD/MM/YYYY-shaped substrings at the
    positions where the pattern matches, in order of appearance. *)
Definition candidates_from (prev : option N) (s : pystr) : list pystr :=
  map (fun i => firstn 10 (skipn i s))
    (filter (candidate_at prev s) (seq 0 (length s))).

Definition candidates (text : pystr) : list pystr := candidates_from None text.
End Candidates.

(** ** StorageAdapter *)

(** [point['tags'].get(key)] *)
Definition tag_of (key : pystr) (p : Point) : option pyobj :=
  match find (fun kv => pystr_eqb (fst kv) key) (tags p) with
  | Some kv => Some (snd kv)
  | None => None
  end.

(** The environment with [key] set to [v], or unset when [v] is [None]. *)
Definition setenv (key : pystr) (v : option pystr) (env : environ) : environ :=
  fun k => if pystr_eqb k key then v else env k.

Section Startup.
Variable Client : Type.
Variable InfluxDBClient3 : pystr -> pystr -> pystr -> outcome Client.

(** The start of [lifespan]: [InfluxDBService()], every argument at its
    default. *)
Definition lifespan_startup (env : environ) : outcome Client :=
  InfluxDBService_init InfluxDBClient3 env None None (lit "bloodwork").
End Startup.

(** ** Upload *)

(** The two exceptions raised inside [handle_bloodwork] by the code itself. *)
Definition extraction_failed : failure :=
  PlainException (lit "Could not extract text from PDF").

Definition no_table_data : failure :=
  HTTPException 400 (lit "No table data found in PDF").

(** ** Further samples *)

Definition row_glucose_full : row :=
  [PyStr (lit "1"); PyStr (lit "*Glucose"); PyNone;
   PyStr (lit "95 70 - 110"); PyStr (lit "mg/dL")].

Definition row_starred : row := [PyStr (lit "**"); PyStr (lit "5.5 mg/dL")].

Definition table_nan_first : table := [row_nan; row_header; row_glucose].
Definition table_nan_below : table := [row_header; row_nan; row_glucose].

Definition extracted_wbc : ExtractedData :=
  {| date := lit "2024-03-15"; tables := [[row_header; row_wbc]] |}.

Definition record_wbc : BloodworkRecord :=
  {| patient_name := None;
     record_date := lit "2024-03-15";
     results := [{| test_name := lit "WBC";
                    value := float_of_ratio 52 10;
                    unit := [];
                    test_date := lit "2024-03-15";
                    reference_range := lit "4.0-10.0" |}] |}.

Definition failing_write (_ : Datatypes.unit) (_ : list Point) : outcome Datatypes.unit :=
  Raised QueryError.

Definition upload_wbc : Upload :=
  {| filename := lit "report.pdf";
     max_size := Returned 10485760%Z;
     content_length := Returned 2048%N;
     camelot_tables := Returned [[row_header; row_wbc]];
     first_page_text := Returned (lit "Born 01/01/1990, sampled 15/03/2024.") |}.

Definition response_wbc : Response :=
  {| response_filename := lit "report.pdf";
     response_test_date := lit "2024-03-15";
     response_name := None;
     response_results := results record_wbc;
     message := lit "Blood work parsed successfully" |}.

Definition str_of_any (_ : failure) : pystr := lit "error".

(** * Properties *)

(** ** Strings *)

Lemma pystr_eqb_eq (s t : pystr) : pystr_eqb s t = true <-> s = t.
Proof.
  revert t; induction s as [|a s IH]; intros [|b t]; simpl; split;
    try reflexivity; try discriminate.
  - rewrite andb_true_iff, N.eqb_eq, IH. intros [-> ->]. reflexivity.
  - intros [= -> ->]. rewrite N.eqb_refl. simpl. apply IH. reflexivity.
Qed.

Lemma startswith_prefix (p s : pystr) :
  startswith p s = true <-> exists b, s = p ++ b.
Proof.
  revert s; induction p as [|a p IH]; intros s; simpl.
  - split; [intros _; exists s; reflexivity | reflexivity].
  - destruct s as [|c s].
    + split; [discriminate | intros [b Hb]; discriminate].
    + rewrite andb_true_iff, N.eqb_eq, IH. split.
      * intros [-> [b ->]]. exists b. reflexivity.
      * intros [b [= -> ->]]. split; [reflexivity | exists b; reflexivity].
Qed.

Lemma contains_substring (p s : pystr) :
  contains p s = true <-> substring p s.
Proof.
  unfold substring. induction s as [|c s IH].
  - simpl. rewrite orb_false_r, startswith_prefix. split.
    + intros [b Hb]. exists [], b. exact Hb.
    + intros [a [b Hab]]. destruct a as [|x a]; [|discriminate].
      exists b. exact Hab.
  - cbn [contains]. rewrite orb_true_iff, startswith_prefix, IH. split.
    + intros [[b Hb] | [a [b Hab]]].
      * exists [], b. exact Hb.
      * exists (c :: a), b. simpl. rewrite Hab. reflexivity.
    + intros [[|x a] [b Hab]].
      * left. exists b. exact Hab.
      * right. injection Hab as -> ->. exists a, b. reflexivity.
Qed.

Lemma nonempty_strip (s : pystr) : nonempty (strip s) = true -> nonempty s = true.
Proof. destruct s; [discriminate | reflexivity]. Qed.

Lemma take_drop_while {A : Type} (p : A -> bool) (s : list A) :
  s = take_while p s ++ drop_while p s.
Proof.
  induction s as [|c s IH]; simpl; [reflexivity|].
  destruct (p c); simpl; [f_equal; exact IH | reflexivity].
Qed.

Lemma take_while_Forall {A : Type} (p : A -> bool) (s : list A) :
  Forall (fun c => p c = true) (take_while p s).
Proof.
  induction s as [|c s IH]; simpl; [constructor|].
  destruct (p c) eqn:E; constructor; assumption.
Qed.

Lemma drop_while_head {A : Type} (p : A -> bool) (s : list A) :
  match drop_while p s with
  | [] => True
  | c :: _ => p c = false
  end.
Proof.
  induction s as [|x s IH]; simpl; [exact I|].
  destruct (p x) eqn:E; [exact IH | exact E].
Qed.

(** A run of characters of a class, followed by none of the class, is what
    [take_while] takes. *)
Lemma take_while_app {A : Type} (p : A -> bool) (run b : list A) :
  Forall (fun c => p c = true) run ->
  match b with [] => True | c :: _ => p c = false end ->
  take_while p (run ++ b) = run.
Proof.
  intros Hrun Hb. induction Hrun as [|c run Hc _ IH]; cbn [app take_while].
  - destruct b as [|c b]; [reflexivity|]. cbn [take_while]. rewrite Hb. reflexivity.
  - rewrite Hc, IH. reflexivity.
Qed.

Lemma skipn_length_app {A : Type} (l b : list A) : skipn (length l) (l ++ b) = b.
Proof. induction l as [|x l IH]; [reflexivity | exact IH]. Qed.

(** ** Floats *)

Section FloatSign.
(** binary64 *)
Local Abbreviation prec := 53%Z.
Local Abbreviation emax := 1024%Z.

Lemma shr_1_nonneg (mrs : shr_record) :
  (0 <= shr_m mrs)%Z -> (0 <= shr_m (shr_1 mrs))%Z.
Proof.
  destruct mrs as [m r s]. simpl.
  destruct m as [|[p|p|]|p]; simpl; intros H; try lia.
Qed.

Lemma iter_shr_1_nonneg (p : positive) (mrs : shr_record) :
  (0 <= shr_m mrs)%Z -> (0 <= shr_m (iter_pos shr_1 p mrs))%Z.
Proof.
  revert mrs. induction p as [p IH|p IH|]; intros mrs H; simpl.
  - apply IH, IH, shr_1_nonneg, H.
  - apply IH, IH, H.
  - apply shr_1_nonneg, H.
Qed.

Lemma shr_fexp_nonneg (m e : Z) (l : location) :
  (0 <= m)%Z -> (0 <= shr_m (fst (shr_fexp prec emax m e l)))%Z.
Proof.
  intros H. unfold shr_fexp, shr.
  assert (H0 : (0 <= shr_m (shr_record_of_loc m l))%Z)
    by (destruct l as [|[| |]]; exact H).
  destruct (fexp prec emax (Zdigits2 m + e) - e)%Z; simpl;
    [exact H0 | apply iter_shr_1_nonneg; exact H0 | exact H0].
Qed.

Lemma round_nearest_even_nonneg (m : Z) (l : location) :
  (0 <= m)%Z -> (0 <= round_nearest_even m l)%Z.
Proof.
  intros H. destruct l as [|[| |]]; simpl; try lia.
  destruct (Z.even m); lia.
Qed.

(** Rounding a non-negative mantissa under a clear sign bit gives +0, a positive
    finite number or +infinity. *)
Lemma binary_round_aux_nonneg (m e : Z) (l : location) :
  (0 <= m)%Z -> float_nonneg (binary_round_aux prec emax false m e l) = true.
Proof.
  intros H. unfold binary_round_aux.
  pose proof (shr_fexp_nonneg e l H) as H1.
  destruct (shr_fexp prec emax m e l) as [mrs' e']. simpl in H1.
  pose proof (round_nearest_even_nonneg (loc_of_shr_record mrs') H1) as H2.
  pose proof (shr_fexp_nonneg e' loc_Exact H2) as H3.
  destruct (shr_fexp prec emax _ e' loc_Exact) as [mrs'' e'']. simpl in H3.
  destruct (shr_m mrs'') as [|q|q]; [reflexivity | | lia].
  destruct (e'' <=? emax - prec)%Z; reflexivity.
Qed.

Lemma float_of_ratio_nonneg (n : N) (d : positive) :
  float_nonneg (float_of_ratio n d) = true.
Proof.
  destruct n as [|p]; [reflexivity|].
  unfold float_of_ratio, SFdiv, SFdiv_core_binary.
  set (m' := match _ with Z0 => _ | Zpos _ => _ | Zneg _ => _ end).
  assert (Hm : (0 <= m')%Z).
  { subst m'. destruct (_ - _ - _)%Z; try lia.
    apply Z.shiftl_nonneg. lia. }
  pose proof (Z.div_eucl_eq m' (Zpos d) ltac:(lia)) as Heq.
  pose proof (Z.mod_pos_bound m' (Zpos d) ltac:(lia)) as Hr.
  unfold Z.modulo in Hr.
  destruct (Z.div_eucl m' (Zpos d)) as [q r].
  apply binary_round_aux_nonneg. nia.
Qed.
End FloatSign.

Section RowParserFacts.
Context {U : UnicodeData}.

Lemma py_float_nonneg (s : pystr) (f : spec_float) :
  py_float s = Returned f -> float_nonneg f = true.
Proof.
  unfold py_float.
  destruct (digit_values _) as [[|i is']|]; try discriminate.
  destruct (skipn _ s) as [|dot fp].
  - intros [= <-]. apply float_of_ratio_nonneg.
  - destruct (dot =? 46)%N; [|discriminate].
    destruct (digit_values fp); [|discriminate].
    intros [= <-]. apply float_of_ratio_nonneg.
Qed.
Lemma digit_values_decimal (l : pystr) :
  Forall (fun c => is_decimal c = true) l ->
  exists vs, digit_values l = Some vs /\ length vs = length l.
Proof.
  induction 1 as [|c l Hc _ [vs [IH Hlen]]]; [exists []; split; reflexivity|].
  unfold is_decimal in Hc. cbn [digit_values].
  destruct (decimal_value c) as [v|]; [|discriminate].
  rewrite IH. exists (v :: vs). split; [reflexivity | cbn [length]; rewrite Hlen; reflexivity].
Qed.

Lemma dot_not_decimal : is_decimal 46%N = false.
Proof. unfold is_decimal. rewrite decimal_ascii by reflexivity. reflexivity. Qed.

(** [float()] never raises on a match of the leading-numeric pattern: the
    [except ValueError] of the scan loop is never entered. *)
Lemma py_float_of_match (part value_str : pystr) :
  re_match_number part = Some value_str ->
  exists v, py_float value_str = Returned v.
Proof.
  unfold re_match_number.
  pose proof (take_while_Forall is_decimal part) as Hds.
  pose proof (drop_while_head is_decimal part) as Hrest.
  destruct (take_while is_decimal part) as [|d ds]; [discriminate|].
  destruct (digit_values_decimal Hds) as (vs & Hvs & Hlen).
  assert (Hwhole : py_float (d :: ds) =
                   Returned (float_of_ratio (digits_to_N vs) 1)).
  { pose proof (take_while_app is_decimal [] Hds I) as Ht.
    rewrite app_nil_r in Ht. unfold py_float. rewrite Ht, skipn_all, Hvs.
    destruct vs; [discriminate | reflexivity]. }
  destruct (drop_while is_decimal part) as [|c rest].
  - intros [= <-]. eexists. exact Hwhole.
  - destruct (c =? 46)%N eqn:Ec; [|intros [= <-]; eexists; exact Hwhole].
    apply N.eqb_eq in Ec. subst c. intros [= <-].
    destruct (digit_values_decimal (take_while_Forall is_decimal rest))
      as (fs & Hfs & _).
    unfold py_float.
    change (d :: ds ++ 46%N :: take_while is_decimal rest)
      with ((d :: ds) ++ 46%N :: take_while is_decimal rest).
    rewrite (take_while_app is_decimal (46%N :: take_while is_decimal rest)
               Hds dot_not_decimal), skipn_length_app, Hvs, Hfs.
    destruct vs; [discriminate|]. cbn [N.eqb Pos.eqb]. eexists. reflexivity.
Qed.

(** An iteration of the scan leaves [value] alone or sets it from a
    numeric-leading part. *)
Lemma scan_step_value (st : option spec_float * pystr) (part : pystr) :
  fst (scan_step st part) = fst st \/
  exists value_str v,
    re_match_number part = Some value_str /\
    py_float value_str = Returned v /\
    fst (scan_step st part) = Some v.
Proof.
  destruct st as [value rr]. unfold scan_step.
  destruct (negb (value_truthy value)); [|left; reflexivity].
  destruct (re_match_number part) as [value_str|]; [|left; reflexivity].
  destruct (py_float value_str) as [v|e] eqn:E; [|left; reflexivity].
  right. exists value_str, v. repeat split. exact E.
Qed.

Lemma scan_parts_from_value (parts : list pystr) (st : option spec_float * pystr) :
  fst (fold_left scan_step parts st) = fst st \/
  exists part value_str v,
    In part parts /\
    re_match_number part = Some value_str /\
    py_float value_str = Returned v /\
    fst (fold_left scan_step parts st) = Some v.
Proof.
  revert st. induction parts as [|p parts IH]; intros st; simpl.
  - left. reflexivity.
  - destruct (IH (scan_step st p)) as [H | (part & vs & v & Hin & Hm & Hf & Hv)].
    + rewrite H. destruct (scan_step_value st p) as [H' | (vs & v & Hm & Hf & Hv)].
      * left. exact H'.
      * right. exists p, vs, v. auto.
    + right. exists part, vs, v. auto.
Qed.

Lemma scan_parts_value (parts : list pystr) (v : spec_float) :
  fst (scan_parts parts) = Some v ->
  exists part value_str,
    In part parts /\
    re_match_number part = Some value_str /\
    py_float value_str = Returned v.
Proof.
  unfold scan_parts. intros H.
  destruct (scan_parts_from_value parts (None, ([] : pystr)))
    as [H' | (part & vs & v' & Hin & Hm & Hf & Hv)].
  - rewrite H in H'. discriminate.
  - rewrite H in Hv. injection Hv as <-. exists part, vs. auto.
Qed.

Lemma scan_parts_no_match (parts : list pystr) :
  (forall part, In part parts -> re_match_number part = None) ->
  fst (scan_parts parts) = None.
Proof.
  intros Hno. unfold scan_parts.
  destruct (scan_parts_from_value parts (None, ([] : pystr)))
    as [H' | (part & vs & v' & Hin & Hm & _)].
  - exact H'.
  - rewrite (Hno part Hin) in Hm. discriminate.
Qed.

(** Cleaning a row either raises or yields the trimmed text of each cell. *)
Lemma clean_row_text (r : row) (clean_row : list pystr) :
  mapM clean_cell r = Returned clean_row -> clean_row = map cell_text r.
Proof.
  revert clean_row. induction r as [|c r IH]; intros clean_row; simpl.
  - intros [= <-]. reflexivity.
  - unfold bind. destruct (clean_cell c) as [x|e] eqn:Ec; [|discriminate].
    destruct (mapM clean_cell r) as [xs|e]; [|discriminate].
    intros [= <-]. rewrite (IH xs eq_refl). f_equal.
    unfold clean_cell in Ec. destruct c as [|s|f]; simpl in *.
    + injection Ec as <-. reflexivity.
    + destruct s; simpl in Ec; injection Ec as <-; reflexivity.
    + destruct (float_truthy f); [discriminate|]. injection Ec as <-. reflexivity.
  Qed.

Lemma meaningful_cells_bound (r : row) :
  length (filter (fun cell => nonempty (strip cell)) (map cell_text r))
  <= length (filter nonempty_cell r).
Proof.
  induction r as [|c r IH]; simpl; [lia|].
  destruct (nonempty (strip (cell_text c))) eqn:E.
  - assert (Hc : nonempty_cell c = true).
    { destruct c as [|s|f]; simpl in *; try discriminate.
      apply nonempty_strip. exact E. }
    rewrite Hc. simpl. lia.
  - destruct (nonempty_cell c); simpl; lia.
Qed.

(** On a row of strings and [None] the body of [parse_test_row] raises
    nothing: its handler is there for cells of another type. *)
Lemma parse_test_row_body_returns (r : row) (date : pystr) :
  Forall trimmable r ->
  parse_test_row_body r date = Returned (parse_test_row r date).
Proof.
  intros Hr. unfold parse_test_row.
  assert (Hc : mapM clean_cell r = Returned (map cell_text r)).
  { induction Hr as [|c r Hc _ IH]; [reflexivity|].
    cbn [mapM map]. rewrite IH.
    destruct c as [|s|f]; cbn in *.
    - reflexivity.
    - destruct s; reflexivity.
    - unfold clean_cell. cbn [truthy]. rewrite Hc. reflexivity. }
  unfold parse_test_row_body. rewrite Hc. cbn [bind].
  repeat match goal with
         | |- context [if ?b then _ else _] => destruct b; try reflexivity
         end.
  destruct (scan_parts _) as [[v|] rr]; reflexivity.
Qed.

(** The shape of an accepted row. *)
Lemma parse_test_row_some (r : row) (date : pystr) (result : BloodworkResult) :
  parse_test_row r date = Some result ->
  exists rr,
    scan_parts (tl (row_tokens r)) = (Some (value result), rr) /\
    result = {| test_name := strip (remove_char 42%N (hd [] (row_tokens r)));
                value := value result;
                unit := extract_unit_from_range rr;
                test_date := date;
                reference_range := rr |}.
Proof.
  unfold parse_test_row, parse_test_row_body, bind, row_tokens.
  destruct (mapM clean_cell r) as [clean_row|e] eqn:Ec; [|discriminate].
  apply clean_row_text in Ec. subst clean_row.
  destruct (_ || _); [discriminate|].
  destruct (_ <=? 1); [discriminate|].
  destruct (_ <? 2); [discriminate|].
  destruct (scan_parts _) as [[v|] rr]; [|discriminate].
  intros [= <-]. exists rr. split; reflexivity.
Qed.
End RowParserFacts.

(** ** RowParser *)

(** C5. [parse_test_row] returns absent for every row with fewer than two
    cells that are non-empty after trimming, and for every row in which no
    token after the first (cells flattened, purely-digit tokens dropped)
    matches the leading-numeric pattern; a result that is returned carries
    the value parsed from the numeric prefix of such a token. *)
Theorem parse_test_row_absent {U : UnicodeData} (r : row) (date : pystr) :
  (length (filter nonempty_cell r) < 2 -> parse_test_row r date = None) /\
  ((forall part, In part (tl (row_tokens r)) -> re_match_number part = None) ->
   parse_test_row r date = None) /\
  (forall result,
      parse_test_row r date = Some result ->
      exists part value_str,
        In part (tl (row_tokens r)) /\
        re_match_number part = Some value_str /\
        py_float value_str = Returned (value result)).
Proof.
  assert (Hsome : forall result,
             parse_test_row r date = Some result ->
             exists part value_str,
               In part (tl (row_tokens r)) /\
               re_match_number part = Some value_str /\
               py_float value_str = Returned (value result)).
  { intros result H. apply parse_test_row_some in H. destruct H as (rr & Hscan & _).
    apply scan_parts_value. rewrite Hscan. reflexivity. }
  split; [|split].
  - intros Hfew. unfold parse_test_row, parse_test_row_body, bind.
    destruct (mapM clean_cell r) as [clean_row|e] eqn:Ec; [|reflexivity].
    apply clean_row_text in Ec. subst clean_row.
    destruct (_ || _); [reflexivity|].
    pose proof (meaningful_cells_bound r) as Hb.
    destruct (Nat.leb_spec
                (length (filter (fun cell => nonempty (strip cell)) (map cell_text r))) 1)
      as [_|Hgt]; [reflexivity | lia].
  - intros Hno. destruct (parse_test_row r date) as [result|] eqn:E; [|reflexivity].
    destruct (Hsome result eq_refl) as (part & vs & Hin & Hm & _).
    rewrite (Hno part Hin) in Hm. discriminate.
  - exact Hsome.
Qed.

Lemma parse_test_row_absent_witness :
  parse_test_row [PyStr (lit "Glucose"); PyStr (lit " "); PyNone] (lit "2024-03-15") = None /\
  parse_test_row [PyStr (lit "Glucose"); PyStr (lit "negative")] (lit "2024-03-15") = None /\
  (exists part value_str,
      In part (tl (row_tokens row_wbc)) /\
      re_match_number part = Some value_str /\
      py_float value_str = Returned (float_of_ratio 52 10)).
Proof.
  split; [|split].
  - apply (proj1 (parse_test_row_absent (U := ascii_tables) _ _)).
    vm_compute. reflexivity.
  - apply (proj1 (proj2 (parse_test_row_absent (U := ascii_tables) _ _))).
    intros part Hin. vm_compute in Hin. destruct Hin as [<-|[]]. reflexivity.
  - apply (proj2 (proj2 (parse_test_row_absent
                           (U := ascii_tables) row_wbc (lit "2024-03-15")))
             {| test_name := lit "WBC";
                value := float_of_ratio 52 10;
                unit := [];
                test_date := lit "2024-03-15";
                reference_range := lit "4.0-10.0" |}).
    vm_compute. reflexivity.
Defined.

(** C10. Every result [parse_test_row] emits has a non-negative value: the
    value is parsed from a match of the leading-numeric pattern, which has no
    sign, so [0.0 <= value] holds (and the value is not NaN). *)
Theorem parse_test_row_value_nonneg {U : UnicodeData}
  (r : row) (date : pystr) (result : BloodworkResult) :
  parse_test_row r date = Some result ->
  float_nonneg (value result) = true.
Proof.
  intros H. apply parse_test_row_some in H. destruct H as (rr & Hscan & _).
  destruct (scan_parts_value (tl (row_tokens r)) (v := value result))
    as (part & vs & _ & _ & Hf).
  - rewrite Hscan. reflexivity.
  - exact (py_float_nonneg _ Hf).
Qed.

Lemma parse_test_row_value_nonneg_witness :
  float_nonneg (float_of_ratio 52 10) = true.
Proof.
  exact (parse_test_row_value_nonneg
           (U := ascii_tables) row_wbc (lit "2024-03-15")
           (result := {| test_name := lit "WBC";
                         value := float_of_ratio 52 10;
                         unit := [];
                         test_date := lit "2024-03-15";
                         reference_range := lit "4.0-10.0" |})
           ltac:(vm_compute; reflexivity)).
Defined.

(** C9. The purely-digit filter runs before value extraction: in the row
    Glucose, 95, 70-110 the token 95 is dropped, the value is 70.0, taken from
    the head of 70-110, and the reference range is -110; the value is not
    95.0. This for any date. *)
Theorem digit_only_reading_is_lost (date : pystr) :
  row_glucose_95 = [PyStr (lit "Glucose"); PyStr (lit "95"); PyStr (lit "70-110")] /\
  row_tokens row_glucose_95 = [lit "Glucose"; lit "70-110"] /\
  parse_test_row row_glucose_95 date =
    Some {| test_name := lit "Glucose";
            value := float_of_ratio 70 1;
            unit := [];
            test_date := date;
            reference_range := lit "-110" |} /\
  py_float (lit "70") = Returned (float_of_ratio 70 1) /\
  py_float (lit "95") = Returned (float_of_ratio 95 1) /\
  float_of_ratio 70 1 <> float_of_ratio 95 1.
Proof.
  repeat split; try (vm_compute; reflexivity).
  vm_compute. discriminate.
Qed.

(** C1, at a row whose first numeric-leading token parses to 0.0: the tokens
    are Basophils, 0.0, 0.5 %; the token 0.0 sets the value to 0.0, which
    counts as no value, so the next token overwrites it with 0.5 and is not
    appended to the reference range, which ends as % and not as 0.5 %. *)
Theorem zero_value_is_overwritten :
  row_basophils = [PyStr (lit "Basophils"); PyStr (lit "0.0"); PyStr (lit "0.5 %")] /\
  row_tokens row_basophils = [lit "Basophils"; lit "0.0"; lit "0.5 %"] /\
  re_match_number (lit "0.0") = Some (lit "0.0") /\
  py_float (lit "0.0") = Returned (S754_zero false) /\
  scan_step (None, []) (lit "0.0") = (Some (S754_zero false), []) /\
  parse_test_row row_basophils (lit "2024-03-15") =
    Some {| test_name := lit "Basophils";
            value := float_of_ratio 5 10;
            unit := lit "%";
            test_date := lit "2024-03-15";
            reference_range := lit "%" |} /\
  float_of_ratio 5 10 <> S754_zero false.
Proof.
  repeat split; try (vm_compute; reflexivity).
  vm_compute. discriminate.
Qed.

(** ** TableAssembler *)

Section AssemblerFacts.
Context {U : UnicodeData}.

Lemma process_row_row_results (t : table) (date : pystr) (i : nat) :
  process_row t date i =
  match nth_error t i with
  | Some r => row_results date r
  | None => []
  end.
Proof. reflexivity. Qed.

(** The index loop over [range(k, len(t))] visits the rows of [t] from
    position [k] on, in order. *)
Lemma index_loop_skipn (t : table) (date : pystr) (k : nat) :
  flat_map (process_row t date) (seq k (length t - k)) =
  flat_map (row_results date) (skipn k t).
Proof.
  revert k. induction t as [|r t IH]; intros k.
  - destruct k; reflexivity.
  - destruct k as [|k].
    + cbn [length Nat.sub seq flat_map skipn].
      rewrite process_row_row_results. cbn [nth_error]. f_equal.
      rewrite <- seq_shift, flat_map_concat_map, map_map, <- flat_map_concat_map.
      specialize (IH 0). rewrite Nat.sub_0_r in IH. exact IH.
    + cbn [length Nat.sub skipn].
      rewrite <- seq_shift, flat_map_concat_map, map_map, <- flat_map_concat_map.
      exact (IH k).
Qed.

Lemma parse_table_data_rows (t : table) (date : pystr) :
  parse_table t date =
  (rows <- data_rows t ;; Returned (flat_map (row_results date) rows)).
Proof.
  unfold parse_table, data_rows, bind.
  destruct (find_header_row t) as [found|e]; [|reflexivity].
  rewrite index_loop_skipn. reflexivity.
Qed.

Lemma mapM_parse_table (ts : list table) (date : pystr) :
  mapM (fun t => parse_table t date) ts =
  (rowss <- mapM data_rows ts ;;
   Returned (map (flat_map (row_results date)) rowss)).
Proof.
  induction ts as [|t ts IH]; [reflexivity|].
  cbn [mapM]. rewrite IH, parse_table_data_rows. unfold bind.
  destruct (data_rows t); [|reflexivity].
  destruct (mapM data_rows ts); reflexivity.
Qed.

(** The record holds, in order, what every data row of every table
    contributes: assembly raises only when header detection does. *)
Lemma parse_blood_work_table_rows (ed : ExtractedData) (name : option pystr) :
  parse_blood_work_table ed name =
  (rowss <- mapM data_rows (tables ed) ;;
   Returned {| patient_name := name;
               record_date := date ed;
               results := flat_map (row_results (date ed)) (concat rowss) |}).
Proof.
  unfold parse_blood_work_table. rewrite mapM_parse_table. unfold bind.
  destruct (mapM data_rows (tables ed)) as [rowss|e]; [|reflexivity].
  do 2 f_equal. induction rowss as [|rows rowss IH]; [reflexivity|].
  cbn [map concat]. rewrite flat_map_app, IH. reflexivity.
Qed.

Lemma find_header_row_from_none (t : table) (i : nat) :
  no_header_row t -> find_header_row_from i t = Returned None.
Proof.
  revert i. induction t as [|r t IH]; intros i Hno; [reflexivity|].
  cbn [find_header_row_from].
  assert (Ht : no_header_row t) by (intros r' Hin; apply Hno; right; exact Hin).
  destruct (Nat.leb_spec 2 (length r)) as [Hlen|_]; [|apply IH; exact Ht].
  destruct (Hno r (or_introl eq_refl) Hlen) as (text & -> & Hh).
  cbn [bind]. rewrite Hh. apply IH. exact Ht.
Qed.

Lemma data_rows_no_header (t : table) :
  no_header_row t -> data_rows t = Returned (tl t).
Proof.
  intros Hno. unfold data_rows, find_header_row.
  rewrite (find_header_row_from_none 0 Hno). destruct t; reflexivity.
Qed.

Lemma mapM_data_rows_no_header (ts : list table) :
  Forall no_header_row ts -> mapM data_rows ts = Returned (map (@tl row) ts).
Proof.
  induction 1 as [|t ts Ht _ IH]; [reflexivity|].
  cbn [mapM map]. rewrite (data_rows_no_header Ht), IH. reflexivity.
Qed.

Lemma row_results_raised (r : row) (date : pystr) (e : exn) :
  parse_test_row_body r date = Raised e ->
  parse_test_row r date = None /\ row_results date r = [].
Proof.
  intros H. assert (Hp : parse_test_row r date = None)
    by (unfold parse_test_row; rewrite H; reflexivity).
  split; [exact Hp|]. unfold row_results. rewrite Hp.
  destruct (_ || _); reflexivity.
Qed.
End AssemblerFacts.

(** C2, as stated, fails: in a table without a header row, row 0 is not
    handed to the row parser. *)
Lemma header_fallback_skips_row_0 :
  no_header_row [row_glucose] /\
  row_results (lit "2024-03-15") row_glucose =
    [{| test_name := lit "Glucose";
        value := float_of_ratio 55 10;
        unit := lit "mg/dL";
        test_date := lit "2024-03-15";
        reference_range := lit "mg/dL" |}] /\
  parse_table [row_glucose] (lit "2024-03-15") = Returned [] /\
  parse_table [row_glucose] (lit "2024-03-15") <>
    Returned (flat_map (row_results (lit "2024-03-15")) [row_glucose]).
Proof.
  split; [|split; [|split]].
  - intros r [<-|[]] _. eexists. split; vm_compute; reflexivity.
  - vm_compute. reflexivity.
  - vm_compute. reflexivity.
  - vm_compute. discriminate.
Qed.

(** C2, amended. In a table in which no row of at least two cells has a
    joined, upper-cased text containing REZULTATI or VLERAT REFERUESE, row 0
    is taken for the header: the table is not rejected, and every row after
    row 0 is processed as a data row, in order. The same holds record-wide
    when no table has a header row. *)
Theorem header_fallback {U : UnicodeData} (t : table) (d : pystr) :
  no_header_row t ->
  find_header_row t = Returned None /\
  parse_table t d = Returned (flat_map (row_results d) (tl t)) /\
  (forall (ed : ExtractedData) (name : option pystr),
      Forall no_header_row (tables ed) ->
      parse_blood_work_table ed name =
      Returned {| patient_name := name;
                  record_date := date ed;
                  results := flat_map (fun t' => flat_map (row_results (date ed)) (tl t'))
                               (tables ed) |}).
Proof.
  intros Hno. split; [|split].
  - exact (find_header_row_from_none 0 Hno).
  - rewrite parse_table_data_rows, (data_rows_no_header Hno). reflexivity.
  - intros ed name Hall.
    rewrite parse_blood_work_table_rows, (mapM_data_rows_no_header Hall).
    cbn [bind]. do 2 f_equal. clear Hall.
    induction (tables ed) as [|t' ts IH]; [reflexivity|].
    cbn [map concat flat_map]. rewrite flat_map_app, IH. reflexivity.
Qed.

Lemma header_fallback_witness :
  find_header_row [row_glucose; row_wbc] = Returned None /\
  parse_table [row_glucose; row_wbc] (lit "2024-03-15") =
    Returned (flat_map (row_results (lit "2024-03-15")) [row_wbc]).
Proof.
  assert (Hno : no_header_row [row_glucose; row_wbc]).
  { intros r [<-|[<-|[]]] _; eexists; split; vm_compute; reflexivity. }
  split.
  - exact (proj1 (header_fallback (U := ascii_tables) (lit "2024-03-15") Hno)).
  - exact (proj1 (proj2 (header_fallback (U := ascii_tables) (lit "2024-03-15") Hno))).
Defined.


(** ** RowParser: the scan when the first value is not zero *)

Section ScanFacts.
Context {U : UnicodeData}.

Lemma scan_after_value (post : list pystr) (v : spec_float) (rr : pystr) :
  float_truthy v = true ->
  fold_left scan_step post (Some v, rr) = (Some v, fold_left append_range post rr).
Proof.
  intros Hv. revert rr. induction post as [|p post IH]; intros rr; [reflexivity|].
  cbn [fold_left]. unfold scan_step at 2, collect_part. cbn [value_truthy].
  rewrite Hv. cbn [negb]. apply IH.
Qed.

Lemma scan_before_value (pre : list pystr) (rr : pystr) :
  (forall part, In part pre -> re_match_number part = None) ->
  fold_left scan_step pre (None, rr) = (None, rr).
Proof.
  induction pre as [|p pre IH]; intros Hno; [reflexivity|].
  cbn [fold_left]. unfold scan_step at 2, collect_part. cbn [value_truthy negb].
  rewrite (Hno p (or_introl eq_refl)). apply IH.
  intros part Hin. apply Hno. right. exact Hin.
Qed.

(** The first numeric-leading part sets the value; when that value is not
    zero it is never overwritten, and every later part, numeric-looking or
    not, is appended to the reference range in order. *)
Lemma first_numeric_part_wins
  (pre post : list pystr) (part value_str : pystr) (v : spec_float) :
  (forall p, In p pre -> re_match_number p = None) ->
  re_match_number part = Some value_str ->
  py_float value_str = Returned v ->
  float_truthy v = true ->
  scan_parts (pre ++ part :: post) =
  (Some v, fold_left append_range post (strip (skipn (length value_str) part))).
Proof.
  intros Hno Hm Hf Hv. unfold scan_parts.
  rewrite fold_left_app, (scan_before_value pre [] Hno). cbn [fold_left].
  unfold scan_step at 2. cbn [value_truthy negb]. rewrite Hm, Hf.
  rewrite (scan_after_value post v _ Hv). f_equal.
  destruct (strip _); reflexivity.
Qed.
End ScanFacts.

(** ** DateResolver *)

Section DateResolverFacts.
Context {U : UnicodeData}.

Lemma last_error_cons {A : Type} (x : A) (l : list A) :
  last_error (x :: l) =
  match last_error l with
  | Some y => Some y
  | None => Some x
  end.
Proof.
  revert x. induction l as [|y l IH]; intros x; [reflexivity|].
  change (last_error (x :: y :: l)) with (last_error (y :: l)).
  rewrite (IH y). destruct (last_error l); reflexivity.
Qed.

Lemma scan_dates_from (dates : list pystr) (user_bday acc : option pystr) :
  fold_left (fun date_match date_str =>
               if differs date_str user_bday then Some date_str else date_match)
    dates acc =
  match last_error (filter (fun d => differs d user_bday) dates) with
  | Some d => Some d
  | None => acc
  end.
Proof.
  revert acc. induction dates as [|d dates IH]; intros acc; [reflexivity|].
  cbn [fold_left filter]. rewrite IH. destruct (differs d user_bday).
  - rewrite last_error_cons. destruct (last_error _); reflexivity.
  - reflexivity.
Qed.

(** The scan keeps the last date that differs from the birthday. *)
Lemma scan_dates_last (dates : list pystr) (user_bday : option pystr) :
  scan_dates dates user_bday =
  last_error (filter (fun d => differs d user_bday) dates).
Proof.
  unfold scan_dates. rewrite scan_dates_from.
  destruct (last_error _); reflexivity.
Qed.

Lemma filter_all_birthday (dates : list pystr) (user_bday : option pystr) :
  (forall d, In d dates -> user_bday = Some d) ->
  filter (fun d => differs d user_bday) dates = [].
Proof.
  induction dates as [|d ds IH]; intros Hall; [reflexivity|].
  cbn [filter].
  assert (Hd : differs d user_bday = false).
  { rewrite (Hall d (or_introl eq_refl)). cbn [differs].
    rewrite (proj2 (pystr_eqb_eq d d) eq_refl). reflexivity. }
  rewrite Hd. apply IH. intros d' Hin. apply Hall. right. exact Hin.
Qed.

Lemma match_date_at_shape (prev : option N) (s d : pystr) :
  match_date_at prev s = Some d ->
  date_shaped d = true /\ exists rest, s = d ++ rest.
Proof.
  unfold match_date_at.
  destruct s as [|d1 [|d2 [|s1 [|m1 [|m2 [|s2 [|y1 [|y2 [|y3 [|y4 rest]]]]]]]]]];
    try discriminate.
  destruct (_ && _) eqn:E; [|discriminate].
  intros [= <-]. split; [|exists rest; reflexivity].
  cbn [date_shaped].
  repeat (apply andb_true_iff in E; destruct E as [E ?]).
  repeat (apply andb_true_iff; split); assumption.
Qed.

Lemma findall_dates_from_shape (s : pystr) (prev : option N) (skip : nat) (d : pystr) :
  In d (findall_dates_from prev skip s) ->
  date_shaped d = true /\ substring d s.
Proof.
  revert prev skip. induction s as [|c s IH]; intros prev skip; [intros []|].
  assert (Hrec : forall p k, In d (findall_dates_from p k s) ->
                             date_shaped d = true /\ substring d (c :: s)).
  { intros p k Hin. destruct (IH p k Hin) as [Hs (a & b & ->)].
    split; [exact Hs|]. exists (c :: a), b. reflexivity. }
  cbn [findall_dates_from]. destruct skip as [|k]; [|apply Hrec].
  destruct (match_date_at prev (c :: s)) as [d'|] eqn:E; [|apply Hrec].
  intros [<-|Hin]; [|exact (Hrec _ _ Hin)].
  destruct (match_date_at_shape _ _ E) as [Hs [rest Hrest]].
  split; [exact Hs|]. exists [], rest. exact Hrest.
Qed.

Lemma strptime_15_03_2024 :
  strptime_dmy (lit "15/03/2024") = Returned {| year := 2024; month := 3; day := 15 |}.
Proof.
  cbn [lit list_ascii_of_string map N_of_ascii N_of_digits]. cbv [strptime_dmy].
  unfold parse_day, parse_month, parse_year, number2, digit_values.
  rewrite !decimal_ascii by reflexivity. vm_compute. reflexivity.
Qed.

Lemma number2_bound (a b n : N) : number2 a b = Some n -> (n < 100)%N.
Proof.
  unfold number2.
  destruct (decimal_value a) as [x|] eqn:Ea; [|discriminate].
  destruct (decimal_value b) as [y|] eqn:Eb; [|discriminate].
  pose proof (decimal_bound _ Ea). pose proof (decimal_bound _ Eb).
  intros Hn. assert (Hn' : (10 * x + y)%N = n) by congruence. lia.
Qed.

Lemma parse_year_bound (a b c d n : N) : parse_year a b c d = Some n -> (n < 10000)%N.
Proof.
  unfold parse_year. cbn [digit_values].
  destruct (decimal_value a) as [x1|] eqn:E1; [|discriminate].
  destruct (decimal_value b) as [x2|] eqn:E2; [|discriminate].
  destruct (decimal_value c) as [x3|] eqn:E3; [|discriminate].
  destruct (decimal_value d) as [x4|] eqn:E4; [|discriminate].
  pose proof (decimal_bound _ E1). pose proof (decimal_bound _ E2).
  pose proof (decimal_bound _ E3). pose proof (decimal_bound _ E4).
  unfold digits_to_N. cbn [fold_left]. intros Hn.
  assert (Hn' : (10 * (10 * (10 * (10 * 0 + x1) + x2) + x3) + x4)%N = n) by congruence.
  lia.
Qed.

(** What [strptime] returns has a year of at most four digits and a month and
    a day of at most two. *)
Lemma strptime_dmy_bounds (s : pystr) (d : datetime) :
  strptime_dmy s = Returned d ->
  (year d < 10000)%N /\ (month d < 100)%N /\ (day d < 100)%N.
Proof.
  unfold strptime_dmy.
  destruct s as [|d1 [|d2 [|s1 [|m1 [|m2 [|s2 [|y1 [|y2 [|y3 [|y4 [|x rest]]]]]]]]]]];
    try discriminate.
  destruct (parse_day d1 d2) as [dd|] eqn:Ed; [|discriminate].
  destruct (parse_month m1 m2) as [mm|] eqn:Em; [|discriminate].
  destruct (parse_year y1 y2 y3 y4) as [yy|] eqn:Ey; [|discriminate].
  destruct (_ && _); [|discriminate]. intros [= <-]. cbn [year month day].
  split; [exact (parse_year_bound _ _ _ _ Ey)|]. split.
  - unfold parse_month in Em.
    repeat match type of Em with
           | (if ?b then _ else _) = _ => destruct b; [exact (number2_bound _ _ Em)|]
           end.
    discriminate.
  - unfold parse_day in Ed.
    repeat match type of Ed with
           | (if ?b then _ else _) = _ => destruct b; [exact (number2_bound _ _ Ed)|]
           end.
    discriminate.
Qed.
End DateResolverFacts.

Lemma all_below_spec (k : N) (P : N -> bool) (n : N) :
  all_below k P = true -> (n < k)%N -> P n = true.
Proof.
  unfold all_below. rewrite forallb_forall. intros H Hn.
  rewrite <- (N2Nat.id n). apply H. apply in_seq. lia.
Qed.

Lemma zfill_2_digits (n : N) :
  (n < 100)%N -> digits_of_width 2 (zfill 2 (str_of_N n)) = true.
Proof.
  apply (@all_below_spec 100%N (fun n => digits_of_width 2 (zfill 2 (str_of_N n)))).
  vm_compute. reflexivity.
Qed.

Lemma zfill_4_digits (n : N) :
  (n < 10000)%N -> digits_of_width 4 (zfill 4 (str_of_N n)) = true.
Proof.
  apply (@all_below_spec 10000%N (fun n => digits_of_width 4 (zfill 4 (str_of_N n)))).
  vm_compute. reflexivity.
Qed.

Lemma four_digits_unpadded (n : N) :
  (n < 10000)%N -> (1000 <= n)%N -> zfill 4 (str_of_N n) = str_of_N n.
Proof.
  intros Hn Hge.
  pose proof (@all_below_spec 10000%N
                (fun n => (n <? 1000)%N
                          || pystr_eqb (zfill 4 (str_of_N n)) (str_of_N n))
                n ltac:(vm_compute; reflexivity) Hn) as H.
  cbv beta in H. rewrite (proj2 (N.ltb_ge n 1000) Hge) in H.
  apply pystr_eqb_eq. exact H.
Qed.

(** From the year 1000 on, or where the library pads, [%Y] is the year on
    four digits. *)
Lemma strftime_Y_padded {L : Platform} (y : N) :
  (y < 10000)%N -> pads_year = true \/ (1000 <= y)%N ->
  strftime_Y y = zfill 4 (str_of_N y).
Proof.
  intros Hy Hpad. unfold strftime_Y. destruct pads_year; [reflexivity|].
  destruct Hpad as [Hpad|Hge]; [discriminate|].
  symmetry. exact (four_digits_unpadded Hy Hge).
Qed.

(** The main branch writes YYYY-MM-DD, for a year that is written on four
    digits. *)
Lemma strftime_ymd_format {L : Platform} (d : datetime) :
  (year d < 10000)%N -> (month d < 100)%N -> (day d < 100)%N ->
  pads_year = true \/ (1000 <= year d)%N ->
  is_ymd_format (strftime_ymd d) = true.
Proof.
  intros Hy Hm Hd Hpad. unfold strftime_ymd.
  rewrite (strftime_Y_padded Hy Hpad).
  pose proof (zfill_4_digits Hy) as H4.
  pose proof (zfill_2_digits Hm) as H2.
  pose proof (zfill_2_digits Hd) as H2'.
  destruct (zfill 4 (str_of_N (year d))) as [|y1 [|y2 [|y3 [|y4 [|? ?]]]]];
    try discriminate.
  destruct (zfill 2 (str_of_N (month d))) as [|m1 [|m2 [|? ?]]]; try discriminate.
  destruct (zfill 2 (str_of_N (day d))) as [|d1 [|d2 [|? ?]]]; try discriminate.
  unfold digits_of_width in *. cbn [length Nat.eqb forallb andb] in *.
  cbn [app lit list_ascii_of_string map is_ymd_format].
  repeat (apply andb_true_iff in H4; destruct H4 as [? H4]).
  repeat (apply andb_true_iff in H2; destruct H2 as [? H2]).
  repeat (apply andb_true_iff in H2'; destruct H2' as [? H2']).
  repeat match goal with
         | Hx : ascii_digit _ = true |- _ => rewrite Hx; clear Hx
         end.
  reflexivity.
Qed.

Lemma uint_chars_no_dash (u : Decimal.uint) :
  Forall (fun c => c <> 45%N) (uint_chars u).
Proof. induction u; cbn [uint_chars]; constructor; (discriminate || assumption). Qed.

Lemma zfill_no_dash (w : nat) (s : pystr) :
  Forall (fun c => c <> 45%N) s -> Forall (fun c => c <> 45%N) (zfill w s).
Proof.
  intros H. unfold zfill. apply Forall_app. split; [|exact H].
  induction (w - length s) as [|k IH]; cbn [repeat]; constructor;
    (discriminate || assumption).
Qed.

(** The fallback branch never writes YYYY-MM-DD: its text has no dash. *)
Lemma strftime_dmy_format {L : Platform} (d : datetime) :
  is_ymd_format (strftime_dmy d) = false.
Proof.
  assert (H : Forall (fun c => c <> 45%N) (strftime_dmy d)).
  { assert (Hslash : Forall (fun c => c <> 45%N) (lit "/"))
      by (constructor; [discriminate | constructor]).
    unfold strftime_dmy.
    apply Forall_app; split; [apply zfill_no_dash, uint_chars_no_dash|].
    apply Forall_app; split; [exact Hslash|].
    apply Forall_app; split; [apply zfill_no_dash, uint_chars_no_dash|].
    apply Forall_app; split; [exact Hslash|].
    unfold strftime_Y. destruct pads_year;
      [apply zfill_no_dash|]; apply uint_chars_no_dash. }
  destruct (strftime_dmy d) as [|y1 [|y2 [|y3 [|y4 [|a rest]]]]]; try reflexivity.
  assert (Ha : (a =? 45)%N = false).
  { apply N.eqb_neq.
    apply Forall_inv_tail, Forall_inv_tail, Forall_inv_tail, Forall_inv_tail in H.
    exact (Forall_inv H). }
  destruct rest as [|m1 [|m2 [|b [|d1 [|d2 [|? ?]]]]]]; try reflexivity.
  cbn [is_ymd_format]. rewrite Ha, andb_false_r. reflexivity.
Qed.

(** The two branches of [extract_test_date]: a selected date whose year is
    written on four digits gives YYYY-MM-DD, the fallback never does. *)
Lemma extract_test_date_branches {U : UnicodeData} {L : Platform}
  (now : datetime) (text : pystr) (user_bday : option pystr) :
  match scan_dates (findall_dates text) user_bday with
  | Some date_match =>
      forall date_obj,
        strptime_dmy date_match = Returned date_obj ->
        extract_test_date now text user_bday = Returned (strftime_ymd date_obj) /\
        (pads_year = true \/ (1000 <= year date_obj)%N ->
         is_ymd_format (strftime_ymd date_obj) = true)
  | None =>
      extract_test_date now text user_bday = Returned (strftime_dmy now) /\
      is_ymd_format (strftime_dmy now) = false
  end.
Proof.
  unfold extract_test_date.
  destruct (scan_dates (findall_dates text) user_bday) as [date_match|].
  - intros d E. rewrite E. split; [reflexivity|]. intros Hpad.
    destruct (strptime_dmy_bounds _ E) as (Hy & Hm & Hd).
    exact (strftime_ymd_format d Hy Hm Hd Hpad).
  - split; [reflexivity | apply strftime_dmy_format].
Qed.


(** C3, at a text without a date: the fallback branch answers the current
    date as DD/MM/YYYY, which is not of the shape YYYY-MM-DD. *)
Theorem fallback_date_is_not_ymd :
  findall_dates (lit "no date in this report") = [] /\
  extract_test_date march_15 (lit "no date in this report") (Some (lit "01/01/1990"))
  = Returned (lit "15/03/2024") /\
  is_ymd_format (lit "15/03/2024") = false /\
  is_ymd_format (strftime_ymd march_15) = true.
Proof.
  repeat split; try (vm_compute; reflexivity).
Qed.

(** ** UnitExtractor *)

Lemma find_first {A : Type} (p : A -> bool) (pre post : list A) (x : A) :
  p x = true -> (forall y, In y pre -> p y = false) ->
  find p (pre ++ x :: post) = Some x.
Proof.
  intros Hx. induction pre as [|y pre IH]; intros Hpre; cbn [app find].
  - rewrite Hx. reflexivity.
  - rewrite (Hpre y (or_introl eq_refl)). apply IH.
    intros z Hz. apply Hpre. right. exact Hz.
Qed.

Lemma find_none_all {A : Type} (p : A -> bool) (l : list A) :
  (forall y, In y l -> p y = false) -> find p l = None.
Proof.
  induction l as [|y l IH]; intros H; cbn [find]; [reflexivity|].
  rewrite (H y (or_introl eq_refl)). apply IH.
  intros z Hz. apply H. right. exact Hz.
Qed.

Lemma not_substring_contains (p s : pystr) :
  ~ substring p s -> contains p s = false.
Proof.
  intros H. destruct (contains p s) eqn:E; [|reflexivity].
  exfalso. apply H, contains_substring, E.
Qed.

Lemma re_search_unit_first_run (s run : pystr) :
  first_unit_run s run -> re_search_unit s = Some run.
Proof.
  intros (a & b & -> & Ha & Hne & Hrun & Hb).
  induction Ha as [|c a Hc _ IH]; cbn [app].
  - destruct run as [|c run]; [contradiction|].
    cbn [app re_search_unit]. inversion Hrun as [|? ? Hc Hrest]; subst.
    rewrite Hc. apply (f_equal Some). exact (take_while_app unit_char b Hrun Hb).
  - cbn [re_search_unit]. rewrite Hc. exact IH.
Qed.

Lemma re_search_unit_no_run (s : pystr) :
  Forall (fun c => unit_char c = false) s -> re_search_unit s = None.
Proof.
  induction 1 as [|c s Hc _ IH]; cbn [re_search_unit]; [reflexivity|].
  rewrite Hc. exact IH.
Qed.

(** C6. [extract_unit_from_range] tests the fixed catalogue by substring
    containment and returns the first entry contained, first in the order of
    the catalogue and not of the string; when no entry is contained it
    returns the first maximal run of letters, slashes and mu, and the empty
    string when there is no such run. It maps 70-110 mg/dL to mg/dL,
    negative to negative and the empty string to itself. Being a function
    on all strings, it is total. *)
Theorem extract_unit_from_range_spec (s : pystr) :
  units = [lit "%"; lit "mg/dL"; lit "mg/dl"; lit "U/L"; lit "g/dL"; lit "g/dl";
           lit "mmol/L"; mu :: lit "g/dL"; lit "ng/mL"; lit "mL/min"] /\
  (forall pre u post,
      units = pre ++ u :: post ->
      substring u s ->
      (forall v, In v pre -> ~ substring v s) ->
      extract_unit_from_range s = u) /\
  ((forall v, In v units -> ~ substring v s) ->
   (forall run, first_unit_run s run -> extract_unit_from_range s = run) /\
   (Forall (fun c => unit_char c = false) s -> extract_unit_from_range s = [])) /\
  extract_unit_from_range (lit "70-110 mg/dL") = lit "mg/dL" /\
  extract_unit_from_range (lit "negative") = lit "negative" /\
  extract_unit_from_range (lit "") = lit "".
Proof.
  split; [reflexivity|]. split; [|split; [|repeat split; vm_compute; reflexivity]].
  - intros pre u post Hunits Hsub Hpre.
    assert (Hu : u <> []).
    { assert (Hin : In u units) by (rewrite Hunits; apply in_elt).
      intros ->. unfold units in Hin. cbn in Hin.
      repeat (destruct Hin as [Hin|Hin]; [discriminate|]). exact Hin. }
    unfold extract_unit_from_range. destruct s as [|c s].
    + destruct Hsub as (a & b & Hab). destruct a; [|discriminate].
      destruct u; [contradiction | discriminate].
    + cbn [nonempty negb]. rewrite Hunits.
      rewrite (find_first (fun unit => contains unit (c :: s)) pre post u).
      * reflexivity.
      * apply contains_substring. exact Hsub.
      * intros v Hv. apply not_substring_contains, Hpre, Hv.
  - intros Hnone.
    assert (Hfind : find (fun unit => contains unit s) units = None).
    { apply find_none_all. intros v Hv. apply not_substring_contains, Hnone, Hv. }
    split.
    + intros run Hrun. unfold extract_unit_from_range.
      rewrite Hfind, (re_search_unit_first_run Hrun).
      destruct s as [|c s]; [|reflexivity].
      destruct Hrun as (a & b & Hs & _ & Hne & _).
      destruct a; [|discriminate]. destruct run; [contradiction | discriminate].
    + intros Hs. unfold extract_unit_from_range.
      rewrite Hfind, (re_search_unit_no_run Hs). destruct s; reflexivity.
Qed.

Lemma extract_unit_from_range_spec_witness :
  extract_unit_from_range (lit "5 mg/dL (50%)") = lit "%" /\
  extract_unit_from_range (lit "4.0-10.0 x10^3/uL") = lit "x" /\
  extract_unit_from_range (lit "4.0-10.0") = [].
Proof.
  split; [|split].
  - apply (proj1 (proj2 (extract_unit_from_range_spec (lit "5 mg/dL (50%)")))
             [] (lit "%") (tl units)).
    + reflexivity.
    + exists (lit "5 mg/dL (50"), (lit ")"). reflexivity.
    + intros v [].
  - refine (proj1 (proj1 (proj2 (proj2 (extract_unit_from_range_spec
                                          (lit "4.0-10.0 x10^3/uL")))) _) _ _).
    + intros v Hv Hsub. apply contains_substring in Hsub.
      unfold units in Hv. cbn [In] in Hv.
      repeat (destruct Hv as [<-|Hv]; [vm_compute in Hsub; discriminate|]).
      exact Hv.
    + exists (lit "4.0-10.0 "), (lit "10^3/uL").
      split; [reflexivity|]. split; [repeat constructor|].
      split; [discriminate|]. split; [repeat constructor | reflexivity].
  - refine (proj2 (proj1 (proj2 (proj2 (extract_unit_from_range_spec (lit "4.0-10.0")))) _) _).
    + intros v Hv Hsub. apply contains_substring in Hsub.
      unfold units in Hv. cbn [In] in Hv.
      repeat (destruct Hv as [<-|Hv]; [vm_compute in Hsub; discriminate|]).
      exact Hv.
    + repeat constructor.
Defined.

(** ** StorageAdapter *)

(** C8. Whatever fails inside [get_patient_tests], building the query text,
    running the query or converting its answer, the function returns the empty
    frame and no error. A client whose query fails and a client that answers
    the empty frame give the caller the same value, and the same records as
    any client that answers a frame without records: the caller cannot tell
    a failed query from a range without data. *)
Theorem get_patient_tests_degrades_to_empty
  (QueryResult : Type)
  (client_query : pystr -> outcome QueryResult)
  (to_pandas : QueryResult -> outcome DataFrame)
  (start_date end_date : datetime) (test_names : option (list pyobj)) (e : exn) :
  get_patient_tests_body client_query to_pandas start_date end_date test_names = Raised e ->
  get_patient_tests client_query to_pandas start_date end_date test_names = pd_DataFrame /\
  (build_query start_date end_date test_names = Raised e \/
   (exists query,
       build_query start_date end_date test_names = Returned query /\
       (client_query query = Raised e \/
        exists result, client_query query = Returned result /\
                       to_pandas result = Raised e))) /\
  get_patient_tests (fun _ => Raised e) (@Returned DataFrame)
    start_date end_date test_names =
  get_patient_tests (fun _ => Returned pd_DataFrame) (@Returned DataFrame)
    start_date end_date test_names /\
  (forall no_data : DataFrame,
      records no_data = [] ->
      records (get_patient_tests (fun _ => Raised e) (@Returned DataFrame)
                 start_date end_date test_names) =
      records (get_patient_tests (fun _ => Returned no_data) (@Returned DataFrame)
                 start_date end_date test_names)).
Proof.
  intros H. split; [|split; [|split]].
  - unfold get_patient_tests. rewrite H. reflexivity.
  - unfold get_patient_tests_body, bind in H.
    destruct (build_query start_date end_date test_names) as [query|e'] eqn:Eb.
    + right. exists query. split; [reflexivity|].
      destruct (client_query query) as [result|e'] eqn:Eq.
      * right. exists result. split; [reflexivity | exact H].
      * left. injection H as ->. reflexivity.
    + left. injection H as ->. reflexivity.
  - unfold get_patient_tests, get_patient_tests_body, bind.
    destruct (build_query start_date end_date test_names); reflexivity.
  - intros no_data Hno. unfold get_patient_tests, get_patient_tests_body, bind.
    destruct (build_query start_date end_date test_names); cbn [records];
      [symmetry; exact Hno | reflexivity].
Qed.

Lemma get_patient_tests_degrades_to_empty_witness :
  get_patient_tests (fun _ : pystr => @Raised DataFrame QueryError) (@Returned DataFrame)
    {| year := 2024; month := 1; day := 1 |} {| year := 2024; month := 12; day := 31 |}
    (Some [PyStr (lit "WBC")]) = pd_DataFrame /\
  get_patient_tests (fun _ : pystr => Returned pd_DataFrame) (@Returned DataFrame)
    {| year := 2024; month := 1; day := 1 |} {| year := 2024; month := 12; day := 31 |}
    (Some [PyStr (lit "WBC"); PyNone]) = pd_DataFrame.
Proof.
  split.
  - apply (proj1 (get_patient_tests_degrades_to_empty
                    (fun _ : pystr => @Raised DataFrame QueryError) (@Returned DataFrame)
                    {| year := 2024; month := 1; day := 1 |}
                    {| year := 2024; month := 12; day := 31 |}
                    (Some [PyStr (lit "WBC")]) (e := QueryError)
                    ltac:(vm_compute; reflexivity))).
  - apply (proj1 (get_patient_tests_degrades_to_empty
                    (fun _ : pystr => Returned pd_DataFrame) (@Returned DataFrame)
                    {| year := 2024; month := 1; day := 1 |}
                    {| year := 2024; month := 12; day := 31 |}
                    (Some [PyStr (lit "WBC"); PyNone]) (e := TypeError)
                    ltac:(vm_compute; reflexivity))).
Defined.

(** * Further properties *)

(** ** Trimming *)

Lemma drop_while_fixed {A : Type} (p : A -> bool) (s : list A) :
  match s with [] => True | c :: _ => p c = false end -> drop_while p s = s.
Proof. destruct s as [|c s]; [reflexivity|]. cbn [drop_while]. intros ->. reflexivity. Qed.

Lemma drop_while_idem {A : Type} (p : A -> bool) (s : list A) :
  drop_while p (drop_while p s) = drop_while p s.
Proof. apply drop_while_fixed, drop_while_head. Qed.

Lemma drop_while_suffix {A : Type} (p : A -> bool) (s : list A) :
  exists a, s = a ++ drop_while p s /\ Forall (fun c => p c = true) a.
Proof.
  exists (take_while p s). split; [apply take_drop_while | apply take_while_Forall].
Qed.

Lemma drop_while_all {A : Type} (p : A -> bool) (s : list A) :
  drop_while p s = [] <-> Forall (fun c => p c = true) s.
Proof.
  induction s as [|c s IH]; cbn [drop_while].
  - split; [constructor | reflexivity].
  - destruct (p c) eqn:E.
    + rewrite IH. split; [constructor; assumption | apply Forall_inv_tail].
    + split; [discriminate|]. intros H. apply Forall_inv in H. congruence.
Qed.

Lemma rstrip_prefix (s : pystr) :
  exists w, s = rstrip s ++ w /\ Forall (fun c => isspace_char c = true) w.
Proof.
  unfold rstrip. destruct (drop_while_suffix isspace_char (rev s)) as (a & Ha & Hsp).
  exists (rev a). split.
  - rewrite <- rev_app_distr, <- Ha, rev_involutive. reflexivity.
  - apply Forall_rev. exact Hsp.
Qed.

Lemma rstrip_idem (s : pystr) : rstrip (rstrip s) = rstrip s.
Proof. unfold rstrip. rewrite rev_involutive, drop_while_idem. reflexivity. Qed.

Lemma lstrip_rstrip (s : pystr) : lstrip s = s -> lstrip (rstrip s) = rstrip s.
Proof.
  intros Hs. destruct (rstrip_prefix s) as (w & Hw & _).
  destruct (rstrip s) as [|c z] eqn:E; [reflexivity|].
  unfold lstrip in *. apply drop_while_fixed.
  rewrite Hw in Hs. cbn [app drop_while] in Hs.
  destruct (isspace_char c) eqn:Ec; [|reflexivity].
  exfalso.
  pose proof (drop_while_suffix isspace_char (z ++ w)) as (a & Ha & _).
  apply (f_equal (@length N)) in Hs. apply (f_equal (@length N)) in Ha.
  rewrite (length_app a) in Ha. cbn [length] in Hs. lia.
Qed.

(** [strip] is idempotent. *)
Lemma strip_idem (s : pystr) : strip (strip s) = strip s.
Proof.
  assert (H1 : lstrip (strip s) = strip s)
    by (unfold strip; apply lstrip_rstrip; unfold lstrip; apply drop_while_idem).
  unfold strip at 1. rewrite H1. unfold strip. apply rstrip_idem.
Qed.

Lemma strip_subset (s : pystr) (c : N) : In c (strip s) -> In c s.
Proof.
  intros H. unfold strip in H.
  destruct (rstrip_prefix (lstrip s)) as (w & Hw & _).
  assert (H1 : In c (lstrip s)) by (rewrite Hw; apply in_or_app; left; exact H).
  unfold lstrip in H1. destruct (drop_while_suffix isspace_char s) as (a & Ha & _).
  rewrite Ha. apply in_or_app. right. exact H1.
Qed.

(** Trimming leaves nothing exactly when every character is white space. *)
Lemma strip_nil_iff (s : pystr) :
  strip s = [] <-> Forall (fun c => isspace_char c = true) s.
Proof.
  unfold strip, rstrip. split.
  - intros H. apply (f_equal (@rev N)) in H. rewrite rev_involutive in H.
    cbn [rev] in H. apply drop_while_all in H. apply Forall_rev in H.
    rewrite rev_involutive in H.
    destruct (drop_while_suffix isspace_char s) as (a & Ha & Hsp).
    rewrite Ha. apply Forall_app. split; assumption.
  - intros H. apply drop_while_all in H. unfold lstrip. rewrite H. reflexivity.
Qed.

Lemma trimmed_ends (s : pystr) :
  trimmed s <-> starts_clean s /\ starts_clean (rev s).
Proof.
  unfold trimmed, strip, rstrip, lstrip. split.
  - intros H. split.
    + rewrite <- H. destruct (rstrip_prefix (drop_while isspace_char s)) as (w & Hw & _).
      unfold rstrip in Hw.
      pose proof (drop_while_head isspace_char s) as Hh.
      destruct (rev (drop_while isspace_char (rev (drop_while isspace_char s))))
        as [|c z]; [exact I|].
      rewrite Hw in Hh. exact Hh.
    + rewrite <- H at 1. rewrite rev_involutive. apply drop_while_head.
  - intros [H1 H2]. rewrite (drop_while_fixed isspace_char s H1).
    rewrite (drop_while_fixed isspace_char (rev s) H2). apply rev_involutive.
Qed.

Lemma starts_clean_app (a b : pystr) :
  a <> [] -> starts_clean a -> starts_clean (a ++ b).
Proof. destruct a; [contradiction | intros _ H; exact H]. Qed.

(** Two trimmed, non-empty strings joined by a space are trimmed. *)
Lemma trimmed_join (a b : pystr) :
  a <> [] -> b <> [] -> trimmed a -> trimmed b -> trimmed (a ++ lit " " ++ b).
Proof.
  intros Ha Hb [Ha1 _]%trimmed_ends [_ Hb2]%trimmed_ends. apply trimmed_ends. split.
  - apply starts_clean_app; assumption.
  - rewrite !rev_app_distr, <- app_assoc. apply starts_clean_app; [|exact Hb2].
    intros H. apply (f_equal (@rev N)) in H. rewrite rev_involutive in H.
    exact (Hb H).
Qed.

(** ** RowParser: tokens and results *)

Lemma split_on_no_sep (sep : N) (s piece : pystr) :
  In piece (split_on sep s) -> ~ In sep piece.
Proof.
  revert piece. induction s as [|c s IH]; intros piece; cbn [split_on].
  - intros [<-|[]] [].
  - destruct (c =? sep)%N eqn:E.
    + intros [<-|H]; [intros [] | exact (IH piece H)].
    + destruct (split_on sep s) as [|p ps] eqn:Es.
      * intros [<-|[]] [->|[]]. rewrite N.eqb_refl in E. discriminate.
      * intros [<-|H].
        -- intros [->|Hin]; [rewrite N.eqb_refl in E; discriminate|].
           exact (IH p (or_introl eq_refl) Hin).
        -- exact (IH piece (or_intror H)).
Qed.

Section TokenFacts.
Context {U : UnicodeData}.

Lemma keep_part_spec (part p : pystr) :
  In p (keep_part part) -> p = strip part /\ p <> [] /\ str_isdigit p = false.
Proof.
  unfold keep_part. destruct (strip part) as [|c s] eqn:E; cbn [nonempty]; [intros []|].
  destruct (str_isdigit (c :: s)) eqn:Ed; [intros []|].
  intros [<-|[]]. repeat split; [discriminate | exact Ed].
Qed.

Lemma cell_parts_spec (cell part : pystr) :
  In part (cell_parts cell) ->
  exists piece, In piece (split_on 10%N cell) /\ part = strip piece.
Proof.
  unfold cell_parts. destruct (nonempty cell); [|intros []].
  intros [_ H]%filter_In%proj1%in_map_iff%(fun x => conj I x).
  destruct H as (piece & <- & Hin). exists piece. split; [exact Hin | reflexivity].
Qed.

(** Every token is non-empty, trimmed, not purely digits and holds no line
    break. *)
Lemma row_tokens_spec (r : row) (p : pystr) :
  In p (row_tokens r) ->
  p <> [] /\ trimmed p /\ str_isdigit p = false /\ ~ In 10%N p.
Proof.
  unfold row_tokens, filtered_parts_of.
  intros (part & Hpart & Hp)%in_flat_map.
  apply keep_part_spec in Hp. destruct Hp as (-> & Hne & Hd).
  apply in_flat_map in Hpart. destruct Hpart as (cell & _ & Hcell).
  apply cell_parts_spec in Hcell. destruct Hcell as (piece & Hpiece & ->).
  repeat split; [exact Hne | apply strip_idem | exact Hd |].
  intros H. apply strip_subset, strip_subset in H.
  exact (split_on_no_sep _ _ _ Hpiece H).
Qed.

Lemma clean_row_trimmable (r : row) :
  Forall trimmable r -> mapM clean_cell r = Returned (map cell_text r).
Proof.
  induction 1 as [|c r Hc _ IH]; [reflexivity|].
  cbn [mapM map]. rewrite IH.
  destruct c as [|s|f]; cbn in *.
  - reflexivity.
  - destruct s; reflexivity.
  - unfold clean_cell. cbn [truthy]. rewrite Hc. reflexivity.
Qed.

Lemma meaningful_cells_count (r : row) :
  filter (fun cell => nonempty (strip cell)) (map cell_text r) =
  map cell_text (filter nonempty_cell r).
Proof.
  induction r as [|c r IH]; [reflexivity|]. cbn [map filter].
  assert (E : nonempty (strip (cell_text c)) = nonempty_cell c).
  { destruct c as [|s|f]; cbn [cell_text nonempty_cell]; try reflexivity.
    rewrite strip_idem. reflexivity. }
  rewrite E. destruct (nonempty_cell c); cbn [map]; rewrite IH; reflexivity.
Qed.

Lemma existsb_nonempty_cells (r : row) :
  filter nonempty_cell r <> [] -> existsb nonempty (map cell_text r) = true.
Proof.
  induction r as [|c r IH]; [intros H; contradiction|]. cbn [filter map existsb].
  destruct (nonempty_cell c) eqn:E.
  - intros _. destruct c as [|s|f]; try discriminate. cbn [cell_text nonempty_cell] in *.
    rewrite E. reflexivity.
  - intros H. rewrite (IH H). apply orb_true_r.
Qed.

(** The reference range stays trimmed through the scan. *)
Lemma scan_step_trimmed (st : option spec_float * pystr) (part : pystr) :
  trimmed (snd st) -> trimmed part -> part <> [] -> trimmed (snd (scan_step st part)).
Proof.
  destruct st as [v rr]. cbn [snd]. intros Hrr Hp Hne.
  assert (Hc : trimmed (collect_part v rr part)).
  { unfold collect_part. destruct (value_truthy v); [|exact Hrr].
    destruct rr as [|c rr]; [exact Hp|]. cbn [nonempty].
    apply trimmed_join; [discriminate | exact Hne | exact Hrr | exact Hp]. }
  unfold scan_step. destruct (negb (value_truthy v)); [|exact Hc].
  destruct (re_match_number part) as [vs|]; [|exact Hc].
  destruct (py_float vs); [|exact Hc]. cbn [snd].
  destruct (strip (skipn (length vs) part)) as [|c s] eqn:E; [exact Hrr|].
  cbn [nonempty]. rewrite <- E. apply strip_idem.
Qed.

Lemma scan_parts_trimmed (parts : list pystr) (st : option spec_float * pystr) :
  trimmed (snd st) ->
  (forall p, In p parts -> trimmed p /\ p <> []) ->
  trimmed (snd (fold_left scan_step parts st)).
Proof.
  revert st. induction parts as [|p parts IH]; intros st Hst Hparts; [exact Hst|].
  cbn [fold_left]. apply IH.
  - destruct (Hparts p (or_introl eq_refl)) as [Hp Hne].
    apply scan_step_trimmed; assumption.
  - intros q Hq. apply Hparts. right. exact Hq.
Qed.
End TokenFacts.

(** X1. When the first numeric-leading token after the name has a value that
    is not zero, the row parser's answer is fully determined: the name is
    the first token without asterisks, trimmed; the value is that of the
    token's numeric prefix; the range is what follows the prefix in that
    token, then every later token, joined by single spaces; the unit is
    extracted from that range. This for a row of strings and [None] with at
    least two cells that are non-empty after trimming. *)
Theorem parse_test_row_first_nonzero_value {U : UnicodeData}
  (r : row) (date name part value_str : pystr) (pre post : list pystr)
  (v : spec_float) :
  Forall trimmable r ->
  2 <= length (filter nonempty_cell r) ->
  row_tokens r = name :: pre ++ part :: post ->
  (forall p, In p pre -> re_match_number p = None) ->
  re_match_number part = Some value_str ->
  py_float value_str = Returned v ->
  float_truthy v = true ->
  let range := fold_left append_range post (strip (skipn (length value_str) part)) in
  parse_test_row r date =
  Some {| test_name := strip (remove_char 42%N name);
          value := v;
          unit := extract_unit_from_range range;
          test_date := date;
          reference_range := range |}.
Proof.
  intros Hr Hcells Htok Hpre Hm Hf Hv range.
  unfold parse_test_row, parse_test_row_body.
  rewrite (clean_row_trimmable Hr). cbn [bind].
  assert (Hlen : (length (map cell_text r) <? 2) = false).
  { apply Nat.ltb_ge. rewrite length_map.
    pose proof (filter_length_le nonempty_cell r). lia. }
  rewrite Hlen, existsb_nonempty_cells
    by (intros E; rewrite E in Hcells; cbn in Hcells; lia).
  cbn [orb negb]. rewrite meaningful_cells_count, length_map.
  destruct (Nat.leb_spec (length (filter nonempty_cell r)) 1) as [Hle|_]; [lia|].
  fold (row_tokens r). rewrite Htok. cbn [length hd tl].
  assert (Hlen2 : (S (length (pre ++ part :: post)) <? 2) = false).
  { apply Nat.ltb_ge. rewrite length_app. cbn [length]. lia. }
  rewrite Hlen2, (first_numeric_part_wins pre post part Hpre Hm Hf Hv).
  reflexivity.
Qed.

Lemma parse_test_row_first_nonzero_value_witness :
  parse_test_row row_glucose_full (lit "2024-03-15") =
  Some {| test_name := lit "Glucose";
          value := float_of_ratio 95 1;
          unit := lit "mg/dL";
          test_date := lit "2024-03-15";
          reference_range := lit "70 - 110 mg/dL" |}.
Proof.
  apply (@parse_test_row_first_nonzero_value
           ascii_tables row_glucose_full (lit "2024-03-15")
           (lit "*Glucose") (lit "95 70 - 110") (lit "95") [] [lit "mg/dL"]
           (float_of_ratio 95 1)).
  - repeat constructor.
  - vm_compute. repeat constructor.
  - vm_compute. reflexivity.
  - intros p [].
  - vm_compute. reflexivity.
  - vm_compute. reflexivity.
  - reflexivity.
Defined.

(** X2. The tokens of a row are never empty, never carry white space at
    their ends, never hold a line break and are never purely digits; so the
    token that supplies the value of a result is not a bare run of digits: a
    reading that stands alone as digits is never the value. *)
Theorem value_token_is_not_digits {U : UnicodeData} (r : row) (date : pystr) :
  (forall p, In p (row_tokens r) ->
             p <> [] /\ strip p = p /\ str_isdigit p = false /\ ~ In 10%N p) /\
  (forall result,
      parse_test_row r date = Some result ->
      exists part value_str,
        In part (tl (row_tokens r)) /\
        str_isdigit part = false /\
        re_match_number part = Some value_str /\
        py_float value_str = Returned (value result)).
Proof.
  split; [exact (row_tokens_spec r)|].
  intros result H. apply parse_test_row_some in H. destruct H as (rr & Hscan & _).
  destruct (scan_parts_value (tl (row_tokens r)) (v := value result))
    as (part & vs & Hin & Hm & Hf); [rewrite Hscan; reflexivity|].
  exists part, vs. repeat split; try assumption.
  assert (Hin' : In part (row_tokens r))
    by (destruct (row_tokens r); [destruct Hin | right; exact Hin]).
  exact (proj1 (proj2 (proj2 (row_tokens_spec r part Hin')))).
Qed.

Lemma value_token_is_not_digits_witness :
  exists part value_str,
    In part (tl (row_tokens row_glucose_95)) /\
    str_isdigit part = false /\
    re_match_number part = Some value_str /\
    py_float value_str = Returned (float_of_ratio 70 1).
Proof.
  apply (proj2 (value_token_is_not_digits (U := ascii_tables) row_glucose_95
                  (lit "2024-03-15"))
           {| test_name := lit "Glucose";
              value := float_of_ratio 70 1;
              unit := [];
              test_date := lit "2024-03-15";
              reference_range := lit "-110" |}).
  vm_compute. reflexivity.
Defined.

(** X3. Whatever the row, a result that is returned is dated with the date
    passed in, its unit is the unit extracted from its reference range, its
    name holds no asterisk and no line break, and neither the name nor the
    reference range starts or ends with white space. *)
Theorem parse_test_row_result_shape {U : UnicodeData}
  (r : row) (date : pystr) (result : BloodworkResult) :
  parse_test_row r date = Some result ->
  test_date result = date /\
  unit result = extract_unit_from_range (reference_range result) /\
  ~ In 42%N (test_name result) /\
  ~ In 10%N (test_name result) /\
  strip (test_name result) = test_name result /\
  strip (reference_range result) = reference_range result.
Proof.
  intros H. apply parse_test_row_some in H. destruct H as (rr & Hscan & ->).
  cbn [test_date unit test_name reference_range].
  assert (Hname : forall c, In c (strip (remove_char 42%N (hd [] (row_tokens r)))) ->
                            In c (hd [] (row_tokens r)) /\ c <> 42%N).
  { intros c Hc%strip_subset. unfold remove_char in Hc.
    apply filter_In in Hc. destruct Hc as [Hin Hne]. split; [exact Hin|].
    intros ->. discriminate. }
  repeat split.
  - intros Hc. exact (proj2 (Hname _ Hc) eq_refl).
  - intros Hc. apply Hname in Hc. destruct Hc as [Hc _].
    destruct (row_tokens r) as [|t ts] eqn:E; [destruct Hc|]. cbn [hd] in Hc.
    refine (proj2 (proj2 (proj2 (row_tokens_spec r t _))) Hc).
    rewrite E. left. reflexivity.
  - apply strip_idem.
  - assert (Ht : trimmed (snd (scan_parts (tl (row_tokens r))))).
    { apply scan_parts_trimmed; [reflexivity|].
      intros p Hp.
      assert (Hin : In p (row_tokens r))
        by (destruct (row_tokens r); [destruct Hp | right; exact Hp]).
      destruct (row_tokens_spec r p Hin) as (Hne & Htr & _). split; assumption. }
    rewrite Hscan in Ht. exact Ht.
Qed.

Lemma parse_test_row_result_shape_witness :
  strip (lit "70 - 110 mg/dL") = lit "70 - 110 mg/dL" /\
  ~ In 42%N (lit "Glucose").
Proof.
  pose proof (parse_test_row_result_shape
                (U := ascii_tables) row_glucose_full (lit "2024-03-15")
                (result := {| test_name := lit "Glucose";
                              value := float_of_ratio 95 1;
                              unit := lit "mg/dL";
                              test_date := lit "2024-03-15";
                              reference_range := lit "70 - 110 mg/dL" |})
                ltac:(vm_compute; reflexivity)) as (_ & _ & Hstar & _ & _ & Hrange).
  split; [exact Hrange | exact Hstar].
Defined.

(** X4. The name of a result can be empty: it is empty exactly when the
    first token is made of asterisks and white space only. *)
Theorem test_name_empty_iff {U : UnicodeData}
  (r : row) (date : pystr) (result : BloodworkResult) :
  parse_test_row r date = Some result ->
  (test_name result = [] <->
   Forall (fun c => c = 42%N \/ isspace_char c = true) (hd [] (row_tokens r))).
Proof.
  intros H. apply parse_test_row_some in H. destruct H as (rr & _ & ->).
  cbn [test_name]. rewrite strip_nil_iff. unfold remove_char.
  induction (hd [] (row_tokens r)) as [|c s IH]; cbn [filter].
  - split; constructor.
  - destruct (c =? 42)%N eqn:E; cbn [negb].
    + apply N.eqb_eq in E. rewrite IH. split.
      * intros Hs. constructor; [left; exact E | exact Hs].
      * apply Forall_inv_tail.
    + apply N.eqb_neq in E. split.
      * intros Hs. constructor; [right; exact (Forall_inv Hs)|].
        apply IH, (Forall_inv_tail Hs).
      * intros Hs. constructor.
        -- destruct (Forall_inv Hs) as [Hc|Hc]; [contradiction | exact Hc].
        -- apply IH, (Forall_inv_tail Hs).
Qed.

Lemma test_name_empty_iff_witness :
  parse_test_row row_starred (lit "2024-03-15") =
    Some {| test_name := [];
            value := float_of_ratio 55 10;
            unit := lit "mg/dL";
            test_date := lit "2024-03-15";
            reference_range := lit "mg/dL" |} /\
  Forall (fun c => c = 42%N \/ isspace_char c = true) (hd [] (row_tokens row_starred)).
Proof.
  assert (H : parse_test_row row_starred (lit "2024-03-15") =
              Some {| test_name := [];
                      value := float_of_ratio 55 10;
                      unit := lit "mg/dL";
                      test_date := lit "2024-03-15";
                      reference_range := lit "mg/dL" |})
    by (vm_compute; reflexivity).
  split; [exact H|].
  exact (proj1 (test_name_empty_iff (U := ascii_tables) row_starred (lit "2024-03-15") H)
           eq_refl).
Defined.

(** ** UnitExtractor: what it can return *)

Lemma substring_refl (s : pystr) : substring s s.
Proof. exists [], []. rewrite app_nil_r. reflexivity. Qed.

Lemma substring_trans (p q s : pystr) : substring p q -> substring q s -> substring p s.
Proof.
  intros (a & b & ->) (c & d & ->). exists (c ++ a), (b ++ d).
  rewrite <- !app_assoc. reflexivity.
Qed.

Lemma re_search_unit_some (s run : pystr) :
  re_search_unit s = Some run ->
  substring run s /\ run <> [] /\ Forall (fun c => unit_char c = true) run.
Proof.
  revert run. induction s as [|c s IH]; intros run; cbn [re_search_unit];
    [discriminate|].
  destruct (unit_char c) eqn:E.
  - intros Hrun. assert (Hr : run = take_while unit_char (c :: s)) by congruence.
    subst run. split; [|split].
    + exists [], (drop_while unit_char (c :: s)). cbn [app]. apply take_drop_while.
    + cbn [take_while]. rewrite E. discriminate.
    + apply take_while_Forall.
  - intros H. destruct (IH run H) as ((a & b & ->) & Hne & Hall).
    split; [|split; assumption]. exists (c :: a), b. reflexivity.
Qed.

Lemma re_search_unit_run (run : pystr) :
  run <> [] -> Forall (fun c => unit_char c = true) run -> re_search_unit run = Some run.
Proof.
  intros Hne Hall. destruct run as [|c run]; [contradiction|].
  cbn [re_search_unit]. rewrite (Forall_inv Hall).
  pose proof (take_while_app unit_char [] Hall I) as H.
  rewrite app_nil_r in H. rewrite H. reflexivity.
Qed.

(** The unit returned occurs in the reference range. *)
Lemma extract_unit_substring (s : pystr) : substring (extract_unit_from_range s) s.
Proof.
  unfold extract_unit_from_range. destruct s as [|c s]; [apply substring_refl|].
  cbn [nonempty negb].
  destruct (find _ units) as [u|] eqn:Ef.
  - apply find_some in Ef. apply contains_substring, (proj2 Ef).
  - destruct (re_search_unit (c :: s)) as [run|] eqn:Er.
    + exact (proj1 (re_search_unit_some _ Er)).
    + exists [], (c :: s). reflexivity.
Qed.

Lemma extract_unit_with_g_dL (s : pystr) :
  contains (lit "g/dL") s = true -> In (extract_unit_from_range s) units_before_mu.
Proof.
  intros H. unfold extract_unit_from_range.
  destruct s as [|c s]; [discriminate|]. cbn [nonempty negb]. unfold units.
  cbn [find].
  destruct (contains (lit "%") (c :: s)); [cbn; tauto|].
  destruct (contains (lit "mg/dL") (c :: s)); [cbn; tauto|].
  destruct (contains (lit "mg/dl") (c :: s)); [cbn; tauto|].
  destruct (contains (lit "U/L") (c :: s)); [cbn; tauto|].
  rewrite H. cbn; tauto.
Qed.

Lemma extract_unit_not_mu (s : pystr) : extract_unit_from_range s <> mu :: lit "g/dL".
Proof.
  intros H.
  assert (Hg : contains (lit "g/dL") s = true).
  { apply contains_substring.
    apply (substring_trans (q := mu :: lit "g/dL")).
    - exists [mu], []. reflexivity.
    - rewrite <- H. apply extract_unit_substring. }
  pose proof (extract_unit_with_g_dL s Hg) as Hin. rewrite H in Hin.
  unfold units_before_mu in Hin. cbn [In] in Hin.
  repeat (destruct Hin as [Hin|Hin]; [discriminate|]). exact Hin.
Qed.

(** X5. The unit extracted from a reference range always occurs in it as a
    run of consecutive characters: the extractor never makes a unit up, and
    it returns the empty string for a range without letters, slash, mu or
    percent sign. *)
Theorem extract_unit_occurs_in_range (s : pystr) :
  substring (extract_unit_from_range s) s /\
  (Forall (fun c => unit_char c = false /\ c <> 37%N) s ->
   extract_unit_from_range s = []).
Proof.
  split; [apply extract_unit_substring|].
  intros Hs. pose proof (extract_unit_substring s) as (a & b & Hab).
  destruct (extract_unit_from_range s) as [|c u] eqn:E; [reflexivity|].
  exfalso.
  assert (Hc : In c s) by (rewrite Hab; apply in_or_app; right; left; reflexivity).
  rewrite Forall_forall in Hs. destruct (Hs c Hc) as [Hu Hp].
  unfold extract_unit_from_range in E. destruct s as [|x s]; [discriminate|].
  cbn [nonempty negb] in E.
  destruct (find _ units) as [v|] eqn:Ef.
  - apply find_some in Ef. destruct Ef as [Hv _]. subst v.
    unfold units in Hv. cbn [In] in Hv.
    repeat (destruct Hv as [Hv|Hv];
            [injection Hv as <- _; first [discriminate Hu | exact (Hp eq_refl)]|]).
    exact Hv.
  - destruct (re_search_unit (x :: s)) as [run|] eqn:Er; [|discriminate].
    subst run. destruct (re_search_unit_some _ Er) as (_ & _ & Hall).
    rewrite (Forall_inv Hall) in Hu. discriminate.
Qed.

Lemma extract_unit_occurs_in_range_witness :
  extract_unit_from_range (lit "4.0 - 10.0") = [].
Proof.
  apply (proj2 (extract_unit_occurs_in_range (lit "4.0 - 10.0"))).
  repeat constructor; discriminate.
Defined.

(** X6. The catalogue entry mu-g/dL is never returned: a range that holds it
    also holds g/dL, which comes earlier in the catalogue, so the answer is
    one of the five entries up to g/dL. *)
Theorem mu_g_dL_is_never_returned (s : pystr) :
  extract_unit_from_range s <> mu :: lit "g/dL" /\
  (substring (mu :: lit "g/dL") s -> In (extract_unit_from_range s) units_before_mu).
Proof.
  split; [apply extract_unit_not_mu|].
  intros H. apply extract_unit_with_g_dL, contains_substring.
  apply (substring_trans (q := mu :: lit "g/dL")); [|exact H].
  exists [mu], []. reflexivity.
Qed.

Lemma mu_g_dL_is_never_returned_witness :
  In (extract_unit_from_range (lit "10 - 20 " ++ mu :: lit "g/dL")) units_before_mu.
Proof.
  apply (proj2 (mu_g_dL_is_never_returned (lit "10 - 20 " ++ mu :: lit "g/dL"))).
  exists (lit "10 - 20 "), []. reflexivity.
Defined.

(** X7. Extracting a unit is idempotent: what the extractor returns is a
    unit it maps to itself. *)
Theorem extract_unit_idempotent (s : pystr) :
  extract_unit_from_range (extract_unit_from_range s) = extract_unit_from_range s.
Proof.
  pose proof (extract_unit_not_mu s) as Hmu.
  pose proof (extract_unit_substring s) as Hsub.
  remember (extract_unit_from_range s) as e eqn:He.
  unfold extract_unit_from_range in He.
  destruct s as [|c s]; [subst e; reflexivity|]. cbn [nonempty negb] in He.
  destruct (find (fun unit => contains unit (c :: s)) units) as [u|] eqn:Ef.
  - subst e. apply find_some in Ef. destruct Ef as [Hu _].
    unfold units in Hu. cbn [In] in Hu.
    repeat (destruct Hu as [<-|Hu];
            [first [reflexivity | exfalso; apply Hmu; reflexivity]|]).
    destruct Hu.
  - destruct (re_search_unit (c :: s)) as [run|] eqn:Er; [|subst e; reflexivity].
    subst e. destruct (re_search_unit_some _ Er) as (_ & Hne & Hall).
    unfold extract_unit_from_range. destruct run as [|x run]; [reflexivity|].
    cbn [nonempty negb].
    rewrite find_none_all, (re_search_unit_run Hne Hall); [reflexivity|].
    intros v Hv. apply not_substring_contains. intros Hvs.
    pose proof (find_none _ _ Ef v Hv) as Hf. cbn beta in Hf.
    assert (Hc : contains v (c :: s) = true)
      by (apply contains_substring, (substring_trans Hvs Hsub)).
    congruence.
Qed.

(** ** TableAssembler: the header row and the record *)

Section HeaderFacts.
Context {U : UnicodeData}.

Lemma no_header_row_cons (r : row) (t : table) :
  no_header_row (r :: t) <->
  (2 <= length r ->
   exists text, row_text r = Returned text /\ is_header_text text = false) /\
  no_header_row t.
Proof.
  unfold no_header_row. split.
  - intros H. split; [apply H; left; reflexivity|].
    intros r' Hin. apply H. right. exact Hin.
  - intros [H1 H2] r' [<-|Hin]; [exact H1 | exact (H2 r' Hin)].
Qed.

Lemma find_header_row_from_some (t : table) (k i : nat) :
  find_header_row_from k t = Returned (Some i) ->
  exists j r,
    i = k + j /\ nth_error t j = Some r /\ header_row r /\ no_header_row (firstn j t).
Proof.
  revert k. induction t as [|r t IH]; intros k; cbn [find_header_row_from];
    [discriminate|].
  assert (Hrec : find_header_row_from (S k) t = Returned (Some i) ->
                 (2 <= length r ->
                  exists text, row_text r = Returned text /\ is_header_text text = false) ->
                 exists j r0,
                   i = k + j /\ nth_error (r :: t) j = Some r0 /\ header_row r0 /\
                   no_header_row (firstn j (r :: t))).
  { intros H Hr. destruct (IH (S k) H) as (j & r0 & -> & Hn & Hh & Hno).
    exists (S j), r0. repeat split; [lia | exact Hn | apply Hh | apply Hh |].
    cbn [firstn]. apply no_header_row_cons. split; assumption. }
  destruct (Nat.leb_spec 2 (length r)) as [Hlen|Hlen].
  - unfold bind. destruct (row_text r) as [text|e] eqn:Et; [|discriminate].
    destruct (is_header_text text) eqn:Eh.
    + intros [= <-]. exists 0, r. repeat split; [lia | exact Hlen | |].
      * exists text. split; [exact Et | exact Eh].
      * intros r' [].
    + intros H. apply Hrec; [exact H|]. intros _. exists text. split; reflexivity || exact Eh.
  - intros H. apply Hrec; [exact H|]. intros Hge. lia.
Qed.

Lemma find_header_row_from_app (pre t : table) (k : nat) :
  no_header_row pre ->
  find_header_row_from k (pre ++ t) = find_header_row_from (k + length pre) t.
Proof.
  revert k. induction pre as [|r pre IH]; intros k Hno.
  - cbn [app length]. rewrite Nat.add_0_r. reflexivity.
  - apply no_header_row_cons in Hno. destruct Hno as [Hr Hpre].
    cbn [app find_header_row_from length].
    replace (k + S (length pre)) with (S k + length pre) by lia.
    destruct (Nat.leb_spec 2 (length r)) as [Hlen|_]; [|exact (IH (S k) Hpre)].
    destruct (Hr Hlen) as (text & -> & Hh). cbn [bind]. rewrite Hh.
    exact (IH (S k) Hpre).
Qed.

Lemma find_header_row_from_shift (t : table) (a b k : nat) :
  find_header_row_from a t = Returned (Some (a + k)) ->
  find_header_row_from b t = Returned (Some (b + k)).
Proof.
  revert a b k. induction t as [|r t IH]; intros a b k; cbn [find_header_row_from];
    [discriminate|].
  assert (Hrec : find_header_row_from (S a) t = Returned (Some (a + k)) ->
                 find_header_row_from (S b) t = Returned (Some (b + k))).
  { intros Hf. destruct (find_header_row_from_some _ _ Hf) as (j & _ & Hj & _).
    destruct k as [|k]; [lia|].
    replace (a + S k) with (S a + k) in Hf by lia.
    replace (b + S k) with (S b + k) by lia. exact (IH _ _ _ Hf). }
  destruct (2 <=? length r); [|exact Hrec].
  unfold bind. destruct (row_text r) as [text|]; [|discriminate].
  destruct (is_header_text text); [|exact Hrec].
  intros [= Hk]. assert (k = 0) by lia. subst k. rewrite Nat.add_0_r. reflexivity.
Qed.

Lemma mapM_data_rows_suffixes (ts : list table) (rowss : list (list row)) :
  mapM data_rows ts = Returned rowss ->
  forall r, In r (concat rowss) -> exists t, In t ts /\ In r t.
Proof.
  revert rowss. induction ts as [|t ts IH]; intros rowss; cbn [mapM].
  - intros [= <-] r [].
  - unfold bind at 1. destruct (data_rows t) as [rows|e] eqn:Et; [|discriminate].
    unfold bind. destruct (mapM data_rows ts) as [rest|e]; [|discriminate].
    intros [= <-] r Hr. cbn [concat] in Hr. apply in_app_or in Hr.
    destruct Hr as [Hr|Hr].
    + exists t. split; [left; reflexivity|].
      unfold data_rows, bind in Et.
      destruct (find_header_row t) as [found|]; [|discriminate].
      injection Et as <-.
      rewrite <- (firstn_skipn (match found with Some i => i | None => 0 end + 1) t).
      apply in_or_app. right. exact Hr.
    + destruct (IH rest eq_refl r Hr) as (t' & Ht' & Hin).
      exists t'. split; [right; exact Ht' | exact Hin].
Qed.

Lemma row_results_member (date : pystr) (r : row) (result : BloodworkResult) :
  In result (row_results date r) ->
  2 <= length r /\ parse_test_row r date = Some result.
Proof.
  unfold row_results. destruct (negb (nonempty r)); [intros []|]. cbn [orb].
  destruct (Nat.ltb_spec (length r) 2) as [|Hlen]; [intros []|].
  destruct (parse_test_row r date) as [res|]; [|intros []].
  intros [<-|[]]. split; [exact Hlen | reflexivity].
Qed.

Lemma parsed_value_nonneg (r : row) (date : pystr) (result : BloodworkResult) :
  parse_test_row r date = Some result -> float_nonneg (value result) = true.
Proof.
  intros H. apply parse_test_row_some in H. destruct H as (rr & Hscan & _).
  destruct (scan_parts_value (tl (row_tokens r)) (v := value result))
    as (part & vs & _ & _ & Hf); [rewrite Hscan; reflexivity|].
  exact (py_float_nonneg _ Hf).
Qed.
End HeaderFacts.

(** X8. When a header row is found it is the first one of the table, and
    only the rows strictly below it are parsed: the header row itself and
    everything above it never reach the row parser. *)
Theorem rows_below_first_header {U : UnicodeData} (t : table) (d : pystr) (i : nat) :
  find_header_row t = Returned (Some i) ->
  (exists r, nth_error t i = Some r /\ header_row r) /\
  no_header_row (firstn i t) /\
  parse_table t d = Returned (flat_map (row_results d) (skipn (S i) t)).
Proof.
  intros H. unfold find_header_row in H.
  destruct (find_header_row_from_some _ _ H) as (j & r & -> & Hn & Hh & Hno).
  cbn [Nat.add]. split; [exists r; split; assumption|]. split; [exact Hno|].
  rewrite parse_table_data_rows. unfold data_rows, find_header_row. rewrite H.
  cbn [bind]. rewrite Nat.add_1_r. reflexivity.
Qed.

Lemma rows_below_first_header_witness :
  parse_table [row_glucose; row_header; row_wbc] (lit "2024-03-15") =
  Returned (flat_map (row_results (lit "2024-03-15")) [row_wbc]).
Proof.
  exact (proj2 (proj2 (rows_below_first_header
                         (U := ascii_tables) [row_glucose; row_header; row_wbc]
                         (lit "2024-03-15") (i := 1) ltac:(vm_compute; reflexivity)))).
Defined.

(** X9. Rows put above a table that has a header row change nothing, as long
    as none of them is a header row itself: the table contributes the same
    results. *)
Theorem rows_above_header_are_ignored {U : UnicodeData}
  (pre t : table) (d : pystr) (i : nat) :
  no_header_row pre ->
  find_header_row t = Returned (Some i) ->
  find_header_row (pre ++ t) = Returned (Some (length pre + i)) /\
  parse_table (pre ++ t) d = parse_table t d.
Proof.
  intros Hpre Ht.
  assert (H : find_header_row (pre ++ t) = Returned (Some (length pre + i))).
  { unfold find_header_row in *. rewrite (find_header_row_from_app t 0 Hpre).
    cbn [Nat.add]. exact (find_header_row_from_shift t 0 (length pre) i Ht). }
  split; [exact H|].
  rewrite !parse_table_data_rows. unfold data_rows. rewrite H, Ht. cbn [bind].
  do 2 f_equal. rewrite <- Nat.add_assoc, skipn_app.
  rewrite skipn_all2 by lia.
  replace (length pre + (i + 1) - length pre) with (i + 1) by lia. reflexivity.
Qed.

Lemma rows_above_header_are_ignored_witness :
  parse_table ([row_glucose] ++ [row_header; row_wbc]) (lit "2024-03-15") =
  parse_table [row_header; row_wbc] (lit "2024-03-15").
Proof.
  refine (proj2 (rows_above_header_are_ignored
                   (U := ascii_tables) (pre := [row_glucose]) [row_header; row_wbc]
                   (lit "2024-03-15") (i := 0) _ ltac:(vm_compute; reflexivity))).
  intros r [<-|[]] _. eexists. split; vm_compute; reflexivity.
Defined.

(** X10. Every result of an assembled record is the row parser's answer for
    a row of at least two cells of one of the tables; it is dated with the
    record's date and its value is not negative. The record carries the
    name and the date it was given. *)
Theorem record_results_come_from_rows {U : UnicodeData}
  (ed : ExtractedData) (name : option pystr) (record : BloodworkRecord) :
  parse_blood_work_table ed name = Returned record ->
  patient_name record = name /\
  record_date record = date ed /\
  (forall result,
      In result (results record) ->
      test_date result = record_date record /\
      float_nonneg (value result) = true /\
      exists t r,
        In t (tables ed) /\ In r t /\ 2 <= length r /\
        parse_test_row r (date ed) = Some result).
Proof.
  rewrite parse_blood_work_table_rows. unfold bind.
  destruct (mapM data_rows (tables ed)) as [rowss|e] eqn:Em; [|discriminate].
  intros [= <-]. cbn [patient_name record_date results].
  split; [reflexivity|]. split; [reflexivity|].
  intros result (r & Hr & Hres)%in_flat_map.
  apply row_results_member in Hres. destruct Hres as [Hlen Hp].
  destruct (mapM_data_rows_suffixes _ Em r Hr) as (t & Ht & Hin).
  split; [|split].
  - apply parse_test_row_some in Hp. destruct Hp as (rr & _ & ->). reflexivity.
  - exact (parsed_value_nonneg _ _ Hp).
  - exists t, r. repeat split; assumption.
Qed.

Lemma record_results_come_from_rows_witness :
  float_nonneg (float_of_ratio 52 10) = true /\
  exists t r,
    In t [[row_header; row_wbc]] /\ In r t /\ 2 <= length r /\
    parse_test_row r (lit "2024-03-15") =
      Some {| test_name := lit "WBC";
              value := float_of_ratio 52 10;
              unit := [];
              test_date := lit "2024-03-15";
              reference_range := lit "4.0-10.0" |}.
Proof.
  exact (proj2 (proj2 (proj2
           (record_results_come_from_rows
              (U := ascii_tables)
              {| date := lit "2024-03-15"; tables := [[row_header; row_wbc]] |}
              None
              (record := {| patient_name := None;
                            record_date := lit "2024-03-15";
                            results := [{| test_name := lit "WBC";
                                           value := float_of_ratio 52 10;
                                           unit := [];
                                           test_date := lit "2024-03-15";
                                           reference_range := lit "4.0-10.0" |}] |})
              ltac:(vm_compute; reflexivity)))
           {| test_name := lit "WBC";
              value := float_of_ratio 52 10;
              unit := [];
              test_date := lit "2024-03-15";
              reference_range := lit "4.0-10.0" |}
           ltac:(left; reflexivity))).
Defined.

(** ** DateResolver: calendar dates and digits *)

Lemma option_N_eqb_eq (a b : option N) : option_N_eqb a b = true -> a = b.
Proof.
  destruct a, b; cbn; try discriminate; try reflexivity.
  intros H. apply N.eqb_eq in H. congruence.
Qed.

Lemma day_check_all (x y : N) : (x < 10)%N -> (y < 10)%N -> day_check x y = true.
Proof.
  intros Hx Hy.
  refine (@all_below_spec 10%N (fun y => day_check x y) y _ Hy).
  refine (@all_below_spec 10%N
            (fun x => all_below 10%N (fun y => day_check x y)) x _ Hx).
  vm_compute. reflexivity.
Qed.

Lemma month_check_all (x y : N) : (x < 10)%N -> (y < 10)%N -> month_check x y = true.
Proof.
  intros Hx Hy.
  refine (@all_below_spec 10%N (fun y => month_check x y) y _ Hy).
  refine (@all_below_spec 10%N
            (fun x => all_below 10%N (fun y => month_check x y)) x _ Hx).
  vm_compute. reflexivity.
Qed.

Lemma year_check_all (a b c d : N) :
  (a < 10)%N -> (b < 10)%N -> (c < 10)%N -> (d < 10)%N -> year_check a b c d = true.
Proof.
  intros Ha Hb Hc Hd.
  refine (@all_below_spec 10%N (fun d => year_check a b c d) d _ Hd).
  refine (@all_below_spec 10%N
            (fun c => all_below 10%N (fun d => year_check a b c d)) c _ Hc).
  refine (@all_below_spec 10%N
            (fun b => all_below 10%N (fun c =>
             all_below 10%N (fun d => year_check a b c d))) b _ Hb).
  refine (@all_below_spec 10%N
            (fun a => all_below 10%N (fun b => all_below 10%N (fun c =>
             all_below 10%N (fun d => year_check a b c d)))) a _ Ha).
  vm_compute. reflexivity.
Qed.

Lemma ascii_digit_value (a : N) :
  ascii_digit a = true -> a = (48 + (a - 48))%N /\ (a - 48 < 10)%N /\ (a < 128)%N.
Proof.
  unfold ascii_digit. intros [H1 H2]%andb_true_iff.
  apply N.leb_le in H1, H2. lia.
Qed.

Lemma days_in_month_bound (y m : N) : (days_in_month y m <= 31)%N.
Proof.
  unfold days_in_month.
  destruct (m =? 2)%N; [destruct (is_leap y); lia|].
  destruct (_ || _); lia.
Qed.

Section CalendarFacts.
Context {U : UnicodeData} {L : Platform}.

Lemma number2_ascii (a b : N) :
  (a < 128)%N -> (b < 128)%N -> number2 a b = @number2 ascii_tables a b.
Proof.
  intros Ha Hb. unfold number2. rewrite !decimal_ascii by assumption. reflexivity.
Qed.

Lemma parse_day_ascii (a b : N) :
  ascii_digit a = true -> ascii_digit b = true ->
  parse_day a b =
  (if (1 <=? num2 a b) && (num2 a b <=? 31) then Some (num2 a b) else None)%N.
Proof.
  intros (Ea & Ha & Ha')%ascii_digit_value (Eb & Hb & Hb')%ascii_digit_value.
  unfold parse_day. rewrite number2_ascii by assumption.
  change (@parse_day ascii_tables a b = (if ((1 <=? num2 a b) && (num2 a b <=? 31))%N
                                         then Some (num2 a b) else None)).
  pose proof (day_check_all Ha Hb) as H. unfold day_check in H.
  apply andb_true_iff in H. destruct H as [H _]. apply option_N_eqb_eq in H.
  rewrite <- Ea, <- Eb in H. exact H.
Qed.

Lemma parse_month_ascii (a b : N) :
  ascii_digit a = true -> ascii_digit b = true ->
  parse_month a b =
  (if (1 <=? num2 a b) && (num2 a b <=? 12) then Some (num2 a b) else None)%N.
Proof.
  intros (Ea & Ha & Ha')%ascii_digit_value (Eb & Hb & Hb')%ascii_digit_value.
  unfold parse_month. rewrite number2_ascii by assumption.
  change (@parse_month ascii_tables a b = (if ((1 <=? num2 a b) && (num2 a b <=? 12))%N
                                           then Some (num2 a b) else None)).
  pose proof (month_check_all Ha Hb) as H. unfold month_check in H.
  apply option_N_eqb_eq in H. rewrite <- Ea, <- Eb in H. exact H.
Qed.

Lemma parse_year_ascii (a b c d : N) :
  ascii_digit a = true -> ascii_digit b = true ->
  ascii_digit c = true -> ascii_digit d = true ->
  parse_year a b c d = Some (num4 a b c d).
Proof.
  intros (Ea & Ha & Ha')%ascii_digit_value (Eb & Hb & Hb')%ascii_digit_value
         (Ec & Hc & Hc')%ascii_digit_value (Ed & Hd & Hd')%ascii_digit_value.
  unfold parse_year. cbn [digit_values]. rewrite !decimal_ascii by assumption.
  change (@parse_year ascii_tables a b c d = Some (num4 a b c d)).
  pose proof (year_check_all Ha Hb Hc Hd) as H. unfold year_check in H.
  apply andb_true_iff in H. destruct H as [H _]. apply option_N_eqb_eq in H.
  rewrite <- Ea, <- Eb, <- Ec, <- Ed in H. exact H.
Qed.

(** [strptime] on a date of ASCII digits: the date the digits spell when it
    is a day of the calendar, [ValueError] otherwise. *)
Lemma strptime_dmy_ascii (d1 d2 m1 m2 y1 y2 y3 y4 : N) :
  ascii_digit d1 = true -> ascii_digit d2 = true ->
  ascii_digit m1 = true -> ascii_digit m2 = true ->
  ascii_digit y1 = true -> ascii_digit y2 = true ->
  ascii_digit y3 = true -> ascii_digit y4 = true ->
  strptime_dmy [d1; d2; 47; m1; m2; 47; y1; y2; y3; y4]%N =
  if calendar_date (num4 y1 y2 y3 y4) (num2 m1 m2) (num2 d1 d2)
  then Returned {| year := num4 y1 y2 y3 y4; month := num2 m1 m2; day := num2 d1 d2 |}
  else Raised ValueError.
Proof.
  intros Hd1 Hd2 Hm1 Hm2 Hy1 Hy2 Hy3 Hy4. unfold strptime_dmy.
  rewrite (parse_day_ascii _ _ Hd1 Hd2), (parse_month_ascii _ _ Hm1 Hm2),
    (parse_year_ascii _ _ _ _ Hy1 Hy2 Hy3 Hy4).
  unfold calendar_date. cbn [N.eqb Pos.eqb andb].
  pose proof (days_in_month_bound (num4 y1 y2 y3 y4) (num2 m1 m2)) as Hb.
  set (y := num4 y1 y2 y3 y4) in *. set (m := num2 m1 m2) in *.
  set (d := num2 d1 d2) in *.
  destruct (N.le_gt_cases 1 d); destruct (N.le_gt_cases d 31);
    destruct (N.le_gt_cases 1 m); destruct (N.le_gt_cases m 12);
    destruct (N.le_gt_cases 1 y); destruct (N.le_gt_cases d (days_in_month y m));
    repeat (match goal with
            | |- context [(?a <=? ?b)%N] =>
                first [rewrite (proj2 (N.leb_le a b)) by lia
                      | rewrite (proj2 (N.leb_gt a b)) by lia]
            end; cbv beta iota; cbn [andb]);
    reflexivity.
Qed.

Lemma strftime_ymd_ascii (d1 d2 m1 m2 y1 y2 y3 y4 : N) :
  ascii_digit d1 = true -> ascii_digit d2 = true ->
  ascii_digit m1 = true -> ascii_digit m2 = true ->
  ascii_digit y1 = true -> ascii_digit y2 = true ->
  ascii_digit y3 = true -> ascii_digit y4 = true ->
  pads_year = true \/ y1 <> 48%N ->
  strftime_ymd {| year := num4 y1 y2 y3 y4; month := num2 m1 m2; day := num2 d1 d2 |} =
  [y1; y2; y3; y4; 45; m1; m2; 45; d1; d2]%N.
Proof.
  intros (Ed1 & Hd1 & _)%ascii_digit_value (Ed2 & Hd2 & _)%ascii_digit_value
         (Em1 & Hm1 & _)%ascii_digit_value (Em2 & Hm2 & _)%ascii_digit_value
         (Ey1 & Hy1 & _)%ascii_digit_value (Ey2 & Hy2 & _)%ascii_digit_value
         (Ey3 & Hy3 & _)%ascii_digit_value (Ey4 & Hy4 & _)%ascii_digit_value Hpad.
  unfold strftime_ymd. cbn [year month day].
  rewrite strftime_Y_padded;
    [|unfold num4; lia
     |destruct Hpad as [Hpad|Hpad]; [left; exact Hpad | right; unfold num4; lia]].
  pose proof (day_check_all Hd1 Hd2) as Hd. unfold day_check in Hd.
  apply andb_true_iff in Hd. destruct Hd as [_ Hd]. apply pystr_eqb_eq in Hd.
  pose proof (day_check_all Hm1 Hm2) as Hm. unfold day_check in Hm.
  apply andb_true_iff in Hm. destruct Hm as [_ Hm]. apply pystr_eqb_eq in Hm.
  pose proof (year_check_all Hy1 Hy2 Hy3 Hy4) as Hy. unfold year_check in Hy.
  apply andb_true_iff in Hy. destruct Hy as [_ Hy]. apply pystr_eqb_eq in Hy.
  unfold num2, num4. rewrite Hd, Hm, Hy.
  rewrite <- Ed1, <- Ed2, <- Em1, <- Em2, <- Ey1, <- Ey2, <- Ey3, <- Ey4.
  reflexivity.
Qed.
End CalendarFacts.

(** ** DateResolver: the candidates *)

Lemma filter_map_shift {A B : Type} (f : B -> bool) (g : A -> B) (l : list A) :
  filter f (map g l) = map g (filter (fun a => f (g a)) l).
Proof.
  induction l as [|a l IH]; [reflexivity|].
  cbn [map filter]. destruct (f (g a)); cbn [map]; rewrite IH; reflexivity.
Qed.

(** On the ASCII tables every decimal digit is a word character, as in
    Unicode. *)
Lemma ascii_digits_are_word (c : N) :
  @is_decimal ascii_tables c = true -> @word_char ascii_tables c = true.
Proof.
  unfold is_decimal. cbn [decimal_value word_char ascii_tables]. unfold ascii_decimal.
  destruct ((48 <=? c) && (c <=? 57))%N; [intros _|discriminate].
  rewrite orb_true_r. reflexivity.
Qed.

Section CandidateFacts.
Context {U : UnicodeData}.

Lemma slash_not_decimal : is_decimal 47%N = false.
Proof.
  unfold is_decimal. rewrite decimal_ascii by reflexivity. reflexivity.
Qed.

Lemma date_shaped_inv (d : pystr) :
  date_shaped d = true ->
  exists d1 d2 m1 m2 y1 y2 y3 y4,
    d = [d1; d2; 47; m1; m2; 47; y1; y2; y3; y4]%N /\
    is_decimal d1 = true /\ is_decimal d2 = true /\
    is_decimal m1 = true /\ is_decimal m2 = true /\
    is_decimal y1 = true /\ is_decimal y2 = true /\
    is_decimal y3 = true /\ is_decimal y4 = true.
Proof.
  destruct d as [|d1 [|d2 [|s1 [|m1 [|m2 [|s2 [|y1 [|y2 [|y3 [|y4 [|x rest]]]]]]]]]]];
    try discriminate.
  cbn [date_shaped]. intros E.
  repeat (apply andb_true_iff in E; destruct E as [E ?]).
  repeat match goal with
         | H : (_ =? 47)%N = true |- _ => apply N.eqb_eq in H; subst
         end.
  exists d1, d2, m1, m2, y1, y2, y3, y4. repeat split; assumption.
Qed.

Lemma candidate_at_succ (prev : option N) (c : N) (s : pystr) (i : nat) :
  candidate_at prev (c :: s) (S i) = candidate_at (Some c) s i.
Proof.
  unfold candidate_at. cbn [skipn char_before Nat.add nth_error].
  destruct i; reflexivity.
Qed.

(** Position by position: the candidate at the head, if any, then those of
    the rest. *)
Lemma candidates_from_cons (prev : option N) (c : N) (s : pystr) :
  candidates_from prev (c :: s) =
  (if candidate_at prev (c :: s) 0 then [firstn 10 (c :: s)] else [])
    ++ candidates_from (Some c) s.
Proof.
  unfold candidates_from. cbn [length seq filter].
  assert (Hrest : map (fun i => firstn 10 (skipn i (c :: s)))
                    (filter (candidate_at prev (c :: s)) (seq 1 (length s))) =
                  map (fun i => firstn 10 (skipn i s))
                    (filter (candidate_at (Some c) s) (seq 0 (length s)))).
  { rewrite <- seq_shift, filter_map_shift, map_map.
    rewrite (filter_ext _ _ (candidate_at_succ prev c s)). reflexivity. }
  destruct (candidate_at prev (c :: s) 0); cbn [map app]; rewrite Hrest; reflexivity.
Qed.

Lemma candidates_from_nil (prev : option N) : candidates_from prev [] = [].
Proof. reflexivity. Qed.

Lemma candidates_shape (s : pystr) (prev : option N) (d : pystr) :
  In d (candidates_from prev s) -> date_shaped d = true /\ substring d s.
Proof.
  unfold candidates_from. intros (i & <- & Hi)%in_map_iff.
  apply filter_In in Hi. destruct Hi as [_ Hc]. unfold candidate_at in Hc.
  apply andb_true_iff in Hc. destruct Hc as [Hc _].
  apply andb_true_iff in Hc. destruct Hc as [Hc _].
  split; [exact Hc|].
  exists (firstn i s), (skipn 10 (skipn i s)).
  rewrite (firstn_skipn 10 (skipn i s)), (firstn_skipn i s). reflexivity.
Qed.

(** In Unicode every decimal digit is a word character. *)
Hypothesis digits_are_word : forall c, is_decimal c = true -> word_char c = true.

(** The pattern of the code, tried at the head of [s], succeeds exactly where
    the head is a candidate. *)
Lemma match_date_at_candidate (prev : option N) (s : pystr) :
  match_date_at prev s =
  if candidate_at prev s 0 then Some (firstn 10 s) else None.
Proof.
  unfold match_date_at, candidate_at.
  destruct s as [|d1 [|d2 [|s1 [|m1 [|m2 [|s2 [|y1 [|y2 [|y3 [|y4 rest]]]]]]]]]];
    try reflexivity.
  cbn [skipn firstn char_before Nat.add nth_error date_shaped].
  change (nth_error rest 0) with (hd_error rest).
  destruct (is_decimal d1) eqn:H1;
    [|rewrite ?andb_true_r, ?andb_false_r; reflexivity].
  destruct (is_decimal d2) eqn:H2;
    [|rewrite ?andb_true_r, ?andb_false_r; reflexivity].
  destruct (s1 =? 47)%N eqn:H3;
    [|rewrite ?andb_true_r, ?andb_false_r; reflexivity].
  destruct (is_decimal m1) eqn:H4;
    [|rewrite ?andb_true_r, ?andb_false_r; reflexivity].
  destruct (is_decimal m2) eqn:H5;
    [|rewrite ?andb_true_r, ?andb_false_r; reflexivity].
  destruct (s2 =? 47)%N eqn:H6;
    [|rewrite ?andb_true_r, ?andb_false_r; reflexivity].
  destruct (is_decimal y1) eqn:H7;
    [|rewrite ?andb_true_r, ?andb_false_r; reflexivity].
  destruct (is_decimal y2) eqn:H8;
    [|rewrite ?andb_true_r, ?andb_false_r; reflexivity].
  destruct (is_decimal y3) eqn:H9;
    [|rewrite ?andb_true_r, ?andb_false_r; reflexivity].
  destruct (is_decimal y4) eqn:H10;
    [|rewrite ?andb_true_r, ?andb_false_r; reflexivity].
  rewrite ?andb_true_r. cbn [andb].
  unfold at_boundary. cbn [word_opt].
  rewrite (digits_are_word _ H1), (digits_are_word _ H10).
  rewrite xorb_true_r. cbn [xorb]. reflexivity.
Qed.

(** Two matches of the pattern never overlap: after a candidate, none of
    the next nine positions is one. *)
Lemma candidates_after_match (d1 d2 m1 m2 y1 y2 y3 y4 : N) (rest : pystr) :
  is_decimal d1 = true -> is_decimal d2 = true ->
  is_decimal m1 = true -> is_decimal m2 = true ->
  is_decimal y1 = true -> is_decimal y2 = true ->
  is_decimal y3 = true -> is_decimal y4 = true ->
  candidates_from (Some d1)
    (d2 :: 47 :: m1 :: m2 :: 47 :: y1 :: y2 :: y3 :: y4 :: rest)%N =
  candidates_from (Some y4) rest.
Proof.
  intros Hd1 Hd2 Hm1 Hm2 Hy1 Hy2 Hy3 Hy4.
  assert (Hskip : forall (p : option N) (c : N) (l : pystr),
             candidate_at p (c :: l) 0 = false ->
             candidates_from p (c :: l) = candidates_from (Some c) l).
  { intros p c l H. rewrite candidates_from_cons, H. reflexivity. }
  assert (Hbad : forall (p : option N) (l : pystr),
             (forall e1 e2 e3 e4 e5 e6 e7 e8,
                 firstn 10 l = [e1; e2; 47; e3; e4; 47; e5; e6; e7; e8]%N ->
                 is_decimal e1 = true -> is_decimal e2 = true ->
                 is_decimal e3 = true -> is_decimal e4 = true ->
                 is_decimal e5 = true -> False) ->
             candidate_at p l 0 = false).
  { intros p l H. unfold candidate_at. cbn [skipn].
    destruct (date_shaped (firstn 10 l)) eqn:E; [|reflexivity].
    exfalso. apply date_shaped_inv in E.
    destruct E as (e1 & e2 & e3 & e4 & e5 & e6 & e7 & e8 & E & ? & ? & ? & ? & ? & _).
    eapply H; eassumption. }
  assert (Hword : forall (c : N) (l : pystr),
             is_decimal c = true -> candidate_at (Some c) l 0 = false).
  { intros c l Hc. unfold candidate_at. cbn [char_before word_opt].
    rewrite (digits_are_word _ Hc). cbn [negb].
    rewrite andb_false_r. reflexivity. }
  pose proof slash_not_decimal as Hslash.
  rewrite Hskip by (apply Hbad; cbn [firstn]; intros; congruence).
  rewrite Hskip by (apply Hbad; cbn [firstn]; intros; congruence).
  rewrite Hskip by (apply Hbad; cbn [firstn]; intros; congruence).
  rewrite Hskip by (apply Hbad; cbn [firstn]; intros; congruence).
  rewrite Hskip by (apply Hbad; cbn [firstn]; intros; congruence).
  rewrite Hskip by (apply Hbad; cbn [firstn]; intros; congruence).
  rewrite Hskip by (apply Hbad; cbn [firstn]; intros; congruence).
  rewrite Hskip by (apply Hword; assumption).
  rewrite Hskip by (apply Hword; assumption).
  reflexivity.
Qed.

(** The scan of the code finds every candidate, in order. *)
Lemma findall_dates_from_candidates (n : nat) (s : pystr) (prev : option N) :
  length s <= n ->
  findall_dates_from prev 0 s = candidates_from prev s.
Proof.
  revert s prev. induction n as [|n IH]; intros s prev Hlen.
  - destruct s; [reflexivity | cbn [length] in Hlen; lia].
  - destruct s as [|c s]; [reflexivity|].
    cbn [findall_dates_from]. rewrite match_date_at_candidate, candidates_from_cons.
    cbn [length] in Hlen.
    destruct (candidate_at prev (c :: s) 0) eqn:E.
    + unfold candidate_at in E. cbn [skipn] in E.
      apply andb_true_iff in E. destruct E as [E _].
      apply andb_true_iff in E. destruct E as [E _].
      destruct s as [|d2 [|s1 [|m1 [|m2 [|s2 [|y1 [|y2 [|y3 [|y4 rest]]]]]]]]];
        try discriminate.
      cbn [firstn] in E. apply date_shaped_inv in E.
      destruct E as (e1 & e2 & e3 & e4 & e5 & e6 & e7 & e8 & E
                     & H1 & H2 & H3 & H4 & H5 & H6 & H7 & H8).
      injection E as -> -> -> -> -> -> -> -> -> ->.
      cbn [findall_dates_from firstn app].
      rewrite (IH rest (Some e8)) by (cbn [length] in Hlen; lia).
      rewrite candidates_after_match by assumption.
      reflexivity.
    + cbn [app]. apply IH. lia.
Qed.

Lemma findall_dates_candidates (text : pystr) :
  findall_dates text = candidates text.
Proof. apply (@findall_dates_from_candidates (length text)). apply le_n. Qed.
End CandidateFacts.

(** C4, as the code has it. The dates [extract_test_date] chooses among are
    the matches of its pattern, not every DD/MM/YYYY-shaped substring: they
    are, in order of appearance, exactly the DD/MM/YYYY-shaped substrings
    that have no word character (letter, digit, underscore) right before or
    right after them. Among these it selects the last one whose text differs
    from the birthday, and answers with what [strptime] and [strftime] make
    of it: for a selected date in ASCII digits, [ValueError] when it is no
    day of the calendar, and otherwise, with a year that does not start
    with a zero, the same digits as YYYY-MM-DD. When there is
    no such candidate (none at all, or every one equal to the birthday) it
    falls back to the current date. A text whose candidates are 01/01/1990
    then 15/03/2024, with birthday 01/01/1990, resolves to 2024-03-15. *)
Theorem extract_test_date_last_match {U : UnicodeData} {L : Platform}
  (now : datetime) (text : pystr) (user_bday : option pystr) :
  (forall c, is_decimal c = true -> word_char c = true) ->
  findall_dates text = candidates text /\
  (forall d, In d (candidates text) -> date_shaped d = true /\ substring d text) /\
  extract_test_date now text user_bday =
    match last_error (filter (fun d => differs d user_bday) (candidates text)) with
    | Some date_match =>
        date_obj <- strptime_dmy date_match ;; Returned (strftime_ymd date_obj)
    | None => Returned (strftime_dmy now)
    end /\
  (forall d1 d2 m1 m2 y1 y2 y3 y4 : N,
      last_error (filter (fun d => differs d user_bday) (candidates text)) =
        Some [d1; d2; 47; m1; m2; 47; y1; y2; y3; y4]%N ->
      forallb ascii_digit [d1; d2; m1; m2; y1; y2; y3; y4] = true ->
      (calendar_date (num4 y1 y2 y3 y4) (num2 m1 m2) (num2 d1 d2) = false ->
       extract_test_date now text user_bday = Raised ValueError) /\
      (calendar_date (num4 y1 y2 y3 y4) (num2 m1 m2) (num2 d1 d2) = true ->
       y1 <> 48%N ->
       extract_test_date now text user_bday =
       Returned [y1; y2; y3; y4; 45; m1; m2; 45; d1; d2]%N)) /\
  ((forall d, In d (candidates text) -> user_bday = Some d) ->
   extract_test_date now text user_bday = Returned (strftime_dmy now)) /\
  (candidates text = [lit "01/01/1990"; lit "15/03/2024"] ->
   user_bday = Some (lit "01/01/1990") ->
   extract_test_date now text user_bday = Returned (lit "2024-03-15")).
Proof.
  intros Hword.
  pose proof (findall_dates_candidates Hword text) as Hall.
  assert (Heq : extract_test_date now text user_bday =
                match last_error (filter (fun d => differs d user_bday)
                                    (candidates text)) with
                | Some date_match =>
                    date_obj <- strptime_dmy date_match ;;
                    Returned (strftime_ymd date_obj)
                | None => Returned (strftime_dmy now)
                end).
  { unfold extract_test_date. rewrite scan_dates_last, Hall. reflexivity. }
  assert (Hdigits : forall d1 d2 m1 m2 y1 y2 y3 y4 : N,
             last_error (filter (fun d => differs d user_bday) (candidates text)) =
               Some [d1; d2; 47; m1; m2; 47; y1; y2; y3; y4]%N ->
             forallb ascii_digit [d1; d2; m1; m2; y1; y2; y3; y4] = true ->
             (calendar_date (num4 y1 y2 y3 y4) (num2 m1 m2) (num2 d1 d2) = false ->
              extract_test_date now text user_bday = Raised ValueError) /\
             (calendar_date (num4 y1 y2 y3 y4) (num2 m1 m2) (num2 d1 d2) = true ->
              y1 <> 48%N ->
              extract_test_date now text user_bday =
              Returned [y1; y2; y3; y4; 45; m1; m2; 45; d1; d2]%N)).
  { intros d1 d2 m1 m2 y1 y2 y3 y4 Hsel Hd.
    cbn [forallb] in Hd.
    repeat match type of Hd with
           | (_ && _) = true =>
               let H := fresh "Hd" in
               apply andb_true_iff in Hd; destruct Hd as [H Hd]
           end.
    rewrite Heq, Hsel. rewrite strptime_dmy_ascii by assumption.
    split; intros Hcal; rewrite Hcal; [reflexivity|]. intros Hy1. cbn [bind].
    rewrite strftime_ymd_ascii by (assumption || (right; exact Hy1)).
    reflexivity. }
  split; [exact Hall|]. split; [|split; [exact Heq|split; [exact Hdigits|split]]].
  - intros d Hin. exact (candidates_shape _ _ _ Hin).
  - intros Hbday. rewrite Heq, (filter_all_birthday _ Hbday). reflexivity.
  - intros Hc ->.
    refine (proj2 (Hdigits 49 53 48 51 50 48 50 52 _ eq_refl)%N eq_refl _).
    + rewrite Hc. reflexivity.
    + discriminate.
Qed.

Lemma extract_test_date_last_match_witness :
  candidates (U := ascii_tables) (lit "Born 01/01/1990, sampled 15/03/2024.") =
    [lit "01/01/1990"; lit "15/03/2024"] /\
  extract_test_date {| year := 2025; month := 1; day := 2 |}
    (lit "Born 01/01/1990, sampled 15/03/2024.") (Some (lit "01/01/1990"))
  = Returned (lit "2024-03-15") /\
  extract_test_date {| year := 2025; month := 1; day := 2 |}
    (lit "Born 01/01/1990.") (Some (lit "01/01/1990"))
  = Returned (lit "02/01/2025").
Proof.
  split; [vm_compute; reflexivity|]. split.
  - apply (proj2 (proj2 (proj2 (proj2 (proj2
             (@extract_test_date_last_match ascii_tables glibc
                {| year := 2025; month := 1; day := 2 |}
                (lit "Born 01/01/1990, sampled 15/03/2024.")
                (Some (lit "01/01/1990")) ascii_digits_are_word)))))).
    + vm_compute. reflexivity.
    + reflexivity.
  - apply (proj1 (proj2 (proj2 (proj2 (proj2
             (@extract_test_date_last_match ascii_tables glibc
                {| year := 2025; month := 1; day := 2 |}
                (lit "Born 01/01/1990.")
                (Some (lit "01/01/1990")) ascii_digits_are_word)))))).
    intros d Hin. vm_compute in Hin. destruct Hin as [<-|[]]. reflexivity.
Defined.

(** C4 as the specification words it fails on a date that touches a word:
    the text ID15/03/2024 holds the DD/MM/YYYY-shaped substring 15/03/2024,
    which differs from the birthday, yet the pattern does not match it and
    the resolver falls back to the current date. *)
Lemma date_inside_a_word_is_not_selected :
  date_shaped (U := ascii_tables) (lit "15/03/2024") = true /\
  substring (lit "15/03/2024") (lit "ID15/03/2024") /\
  differs (lit "15/03/2024") (Some (lit "01/01/1990")) = true /\
  candidates (U := ascii_tables) (lit "ID15/03/2024") = [] /\
  extract_test_date {| year := 2025; month := 1; day := 2 |}
    (lit "ID15/03/2024") (Some (lit "01/01/1990"))
  = Returned (lit "02/01/2025").
Proof.
  split; [reflexivity|]. split; [exists (lit "ID"), []; reflexivity|].
  split; [reflexivity|]. split; vm_compute; reflexivity.
Qed.

(** X11. When the date [extract_test_date] selects is written with the
    ASCII digits, DD/MM/YYYY, the answer depends on nothing but these
    digits. When they do not name a day of the calendar (year from 1, month
    1 to 12, day within the month, leap years counted) the resolver raises
    [ValueError]: a date such as 31/02/2024 or 00/00/0000 printed on the
    first page makes it fail. When they do, and the year does not start
    with a zero, the answer is the same digits as YYYY-MM-DD. The current
    date plays no part. *)
Theorem selected_date_is_rewritten {U : UnicodeData} {L : Platform}
  (now : datetime) (text : pystr) (user_bday : option pystr)
  (d1 d2 m1 m2 y1 y2 y3 y4 : N) :
  last_error (filter (fun d => differs d user_bday) (findall_dates text)) =
    Some [d1; d2; 47; m1; m2; 47; y1; y2; y3; y4]%N ->
  forallb ascii_digit [d1; d2; m1; m2; y1; y2; y3; y4] = true ->
  (calendar_date (num4 y1 y2 y3 y4) (num2 m1 m2) (num2 d1 d2) = false ->
   extract_test_date now text user_bday = Raised ValueError) /\
  (calendar_date (num4 y1 y2 y3 y4) (num2 m1 m2) (num2 d1 d2) = true ->
   y1 <> 48%N ->
   extract_test_date now text user_bday =
   Returned [y1; y2; y3; y4; 45; m1; m2; 45; d1; d2]%N).
Proof.
  intros Hsel Hdigits. cbn [forallb] in Hdigits.
  repeat match type of Hdigits with
         | (_ && _) = true =>
             let H := fresh "Hd" in
             apply andb_true_iff in Hdigits; destruct Hdigits as [H Hdigits]
         end.
  unfold extract_test_date. rewrite scan_dates_last, Hsel.
  rewrite strptime_dmy_ascii by assumption.
  split; intros Hc; rewrite Hc; [reflexivity|]. intros Hy1.
  cbn [bind]. rewrite strftime_ymd_ascii by (assumption || (right; exact Hy1)).
  reflexivity.
Qed.

Lemma selected_date_is_rewritten_witness :
  extract_test_date (U := ascii_tables) march_15
    (lit "Born 01/01/1990, sampled 29/02/2024.") (Some (lit "01/01/1990"))
  = Returned (lit "2024-02-29") /\
  extract_test_date (U := ascii_tables) march_15
    (lit "Born 01/01/1990, sampled 29/02/2023.") (Some (lit "01/01/1990"))
  = Raised ValueError.
Proof.
  split.
  - exact (proj2 (@selected_date_is_rewritten ascii_tables glibc march_15
                    (lit "Born 01/01/1990, sampled 29/02/2024.")
                    (Some (lit "01/01/1990"))
                    50 57 48 50 50 48 50 52 eq_refl eq_refl)
             eq_refl ltac:(discriminate))%N.
  - exact (proj1 (@selected_date_is_rewritten ascii_tables glibc march_15
                    (lit "Born 01/01/1990, sampled 29/02/2023.")
                    (Some (lit "01/01/1990"))
                    50 57 48 50 50 48 50 51 eq_refl eq_refl)
             eq_refl)%N.
Defined.

(** ** Birthday: the field validator and the resolver *)

Section BirthdayFacts.
Context {U : UnicodeData} {L : Platform}.

Lemma filter_differs_absent (dates : list pystr) (v : pystr) :
  ~ In v dates ->
  filter (fun d => differs d (Some v)) dates = dates.
Proof.
  induction dates as [|d ds IH]; intros Hno; [reflexivity|].
  cbn [filter differs].
  destruct (pystr_eqb d v) eqn:E.
  - apply pystr_eqb_eq in E. exfalso. apply Hno. left. exact E.
  - cbn [negb]. f_equal. apply IH. intros Hin. apply Hno. right. exact Hin.
Qed.

Lemma filter_differs_None (dates : list pystr) :
  filter (fun d => differs d None) dates = dates.
Proof.
  induction dates as [|d ds IH]; [reflexivity|].
  cbn [filter differs]. f_equal. exact IH.
Qed.

Lemma extract_test_date_absent_birthday (now : datetime) (text v : pystr) :
  ~ In v (findall_dates text) ->
  extract_test_date now text (Some v) = extract_test_date now text None.
Proof.
  intros Hno. unfold extract_test_date. rewrite !scan_dates_last.
  rewrite filter_differs_absent by exact Hno.
  rewrite filter_differs_None. reflexivity.
Qed.
End BirthdayFacts.

(** X12. The birthday is compared with the dates of the text as text. A
    birthday that is not itself of the shape DD/MM/YYYY, two digits, a
    slash, two digits, a slash, four digits, equals none of them, so it
    excludes nothing: the resolver answers as if no birthday had been given.
    The field validator lets such birthdays through (1/1/1990), and the
    birth date printed on the page as 01/01/1990 is then taken for the date
    of the test. *)
Theorem unpadded_birthday_excludes_nothing {U : UnicodeData} {L : Platform}
  (now : datetime) (text v : pystr) :
  date_shaped v = false ->
  extract_test_date now text (Some v) = extract_test_date now text None.
Proof.
  intros Hv. apply extract_test_date_absent_birthday.
  intros Hin. apply findall_dates_from_shape in Hin.
  destruct Hin as [Hs _]. congruence.
Qed.

Lemma unpadded_birthday_excludes_nothing_witness :
  validate_birthday (U := ascii_tables) (Some (lit "1/1/1990")) =
    Returned (Some (lit "1/1/1990")) /\
  extract_test_date (U := ascii_tables) march_15 (lit "Born 01/01/1990.")
    (Some (lit "1/1/1990")) = Returned (lit "1990-01-01") /\
  extract_test_date (U := ascii_tables) march_15 (lit "Born 01/01/1990.")
    (Some (lit "01/01/1990")) = Returned (lit "15/03/2024").
Proof.
  split; [vm_compute; reflexivity|]. split; [|vm_compute; reflexivity].
  rewrite (@unpadded_birthday_excludes_nothing ascii_tables glibc march_15
             (lit "Born 01/01/1990.") (lit "1/1/1990") eq_refl).
  vm_compute. reflexivity.
Defined.

Lemma drop_while_app {A : Type} (p : A -> bool) (run b : list A) :
  Forall (fun c => p c = true) run ->
  match b with [] => True | c :: _ => p c = false end ->
  drop_while p (run ++ b) = b.
Proof.
  intros Hrun Hb. induction Hrun as [|c run Hc _ IH]; cbn [app drop_while].
  - destruct b as [|c b]; [reflexivity|]. cbn [drop_while]. rewrite Hb. reflexivity.
  - rewrite Hc. exact IH.
Qed.

Lemma not_slash_false (c : N) : not_slash c = false -> c = 47%N.
Proof.
  unfold not_slash. destruct (c =? 47)%N eqn:E; [|discriminate].
  intros _. apply N.eqb_eq. exact E.
Qed.

Section ValidatorFacts.
Context {U : UnicodeData}.

Lemma decimal_value_ascii_digit (c : N) :
  ascii_digit c = true -> decimal_value c = Some (c - 48)%N.
Proof.
  intros H. destruct (ascii_digit_value _ H) as (_ & _ & Hc).
  rewrite decimal_ascii by exact Hc. unfold ascii_decimal.
  unfold ascii_digit in H. rewrite H. reflexivity.
Qed.

Lemma decimal_not_slash (c v : N) : decimal_value c = Some v -> not_slash c = true.
Proof.
  intros H. unfold not_slash. destruct (c =? 47)%N eqn:E; [|reflexivity].
  apply N.eqb_eq in E. subst c. rewrite decimal_ascii in H by reflexivity.
  vm_compute in H. discriminate.
Qed.

Lemma number2_not_slash (a b n : N) :
  number2 a b = Some n -> not_slash a = true /\ not_slash b = true.
Proof.
  unfold number2.
  destruct (decimal_value a) as [x|] eqn:Ea; [|discriminate].
  destruct (decimal_value b) as [y|] eqn:Eb; [|discriminate].
  intros _. split; eapply decimal_not_slash; eassumption.
Qed.

Lemma parse_digit_1_9_some (a n : N) :
  parse_digit_1_9 a = Some n -> not_slash a = true /\ (1 <= n <= 9)%N.
Proof.
  unfold parse_digit_1_9. destruct (_ && _) eqn:E; [|discriminate].
  intros H. split; [exact (decimal_not_slash _ H)|].
  apply andb_true_iff in E. destruct E as [E1 E2]. apply N.leb_le in E1, E2.
  rewrite decimal_value_ascii_digit in H.
  - assert (Hn : (a - 48)%N = n) by congruence. lia.
  - unfold ascii_digit. apply andb_true_iff. split; apply N.leb_le; lia.
Qed.

Lemma parse_day_not_slash (a b n : N) :
  parse_day a b = Some n -> not_slash a = true /\ not_slash b = true.
Proof.
  unfold parse_day.
  repeat match goal with
         | |- (if ?c then _ else _) = _ -> _ =>
             destruct c; [exact (@number2_not_slash a b n)|]
         end.
  discriminate.
Qed.

Lemma parse_month_some (a b m : N) :
  parse_month a b = Some m ->
  not_slash a = true /\ not_slash b = true /\ (1 <= m <= 12)%N.
Proof.
  intros H. assert (Hs : not_slash a = true /\ not_slash b = true).
  { revert H. unfold parse_month.
    repeat match goal with
           | |- (if ?c then _ else _) = _ -> _ =>
               destruct c; [exact (@number2_not_slash a b m)|]
           end.
    discriminate. }
  destruct Hs as [Ha Hb]. split; [exact Ha|]. split; [exact Hb|].
  unfold parse_month in H.
  destruct ((a =? 49) && (48 <=? b) && (b <=? 50))%N eqn:E1.
  - apply andb_true_iff in E1. destruct E1 as [E1 E3].
    apply andb_true_iff in E1. destruct E1 as [E1 E2].
    apply N.eqb_eq in E1. apply N.leb_le in E2, E3.
    unfold number2 in H. rewrite !decimal_value_ascii_digit in H.
    + assert (Hm : (10 * (a - 48) + (b - 48))%N = m) by congruence. lia.
    + unfold ascii_digit. apply andb_true_iff. split; apply N.leb_le; lia.
    + unfold ascii_digit. apply andb_true_iff. split; apply N.leb_le; lia.
  - destruct ((a =? 48) && (49 <=? b) && (b <=? 57))%N eqn:E2; [|discriminate].
    apply andb_true_iff in E2. destruct E2 as [E2 E4].
    apply andb_true_iff in E2. destruct E2 as [E2 E3].
    apply N.eqb_eq in E2. apply N.leb_le in E3, E4.
    unfold number2 in H. rewrite !decimal_value_ascii_digit in H.
    + assert (Hm : (10 * (a - 48) + (b - 48))%N = m) by congruence. lia.
    + unfold ascii_digit. apply andb_true_iff. split; apply N.leb_le; lia.
    + unfold ascii_digit. apply andb_true_iff. split; apply N.leb_le; lia.
Qed.

Lemma space_not_slash : not_slash 32%N = true.
Proof. reflexivity. Qed.

Lemma parse_day_field_some (f : pystr) (d : N) :
  parse_day_field f = Some d ->
  Forall (fun c => not_slash c = true) f /\ 1 <= length f <= 2.
Proof.
  destruct f as [|a [|b [|c f]]]; try discriminate; cbn [parse_day_field length].
  - intros H. destruct (parse_digit_1_9_some _ H) as [Ha _].
    split; [auto using Forall_cons, Forall_nil | lia].
  - destruct (a =? 32)%N eqn:E.
    + apply N.eqb_eq in E. subst a. intros H.
      destruct (parse_digit_1_9_some _ H) as [Hb _].
      split; [auto using Forall_cons, Forall_nil, space_not_slash | lia].
    + intros H. destruct (parse_day_not_slash _ _ H) as [Ha Hb].
      split; [auto using Forall_cons, Forall_nil | lia].
Qed.

Lemma parse_month_field_some (f : pystr) (m : N) :
  parse_month_field f = Some m ->
  Forall (fun c => not_slash c = true) f /\ 1 <= length f <= 2 /\ (1 <= m <= 12)%N.
Proof.
  destruct f as [|a [|b [|c f]]]; try discriminate; cbn [parse_month_field length].
  - intros H. destruct (parse_digit_1_9_some _ H) as [Ha Hm].
    split; [auto using Forall_cons, Forall_nil|]. split; lia.
  - intros H. destruct (parse_month_some _ _ H) as (Ha & Hb & Hm).
    split; [auto using Forall_cons, Forall_nil|]. split; lia.
Qed.

Lemma parse_year_field_some (f : pystr) (y : N) :
  parse_year_field f = Some y -> length f = 4.
Proof.
  destruct f as [|a [|b [|c [|d [|e f]]]]]; try discriminate. reflexivity.
Qed.

(** [strptime] with the format of the birthday: what it accepts. *)
Lemma strptime_any_spec (s : pystr) (dt : datetime) :
  strptime_any s = Returned dt <->
  exists df mf yf,
    s = df ++ 47%N :: mf ++ 47%N :: yf /\
    parse_day_field df = Some (day dt) /\
    parse_month_field mf = Some (month dt) /\
    parse_year_field yf = Some (year dt) /\
    calendar_date (year dt) (month dt) (day dt) = true.
Proof.
  split.
  - unfold strptime_any. intros H.
    pose proof (take_drop_while not_slash s) as Hs.
    pose proof (drop_while_head not_slash s) as Hh.
    destruct (drop_while not_slash s) as [|x after_day]; [discriminate|].
    apply not_slash_false in Hh. subst x.
    pose proof (take_drop_while not_slash after_day) as Hs'.
    pose proof (drop_while_head not_slash after_day) as Hh'.
    destruct (drop_while not_slash after_day) as [|x year_text]; [discriminate|].
    apply not_slash_false in Hh'. subst x.
    destruct (parse_day_field _) as [d|] eqn:Ed; [|discriminate].
    destruct (parse_month_field _) as [m|] eqn:Em; [|discriminate].
    destruct (parse_year_field _) as [y|] eqn:Ey; [|discriminate].
    destruct (_ && _) eqn:E; [|discriminate].
    injection H as <-. cbn [year month day].
    exists (take_while not_slash s), (take_while not_slash after_day), year_text.
    split; [rewrite <- Hs'; exact Hs|].
    split; [exact Ed|]. split; [exact Em|]. split; [exact Ey|].
    destruct (parse_month_field_some _ Em) as (_ & _ & Hm).
    apply andb_true_iff in E. destruct E as [E E3].
    apply andb_true_iff in E. destruct E as [E1 E2].
    unfold calendar_date. rewrite E1, E2, E3.
    rewrite (proj2 (N.leb_le 1 m)), (proj2 (N.leb_le m 12)) by lia. reflexivity.
  - intros (df & mf & yf & -> & Ed & Em & Ey & Hc).
    destruct (parse_day_field_some _ Ed) as [Hdf _].
    destruct (parse_month_field_some _ Em) as (Hmf & _ & _).
    unfold strptime_any.
    rewrite (take_while_app not_slash (run := df) (47%N :: mf ++ 47%N :: yf) Hdf eq_refl).
    rewrite (drop_while_app not_slash (run := df) (47%N :: mf ++ 47%N :: yf) Hdf eq_refl).
    rewrite (take_while_app not_slash (run := mf) (47%N :: yf) Hmf eq_refl).
    rewrite (drop_while_app not_slash (run := mf) (47%N :: yf) Hmf eq_refl).
    rewrite Ed, Em, Ey.
    unfold calendar_date in Hc.
    repeat (apply andb_true_iff in Hc; destruct Hc as [Hc ?]).
    rewrite Hc. cbn [andb].
    repeat match goal with H : _ = true |- _ => rewrite H; clear H end.
    cbn [andb]. destruct dt; reflexivity.
Qed.
End ValidatorFacts.

(** X13. The validator of the [birthday] field returns its input unchanged
    or raises [ValueError]. It accepts the empty string, and otherwise
    exactly the strings made of a day, a slash, a month, a slash and a year
    that [strptime] reads with the format of the code and that name a day of
    the calendar: the day and the month of one or two characters, the year of
    four. An accepted birthday may so be shorter than the ten characters of
    DD/MM/YYYY. *)
Theorem validate_birthday_accepts {U : UnicodeData} (v : pystr) :
  (validate_birthday (Some v) = Returned (Some v) \/
   validate_birthday (Some v) = Raised ValueError) /\
  (validate_birthday (Some v) = Returned (Some v) <->
   v = [] \/
   exists df mf yf d m y,
     v = df ++ 47%N :: mf ++ 47%N :: yf /\
     parse_day_field df = Some d /\ 1 <= length df <= 2 /\
     parse_month_field mf = Some m /\ 1 <= length mf <= 2 /\
     parse_year_field yf = Some y /\ length yf = 4 /\
     calendar_date y m d = true) /\
  (validate_birthday (Some v) = Returned (Some v) ->
   v = [] \/ 8 <= length v <= 10).
Proof.
  assert (Hiff : validate_birthday (Some v) = Returned (Some v) <->
                 v = [] \/
                 exists df mf yf d m y,
                   v = df ++ 47%N :: mf ++ 47%N :: yf /\
                   parse_day_field df = Some d /\ 1 <= length df <= 2 /\
                   parse_month_field mf = Some m /\ 1 <= length mf <= 2 /\
                   parse_year_field yf = Some y /\ length yf = 4 /\
                   calendar_date y m d = true).
  { destruct v as [|c s]; [split; [left|]; reflexivity|].
    cbn [validate_birthday]. split.
    - destruct (strptime_any (c :: s)) as [dt|e] eqn:E; [|discriminate].
      intros _. right. apply strptime_any_spec in E.
      destruct E as (df & mf & yf & Hv & Ed & Em & Ey & Hc).
      exists df, mf, yf, (day dt), (month dt), (year dt).
      destruct (parse_day_field_some _ Ed) as [_ Hdl].
      destruct (parse_month_field_some _ Em) as (_ & Hml & _).
      pose proof (parse_year_field_some _ Ey) as Hyl.
      repeat split; solve [assumption | lia].
    - intros [Hnil|(df & mf & yf & d & m & y & Hv & Ed & _ & Em & _ & Ey & _ & Hc)];
        [discriminate|].
      assert (E : strptime_any (c :: s) =
                  Returned {| year := y; month := m; day := d |}).
      { apply strptime_any_spec. exists df, mf, yf. cbn [year month day].
        repeat split; assumption. }
      rewrite E. reflexivity. }
  split; [|split; [exact Hiff|]].
  - destruct v as [|c s]; [left; reflexivity|]. cbn [validate_birthday].
    destruct (strptime_any (c :: s)); [left | right]; reflexivity.
  - intros H. apply Hiff in H.
    destruct H as [Hnil|(df & mf & yf & d & m & y & -> & _ & Hd & _ & Hm & _ & Hy & _)];
      [left; exact Hnil | right].
    rewrite length_app. cbn [length]. rewrite length_app. cbn [length]. lia.
Qed.

(** ** StorageAdapter: the query text *)

Lemma mapM_join_item_strings (names : list pystr) :
  mapM join_item (map PyStr names) = Returned names.
Proof.
  induction names as [|n names IH]; [reflexivity|].
  cbn [map mapM join_item bind]. rewrite IH. reflexivity.
Qed.

(** X14. The names of [test_names] are put into the query text between
    quotes, joined by quote, comma, blank, quote, and nothing in a name is
    escaped: one name that contains this separator gives the very query of
    the names it joins, so the text sent to the database, and with it the
    answer of [get_patient_tests], cannot tell them apart. An empty list of
    names is no filter at all, as if none had been given. *)
Theorem test_names_are_not_escaped
  (QueryResult : Type)
  (client_query : pystr -> outcome QueryResult)
  (to_pandas : QueryResult -> outcome DataFrame)
  (start_date end_date : datetime) (names : list pystr) :
  names <> [] ->
  build_query start_date end_date (Some [PyStr (join (lit "', '") names)]) =
    build_query start_date end_date (Some (map PyStr names)) /\
  get_patient_tests client_query to_pandas start_date end_date
    (Some [PyStr (join (lit "', '") names)]) =
    get_patient_tests client_query to_pandas start_date end_date
      (Some (map PyStr names)) /\
  build_query start_date end_date (Some []) = build_query start_date end_date None.
Proof.
  intros Hne.
  assert (Hq : build_query start_date end_date (Some [PyStr (join (lit "', '") names)]) =
               build_query start_date end_date (Some (map PyStr names))).
  { destruct names as [|n names]; [congruence|].
    unfold build_query. cbn [map].
    change (PyStr n :: map PyStr names) with (map PyStr (n :: names)).
    rewrite mapM_join_item_strings.
    cbn [mapM join_item bind]. reflexivity. }
  split; [exact Hq|]. split; [|reflexivity].
  unfold get_patient_tests, get_patient_tests_body. rewrite Hq. reflexivity.
Qed.

Lemma test_names_are_not_escaped_witness :
  build_query march_15 march_15 (Some [PyStr (lit "WBC', 'RBC")]) =
  build_query march_15 march_15 (Some [PyStr (lit "WBC"); PyStr (lit "RBC")]).
Proof.
  exact (proj1 (@test_names_are_not_escaped Datatypes.unit
                  (fun _ => Raised QueryError) (fun _ => Raised QueryError)
                  march_15 march_15 [lit "WBC"; lit "RBC"]
                  ltac:(discriminate))).
Defined.

(** ** StorageAdapter: the points written *)

Section RecordFacts.
Context {U : UnicodeData}.

Lemma parsed_record_results (ed : ExtractedData) (name : option pystr)
  (record : BloodworkRecord) :
  parse_blood_work_table ed name = Returned record ->
  patient_name record = name /\
  record_date record = date ed /\
  Forall (fun result =>
            test_date result = date ed /\
            unit result = extract_unit_from_range (reference_range result) /\
            float_nonneg (value result) = true) (results record).
Proof.
  rewrite parse_blood_work_table_rows. unfold bind.
  destruct (mapM data_rows (tables ed)) as [rowss|e] eqn:Em; [|discriminate].
  intros [= <-]. cbn [patient_name record_date results].
  split; [reflexivity|]. split; [reflexivity|].
  apply Forall_forall. intros result (r & Hr & Hres)%in_flat_map.
  apply row_results_member in Hres. destruct Hres as [_ Hp].
  split; [|split].
  - apply parse_test_row_some in Hp. destruct Hp as (rr & _ & ->). reflexivity.
  - apply parse_test_row_some in Hp. destruct Hp as (rr & _ & ->). reflexivity.
  - exact (parsed_value_nonneg _ _ Hp).
Qed.

Lemma extract_unit_of_empty : extract_unit_from_range [] = [].
Proof. reflexivity. Qed.
End RecordFacts.

(** X15. What [store_bloodwork_record] writes for a record that
    [parse_blood_work_table] built: one point per result, in order, all of
    the measurement bloodwork and all at the one time that is the resolved
    date of the report; each with the single field value, a float that is
    not negative, and the patient name given to the parser as a tag. The
    tag reference_range is present exactly when the range is not empty, and
    the unit tag is the unit extracted from that range: a point without a
    reference_range tag has the empty unit. The method answers [True]
    exactly when the client's write of these points returned, and raises
    nothing when it did not. *)
Theorem stored_points_of_a_parsed_record {U : UnicodeData}
  (Client : Type) (client_write : Client -> list Point -> outcome Datatypes.unit)
  (client : Client)
  (ed : ExtractedData) (name : option pystr) (record : BloodworkRecord) :
  parse_blood_work_table ed name = Returned record ->
  (store_bloodwork_record client_write client record = true <->
   exists done, client_write client (map (point_of record) (results record))
                = Returned done) /\
  length (map (point_of record) (results record)) = length (results record) /\
  Forall (fun p =>
            measurement p = lit "bloodwork" /\
            time p = date ed /\
            tag_of (lit "patient_name") p = Some (name_tag name) /\
            (exists v, fields p = [(lit "value", v)] /\ float_nonneg v = true) /\
            match tag_of (lit "reference_range") p with
            | Some rr =>
                exists s, rr = PyStr s /\ nonempty s = true /\
                          tag_of (lit "unit") p = Some (PyStr (extract_unit_from_range s))
            | None => tag_of (lit "unit") p = Some (PyStr [])
            end)
    (map (point_of record) (results record)).
Proof.
  intros Hp. destruct (parsed_record_results _ _ Hp) as (Hname & Hdate & Hres).
  split; [|split].
  - unfold store_bloodwork_record.
    destruct (client_write client _) as [done|e].
    + split; [intros _; exists done; reflexivity | reflexivity].
    + split; [discriminate | intros [done Hd]; discriminate].
  - apply length_map.
  - apply Forall_forall. intros p (result & <- & Hin)%in_map_iff.
    rewrite Forall_forall in Hres. destruct (Hres result Hin) as (_ & Hunit & Hv).
    split; [reflexivity|]. split; [exact Hdate|].
    split; [unfold point_of; rewrite <- Hname;
            destruct (nonempty (reference_range result)); reflexivity|].
    split; [exists (value result); split; [reflexivity | exact Hv]|].
    unfold point_of, tag_of. cbn [tags].
    destruct (nonempty (reference_range result)) eqn:E.
    + change (exists s, PyStr (reference_range result) = PyStr s /\ nonempty s = true /\
                        Some (PyStr (unit result)) =
                        Some (PyStr (extract_unit_from_range s))).
      exists (reference_range result). rewrite <- Hunit. repeat split. exact E.
    + change (Some (PyStr (unit result)) = Some (PyStr [])).
      rewrite Hunit. destruct (reference_range result); [reflexivity | discriminate].
Qed.

Lemma stored_points_of_a_parsed_record_witness :
  (store_bloodwork_record failing_write tt record_wbc = true <->
   exists done, failing_write tt (map (point_of record_wbc) (results record_wbc))
                = Returned done) /\
  length (map (point_of record_wbc) (results record_wbc)) =
    length (results record_wbc) /\
  Forall (fun p =>
            measurement p = lit "bloodwork" /\
            time p = lit "2024-03-15" /\
            tag_of (lit "patient_name") p = Some PyNone /\
            (exists v, fields p = [(lit "value", v)] /\ float_nonneg v = true) /\
            match tag_of (lit "reference_range") p with
            | Some rr =>
                exists s, rr = PyStr s /\ nonempty s = true /\
                          tag_of (lit "unit") p = Some (PyStr (extract_unit_from_range s))
            | None => tag_of (lit "unit") p = Some (PyStr [])
            end)
    (map (point_of record_wbc) (results record_wbc)).
Proof.
  exact (@stored_points_of_a_parsed_record ascii_tables Datatypes.unit
           failing_write tt extracted_wbc None record_wbc
           ltac:(vm_compute; reflexivity)).
Defined.

(** ** TableAssembler: when assembly raises *)

Lemma mapM_raised {A B : Type} (f : A -> outcome B) (xs : list A) (e : exn) :
  mapM f xs = Raised e -> exists x, In x xs /\ f x = Raised e.
Proof.
  induction xs as [|x xs IH]; cbn [mapM]; [discriminate|].
  unfold bind at 1. destruct (f x) as [y|e'] eqn:Ex.
  - unfold bind. destruct (mapM f xs) as [ys|e'] eqn:Em; [discriminate|].
    intros [= <-]. destruct (IH eq_refl) as (x' & Hin & Hx').
    exists x'. split; [right; exact Hin | exact Hx'].
  - intros [= <-]. exists x. split; [left; reflexivity | exact Ex].
Qed.

Lemma mapM_raises (A B : Type) (f : A -> outcome B) (xs : list A) (e0 : exn) (x : A) :
  (forall x' e, f x' = Raised e -> e = e0) ->
  In x xs -> f x = Raised e0 -> mapM f xs = Raised e0.
Proof.
  intros Honly. induction xs as [|x' xs IH]; [intros []|].
  intros Hin Hx. cbn [mapM]. unfold bind at 1.
  destruct (f x') as [y|e] eqn:Ex'; [|rewrite (Honly _ _ Ex'); reflexivity].
  destruct Hin as [->|Hin]; [congruence|].
  rewrite (IH Hin Hx). reflexivity.
Qed.

Section AbortFacts.
Context {U : UnicodeData}.

Lemma cell_or_empty_raised (cell : pyobj) (e : exn) :
  cell_or_empty cell = Raised e ->
  e = TypeError /\ exists f, cell = PyFloat f /\ float_truthy f = true.
Proof.
  unfold cell_or_empty. destruct cell as [|s|f]; cbn [truthy].
  - discriminate.
  - destruct (nonempty s); discriminate.
  - destruct (float_truthy f) eqn:E; [|discriminate].
    intros [= <-]. split; [reflexivity|]. exists f. split; [reflexivity | exact E].
Qed.

Lemma row_text_raised (r : row) (e : exn) :
  row_text r = Raised e ->
  e = TypeError /\ exists f, In (PyFloat f) r /\ float_truthy f = true.
Proof.
  unfold row_text, bind.
  destruct (mapM cell_or_empty r) as [cells|e'] eqn:E; [discriminate|].
  intros [= <-]. apply mapM_raised in E. destruct E as (cell & Hin & Hc).
  apply cell_or_empty_raised in Hc. destruct Hc as (-> & f & -> & Hf).
  split; [reflexivity|]. exists f. split; assumption.
Qed.

Lemma row_text_raises (r : row) (f : spec_float) :
  In (PyFloat f) r -> float_truthy f = true -> row_text r = Raised TypeError.
Proof.
  intros Hin Hf. unfold row_text.
  rewrite (@mapM_raises _ _ cell_or_empty r TypeError (PyFloat f)).
  - reflexivity.
  - intros c e Hc. exact (proj1 (cell_or_empty_raised _ Hc)).
  - exact Hin.
  - unfold cell_or_empty. cbn [truthy]. rewrite Hf. reflexivity.
Qed.

Lemma find_header_row_from_raised (t : table) (k : nat) (e : exn) :
  find_header_row_from k t = Raised e ->
  e = TypeError /\
  exists r f, In r t /\ 2 <= length r /\ In (PyFloat f) r /\ float_truthy f = true.
Proof.
  revert k. induction t as [|r t IH]; intros k; cbn [find_header_row_from];
    [discriminate|].
  assert (Hrec : find_header_row_from (S k) t = Raised e ->
                 e = TypeError /\
                 exists r0 f, In r0 (r :: t) /\ 2 <= length r0 /\
                              In (PyFloat f) r0 /\ float_truthy f = true).
  { intros H. destruct (IH _ H) as (He & r0 & f & Hin & Hlen & Hf & Ht).
    split; [exact He|]. exists r0, f. repeat split; try assumption. right. exact Hin. }
  destruct (Nat.leb_spec 2 (length r)) as [Hlen|_]; [|exact Hrec].
  unfold bind. destruct (row_text r) as [text|e'] eqn:Et.
  - destruct (is_header_text text); [discriminate | exact Hrec].
  - intros [= <-]. destruct (row_text_raised _ Et) as (He & f & Hin & Hf).
    split; [exact He|]. exists r, f. repeat split; try assumption. left. reflexivity.
Qed.

Lemma data_rows_raised (t : table) (e : exn) :
  data_rows t = Raised e ->
  e = TypeError /\
  exists r f, In r t /\ 2 <= length r /\ In (PyFloat f) r /\ float_truthy f = true.
Proof.
  unfold data_rows, bind, find_header_row.
  destruct (find_header_row_from 0 t) as [found|e'] eqn:E; [discriminate|].
  intros [= <-]. exact (find_header_row_from_raised _ _ E).
Qed.

Lemma data_rows_raises (r : row) (rest : table) (f : spec_float) :
  2 <= length r -> In (PyFloat f) r -> float_truthy f = true ->
  data_rows (r :: rest) = Raised TypeError.
Proof.
  intros Hlen Hin Hf. unfold data_rows, find_header_row. cbn [find_header_row_from].
  rewrite (proj2 (Nat.leb_le 2 (length r)) Hlen).
  rewrite (row_text_raises _ _ Hin Hf). reflexivity.
Qed.
End AbortFacts.

(** X16. Header detection is outside the handler of the row parser. The
    assembly of a record raises nothing but [TypeError], and only when some
    table has a row of at least two cells with a float cell that is truthy
    (NaN, as pandas writes a missing cell): the join of the cells of that row
    fails. Such a row at the top of a table always aborts the whole record,
    whatever the other rows and tables hold, while the same row below the
    header is skipped by the row parser. *)
Theorem float_cell_above_header_aborts {U : UnicodeData}
  (ed : ExtractedData) (name : option pystr) :
  (forall e, parse_blood_work_table ed name = Raised e ->
             e = TypeError /\
             exists t r f, In t (tables ed) /\ In r t /\ 2 <= length r /\
                           In (PyFloat f) r /\ float_truthy f = true) /\
  (forall r rest f,
      In (r :: rest) (tables ed) -> 2 <= length r ->
      In (PyFloat f) r -> float_truthy f = true ->
      parse_blood_work_table ed name = Raised TypeError).
Proof.
  rewrite parse_blood_work_table_rows. split.
  - intros e. unfold bind.
    destruct (mapM data_rows (tables ed)) as [rowss|e'] eqn:E; [discriminate|].
    intros [= <-]. apply mapM_raised in E. destruct E as (t & Hin & Ht).
    destruct (data_rows_raised _ Ht) as (He & r & f & Hr & Hlen & Hf & Htr).
    split; [exact He|]. exists t, r, f. repeat split; assumption.
  - intros r rest f Hin Hlen Hf Htr.
    rewrite (@mapM_raises _ _ data_rows (tables ed) TypeError (r :: rest)).
    + reflexivity.
    + intros t e Ht. exact (proj1 (data_rows_raised _ Ht)).
    + exact Hin.
    + exact (@data_rows_raises U r rest f Hlen Hf Htr).
Qed.

Lemma float_cell_above_header_aborts_witness :
  parse_blood_work_table (U := ascii_tables)
    {| date := lit "2024-03-15"; tables := [[row_header; row_glucose]; table_nan_first] |}
    None = Raised TypeError /\
  exists record,
    parse_blood_work_table (U := ascii_tables)
      {| date := lit "2024-03-15"; tables := [table_nan_below] |} None
    = Returned record /\ length (results record) = 1.
Proof.
  split.
  - exact (proj2 (@float_cell_above_header_aborts ascii_tables
                    {| date := lit "2024-03-15";
                       tables := [[row_header; row_glucose]; table_nan_first] |} None)
             row_nan [row_header; row_glucose] S754_nan
             ltac:(right; left; reflexivity) ltac:(cbn; lia)
             ltac:(left; reflexivity) eq_refl).
  - eexists. split; [vm_compute; reflexivity | reflexivity].
Defined.

(** ** Configuration: [InfluxDBService.__init__], [lifespan], [health_check] *)

(** X17. The flag influxdb_configured of the health answer and the start
    of the storage service read different variables. The flag is the
    truthiness of INFLUX_URL and of nothing else; the service, started
    without arguments, reads INFLUXDB_HOST and INFLUXDB_TOKEN and never
    INFLUX_URL: it raises [ValueError] without reaching the client library
    when either is unset or empty, and otherwise hands both to the client,
    with the database bloodwork. Setting or unsetting INFLUX_URL changes
    the flag and never the start; setting the two others changes the start
    and never the flag. *)
Theorem health_flag_ignores_the_service_variables
  (Client : Type) (InfluxDBClient3 : pystr -> pystr -> pystr -> outcome Client)
  (env : environ) (v : option pystr) :
  health_check (setenv (lit "INFLUX_URL") v env) = opt_truthy v /\
  lifespan_startup InfluxDBClient3 (setenv (lit "INFLUX_URL") v env) =
    lifespan_startup InfluxDBClient3 env /\
  health_check (setenv (lit "INFLUXDB_HOST") v env) = health_check env /\
  health_check (setenv (lit "INFLUXDB_TOKEN") v env) = health_check env /\
  (opt_truthy (env (lit "INFLUXDB_HOST")) && opt_truthy (env (lit "INFLUXDB_TOKEN"))
   = false ->
   lifespan_startup InfluxDBClient3 env = Raised ValueError) /\
  (forall host token,
      env (lit "INFLUXDB_HOST") = Some host -> nonempty host = true ->
      env (lit "INFLUXDB_TOKEN") = Some token -> nonempty token = true ->
      lifespan_startup InfluxDBClient3 env =
      InfluxDBClient3 host token (lit "bloodwork")).
Proof.
  repeat split.
  - intros H. unfold lifespan_startup, InfluxDBService_init, py_or. cbn [opt_truthy].
    destruct (env (lit "INFLUXDB_HOST")) as [[|h hs]|];
      destruct (env (lit "INFLUXDB_TOKEN")) as [[|k ks]|];
      try reflexivity; discriminate.
  - intros host token Hh Hhn Ht Htn.
    unfold lifespan_startup, InfluxDBService_init, py_or. cbn [opt_truthy].
    rewrite Hh, Ht. destruct host; [discriminate|]. destruct token; [discriminate|].
    reflexivity.
Qed.

(** ** Upload: how it fails and what it answers *)

Section UploadFacts.
Context {U : UnicodeData} {L : Platform}.
Variable now : datetime.
Variable str_of_failure : failure -> pystr.

Lemma parse_blood_work_table_raised (ed : ExtractedData) (name : option pystr)
  (e : exn) :
  parse_blood_work_table ed name = Raised e -> e = TypeError.
Proof.
  rewrite parse_blood_work_table_rows. unfold bind.
  destruct (mapM data_rows (tables ed)) as [rowss|e'] eqn:E; [discriminate|].
  intros [= <-]. apply mapM_raised in E. destruct E as (t & _ & Ht).
  exact (proj1 (data_rows_raised _ Ht)).
Qed.

Lemma extract_pdf_data_failed (file : Upload) (user_bday : option pystr) (f : failure) :
  extract_pdf_data now file user_bday = Failed f -> f = extraction_failed.
Proof.
  unfold extract_pdf_data.
  destruct (extract_pdf_data_body now file user_bday); [discriminate|].
  intros [= <-]. reflexivity.
Qed.

Lemma extract_pdf_data_done (file : Upload) (user_bday : option pystr)
  (extracted : Extracted) :
  extract_pdf_data now file user_bday = Done extracted ->
  exists limit size,
    max_size file = Returned limit /\
    content_length file = Returned size /\
    (Z.of_N size <= limit)%Z /\
    camelot_tables file = Returned (tables (data extracted)) /\
    first_page_text file = Returned (full_text extracted) /\
    extract_test_date now (full_text extracted) user_bday =
      Returned (date (data extracted)).
Proof.
  unfold extract_pdf_data, extract_pdf_data_body, and_then, attempt_of.
  destruct (max_size file) as [limit|]; [|discriminate].
  destruct (content_length file) as [size|]; [|discriminate].
  destruct (Z.ltb_spec limit (Z.of_N size)) as [|Hle]; [discriminate|].
  destruct (camelot_tables file) as [found|]; [|discriminate].
  destruct (first_page_text file) as [text|]; [|discriminate].
  destruct (extract_test_date now text user_bday) as [resolved|] eqn:Ed;
    [|discriminate].
  intros [= <-]. cbn [data tables full_text date].
  exists limit, size. repeat split; solve [reflexivity | assumption].
Qed.
End UploadFacts.

(** X18. Whatever goes wrong while a file is handled, [handle_bloodwork]
    raises an HTTP error of status 500, and its detail is the fixed prefix
    followed by the text of one of three exceptions: the bare exception of
    a failed extraction, the 400 raised for a file without tables, or the
    [TypeError] of the assembly. The statuses 413 and 400 raised inside
    never reach the caller: a file over the size limit, and every other
    failure of the extraction, the date resolver included, is reported with
    the same detail as an unreadable file; a file without tables is
    reported as a 500. *)
Theorem handle_bloodwork_fails_with_500 {U : UnicodeData} {L : Platform}
  (now : datetime) (str_of_failure : failure -> pystr)
  (store : BloodworkRecord -> bool)
  (file : Upload) (name birthday : option pystr) :
  (forall f,
      handle_bloodwork now str_of_failure store file name birthday = Failed f ->
      exists cause,
        f = HTTPException 500 (lit "Error processing file: " ++ str_of_failure cause) /\
        (cause = extraction_failed \/ cause = no_table_data \/
         cause = Builtin TypeError)) /\
  (forall limit size,
      max_size file = Returned limit -> content_length file = Returned size ->
      (limit < Z.of_N size)%Z ->
      extract_pdf_data_body now file birthday =
        Failed (HTTPException 413 (lit "File too large. Maximum size: "
                                     ++ str_of_Z limit ++ lit " bytes")) /\
      handle_bloodwork now str_of_failure store file name birthday =
        Failed (HTTPException 500 (lit "Error processing file: "
                                     ++ str_of_failure extraction_failed))) /\
  (forall f,
      extract_pdf_data_body now file birthday = Failed f ->
      handle_bloodwork now str_of_failure store file name birthday =
        Failed (HTTPException 500 (lit "Error processing file: "
                                     ++ str_of_failure extraction_failed))) /\
  (forall extracted,
      extract_pdf_data now file birthday = Done extracted ->
      tables (data extracted) = [] ->
      handle_bloodwork now str_of_failure store file name birthday =
        Failed (HTTPException 500 (lit "Error processing file: "
                                     ++ str_of_failure no_table_data))).
Proof.
  assert (Hbody : forall f,
             extract_pdf_data_body now file birthday = Failed f ->
             handle_bloodwork now str_of_failure store file name birthday =
             Failed (HTTPException 500 (lit "Error processing file: "
                                          ++ str_of_failure extraction_failed))).
  { intros f Hf. unfold handle_bloodwork, handle_bloodwork_body, extract_pdf_data.
    rewrite Hf. reflexivity. }
  split; [|split; [|split; [exact Hbody|]]].
  - intros f. unfold handle_bloodwork, handle_bloodwork_body, and_then.
    destruct (extract_pdf_data now file birthday) as [extracted|f'] eqn:E.
    + destruct (negb (nonempty (tables (data extracted)))).
      * intros [= <-]. exists no_table_data. split; [reflexivity|]. right. left. reflexivity.
      * unfold attempt_of.
        destruct (parse_blood_work_table (data extracted) name) as [parsed|e] eqn:Ep;
          [discriminate|].
        intros [= <-]. exists (Builtin e). split; [reflexivity|].
        right. right. rewrite (parse_blood_work_table_raised _ _ Ep). reflexivity.
    + intros [= <-]. exists f'. split; [reflexivity|]. left.
      exact (extract_pdf_data_failed _ _ _ E).
  - intros limit size Hl Hs Hlt.
    assert (Hb : extract_pdf_data_body now file birthday =
                 Failed (HTTPException 413 (lit "File too large. Maximum size: "
                                              ++ str_of_Z limit ++ lit " bytes"))).
    { unfold extract_pdf_data_body, and_then, attempt_of. rewrite Hl, Hs.
      rewrite (proj2 (Z.ltb_lt _ _) Hlt). reflexivity. }
    split; [exact Hb | exact (Hbody _ Hb)].
  - intros extracted He Hnil.
    unfold handle_bloodwork, handle_bloodwork_body, and_then.
    rewrite He, Hnil. reflexivity.
Qed.

(** X19. When [handle_bloodwork] answers, the file was within the size
    limit and had at least one table; the answer carries the file name and
    the name as given, the fixed message, the date the resolver returned for
    the text of the first page, and the results of the record assembled
    from the tables with that date, every one of them dated with it and with
    a value that is not negative. The answer does not depend on the storage
    service: the outcome of the write is dropped, so a record that could
    not be stored is answered like one that was. *)
Theorem handle_bloodwork_answer {U : UnicodeData} {L : Platform}
  (now : datetime) (str_of_failure : failure -> pystr)
  (store : BloodworkRecord -> bool)
  (file : Upload) (name birthday : option pystr) (response : Response) :
  handle_bloodwork now str_of_failure store file name birthday = Done response ->
  (exists limit size found text,
      max_size file = Returned limit /\
      content_length file = Returned size /\
      (Z.of_N size <= limit)%Z /\
      camelot_tables file = Returned found /\ found <> [] /\
      first_page_text file = Returned text /\
      extract_test_date now text birthday = Returned (response_test_date response) /\
      parse_blood_work_table
        {| date := response_test_date response; tables := found |} name =
      Returned {| patient_name := name;
                  record_date := response_test_date response;
                  results := response_results response |}) /\
  response_filename response = filename file /\
  response_name response = name /\
  message response = lit "Blood work parsed successfully" /\
  Forall (fun result =>
            test_date result = response_test_date response /\
            float_nonneg (value result) = true) (response_results response) /\
  (forall (Client : Type) (client_write : Client -> list Point -> outcome Datatypes.unit)
          (client : Client),
      handle_bloodwork now str_of_failure (store_bloodwork_record client_write client)
        file name birthday = Done response).
Proof.
  unfold handle_bloodwork, handle_bloodwork_body, and_then.
  destruct (extract_pdf_data now file birthday) as [extracted|f] eqn:E; [|discriminate].
  destruct (nonempty (tables (data extracted))) eqn:Ene; [|discriminate].
  cbn [negb]. unfold attempt_of.
  destruct (parse_blood_work_table (data extracted) name) as [parsed|e] eqn:Ep;
    [|discriminate].
  intros [= <-].
  cbn [response_filename response_test_date response_name response_results message].
  destruct (extract_pdf_data_done _ _ _ E) as (limit & size & Hl & Hs & Hle & Hc & Ht & Hd).
  destruct (parsed_record_results _ _ Ep) as (Hname & Hdate & Hres).
  split; [|split; [reflexivity|split; [reflexivity|split; [reflexivity|split]]]].
  - exists limit, size, (tables (data extracted)), (full_text extracted).
    rewrite Hdate.
    repeat split; try assumption.
    + intros Hnil. rewrite Hnil in Ene. discriminate.
    + destruct (data extracted) as [d ts]. cbn [date tables] in *.
      rewrite Ep. destruct parsed as [pn rd rs]. cbn in Hname, Hdate. subst pn rd.
      reflexivity.
  - rewrite Hdate. rewrite Forall_forall in Hres. apply Forall_forall.
    intros result Hin. destruct (Hres result Hin) as (Hdt & _ & Hv).
    split; assumption.
  - intros Client client_write client. reflexivity.
Qed.

Lemma handle_bloodwork_answer_witness :
  handle_bloodwork (U := ascii_tables) march_15 str_of_any
    (store_bloodwork_record failing_write tt)
    upload_wbc None (Some (lit "01/01/1990")) = Done response_wbc.
Proof.
  exact (proj2 (proj2 (proj2 (proj2 (proj2
           (@handle_bloodwork_answer ascii_tables glibc march_15 str_of_any
              (fun _ => true) upload_wbc None (Some (lit "01/01/1990")) response_wbc
              ltac:(vm_compute; reflexivity))))))
           Datatypes.unit failing_write tt).
Defined.

(** X20. [upload_bloodwork] checks the birthday first, then the file name,
    and only then reads the file. A birthday the validator refuses is
    answered with status 400 whatever the file is; with a valid birthday, a
    name that does not end in .pdf once lower-cased is answered with status
    400 and the fixed detail, and nothing of the file is read. Every failure
    is an HTTP error of status 400 or 500. The endpoint succeeds exactly
    when both checks pass and [handle_bloodwork] answers, and then it
    returns nothing: the parsed results are not passed on. *)
Theorem upload_bloodwork_outcomes {U : UnicodeData} {L : Platform}
  (now : datetime) (str_of_failure : failure -> pystr) (lower : pystr -> pystr)
  (store : BloodworkRecord -> bool)
  (file : Upload) (birthday name : option pystr) :
  (forall e,
      validate_birthday birthday = Raised e ->
      upload_bloodwork now str_of_failure lower store file birthday name =
      Failed (HTTPException 400 (str_of_failure (Builtin ValueError)))) /\
  (forall other : Upload,
      validate_birthday birthday <> Raised ValueError ->
      endswith (lit ".pdf") (lower (filename file)) = false ->
      filename other = filename file ->
      upload_bloodwork now str_of_failure lower store other birthday name =
      Failed (HTTPException 400 (lit "Only PDF files are supported"))) /\
  (forall f,
      upload_bloodwork now str_of_failure lower store file birthday name = Failed f ->
      exists detail, f = HTTPException 400 detail \/ f = HTTPException 500 detail) /\
  (upload_bloodwork now str_of_failure lower store file birthday name = Done tt <->
   validate_birthday birthday = Returned birthday /\
   endswith (lit ".pdf") (lower (filename file)) = true /\
   exists response,
     handle_bloodwork now str_of_failure store file name birthday = Done response).
Proof.
  assert (Hv : validate_birthday birthday = Returned birthday \/
               validate_birthday birthday = Raised ValueError).
  { destruct birthday as [[|c s]|]; cbn [validate_birthday]; try (left; reflexivity).
    destruct (strptime_any (c :: s)); [left | right]; reflexivity. }
  split; [|split; [|split]].
  - intros e He. unfold upload_bloodwork.
    destruct Hv as [Hv|Hv]; rewrite Hv in *; [discriminate|]. reflexivity.
  - intros other Hok Hext Hname. unfold upload_bloodwork.
    destruct Hv as [Hv|Hv]; [|contradiction]. rewrite Hv, Hname, Hext. reflexivity.
  - intros f. unfold upload_bloodwork.
    destruct Hv as [Hv|Hv]; rewrite Hv.
    + destruct (endswith _ _); cbn [negb].
      * unfold and_then.
        destruct (handle_bloodwork now str_of_failure store file name birthday)
          as [response|f'] eqn:Eh; [discriminate|].
        intros [= <-]. unfold handle_bloodwork in Eh.
        destruct (handle_bloodwork_body now store file name birthday);
          [discriminate|].
        injection Eh as <-. eexists. right. reflexivity.
      * intros [= <-]. eexists. left. reflexivity.
    + intros [= <-]. eexists. left. reflexivity.
  - unfold upload_bloodwork. destruct Hv as [Hv|Hv]; rewrite Hv.
    + destruct (endswith _ _); cbn [negb]; unfold and_then.
      * destruct (handle_bloodwork now str_of_failure store file name birthday)
          as [response|f'].
        -- split; [intros _|reflexivity].
           split; [reflexivity|]. split; [reflexivity|]. exists response. reflexivity.
        -- split; [discriminate|]. intros (_ & _ & response & H). discriminate.
      * split; [discriminate|]. intros (_ & H & _). discriminate.
    + split; [discriminate|]. intros (H & _). discriminate.
Qed.
